(** * ai_dub: the dubbing pipeline and its stage adapters

    A shallow embedding of [main.process_video] and of the adapters it
    drives ([utils/downloader.py], [utils/audio_extractor.py],
    [utils/transcriber.py], [utils/translator.py], [utils/tts.py],
    [utils/voice_cloner.py], [utils/voice_cloner_fallback.py],
    [utils/video_merger.py]).

    Python code becomes a computation over a [world]: the files on disk,
    the state of everything outside the program (network, installed
    tools, clock) and the chronological record of what the program logged
    and which library or process it called.  Exceptions are results of
    the computation, so that every [try]/[except] of the source is a
    [try_except] here with the same handlers.

    The rest of the repository follows the adapters: the test scripts
    and the voice sample they make ([test_voice_cloner.py],
    [test_voice_cloner_with_env.py], [utils/create_test_audio.py]), the
    logger ([utils/logger.py]), the recorder ([utils/audio_recorder.py])
    and the command line of [main.py].

    Not modelled: console output ([print]), elapsed times and sizes in
    megabytes (log lines that format them keep the placeholder), text
    encodings (strings are byte strings, and the arrow in the translator's
    log lines is written [->]), and the directory tree ([os.makedirs] only
    fails on the empty path and on a path held by a regular file).  A
    child process is taken from its start to its exit in one call. *)

From Stdlib Require Import String Ascii List ZArith Lia.
From stdpp Require Import base tactics option list gmap strings pretty.

Local Open Scope string_scope.
Local Open Scope Z_scope.

(** ** Strings, as Python uses them *)

Module Py.

(** [c.lower()] on the ASCII letters; other bytes are left alone. *)
Definition lower_ascii (c : ascii) : ascii :=
  let n := nat_of_ascii c in
  if (Nat.leb 65 n && Nat.leb n 90)%bool then ascii_of_nat (n + 32) else c.

Fixpoint lower (s : string) : string :=
  match s with
  | EmptyString => EmptyString
  | String c r => String (lower_ascii c) (lower r)
  end.

(** [s[:2]] *)
Definition take2 (s : string) : string := String.substring 0 2 s.

(** [s.startswith(p)] *)
Definition startswith (s p : string) : bool := String.prefix p s.

(** [s.replace(c, "")] for a one-character pattern. *)
Fixpoint remove_char (c : ascii) (s : string) : string :=
  match s with
  | EmptyString => EmptyString
  | String d r =>
      if Ascii.eqb c d then remove_char c r else String d (remove_char c r)
  end.

(** White space, as [str.strip] takes it off: the characters for which
    [str.isspace] holds, read off the bytes of a string in UTF-8.  One
    byte: the characters 9 to 13, 28 to 31 and 32. *)
Definition is_space (c : ascii) : bool :=
  let n := nat_of_ascii c in
  ((Nat.leb 9 n && Nat.leb n 13) || (Nat.leb 28 n && Nat.leb n 32))%bool.

(** Two bytes: U+0085 and U+00A0. *)
Definition is_space2 (a b : ascii) : bool :=
  (Nat.eqb (nat_of_ascii a) 194
   && (Nat.eqb (nat_of_ascii b) 133 || Nat.eqb (nat_of_ascii b) 160))%bool.

(** Three bytes: U+1680, U+2000 to U+200A, U+2028, U+2029, U+202F, U+205F
    and U+3000. *)
Definition is_space3 (a b c : ascii) : bool :=
  let x := nat_of_ascii a in
  let y := nat_of_ascii b in
  let z := nat_of_ascii c in
  ((Nat.eqb x 225 && Nat.eqb y 154 && Nat.eqb z 128)
   || (Nat.eqb x 226 && Nat.eqb y 128
       && ((Nat.leb 128 z && Nat.leb z 138)
           || Nat.eqb z 168 || Nat.eqb z 169 || Nat.eqb z 175))
   || (Nat.eqb x 226 && Nat.eqb y 129 && Nat.eqb z 159)
   || (Nat.eqb x 227 && Nat.eqb y 128 && Nat.eqb z 128))%bool.

(** [s.lstrip()] *)
Fixpoint lstrip (s : string) : string :=
  match s with
  | EmptyString => EmptyString
  | String a r =>
      if is_space a then lstrip r
      else
        match r with
        | EmptyString => s
        | String b r2 =>
            if is_space2 a b then lstrip r2
            else
              match r2 with
              | EmptyString => s
              | String c r3 => if is_space3 a b c then lstrip r3 else s
              end
        end
  end.

(** [lstrip] on a string that is read from its end: the bytes of a
    character come in reverse. *)
Fixpoint lstrip_rev (s : string) : string :=
  match s with
  | EmptyString => EmptyString
  | String c r =>
      if is_space c then lstrip_rev r
      else
        match r with
        | EmptyString => s
        | String b r2 =>
            if is_space2 b c then lstrip_rev r2
            else
              match r2 with
              | EmptyString => s
              | String a r3 => if is_space3 a b c then lstrip_rev r3 else s
              end
        end
  end.

(** [s.rstrip()] *)
Definition rstrip (s : string) : string :=
  String.rev (lstrip_rev (String.rev s)).

(** [s.strip()] *)
Definition strip (s : string) : string := rstrip (lstrip s).

(** Truth value of a string: [""] is false. *)
Definition nonempty (s : string) : bool :=
  match s with EmptyString => false | String _ _ => true end.

(** Truth value of a value that is a string or [None]. *)
Definition truthy (o : option string) : bool :=
  match o with Some s => nonempty s | None => false end.

(** [str(n)] *)
Definition str (n : Z) : string := pretty n.

(** Position one past the last ["/"] of [s], as [s.rfind("/") + 1]. *)
Fixpoint after_last_slash (s : string) : nat :=
  match s with
  | EmptyString => 0%nat
  | String c r =>
      let k := after_last_slash r in
      if Nat.eqb k 0
      then (if Ascii.eqb c "/" then 1%nat else 0%nat)
      else S k
  end.

Fixpoint all_slashes (s : string) : bool :=
  match s with
  | EmptyString => true
  | String c r => (Ascii.eqb c "/" && all_slashes r)%bool
  end.

Fixpoint lstrip_slashes (s : string) : string :=
  match s with
  | EmptyString => EmptyString
  | String c r => if Ascii.eqb c "/" then lstrip_slashes r else s
  end.

Definition rstrip_slashes (s : string) : string :=
  String.rev (lstrip_slashes (String.rev s)).

(** [posixpath.dirname] *)
Definition dirname (p : string) : string :=
  let head := String.substring 0 (after_last_slash p) p in
  if (nonempty head && negb (all_slashes head))%bool
  then rstrip_slashes head else head.

(** [posixpath.basename] *)
Definition basename (p : string) : string :=
  let i := after_last_slash p in
  String.substring i (String.length p - i) p.

(** [posixpath.join(a, b)] *)
Definition join (a b : string) : string :=
  if startswith b "/" then b
  else if (negb (nonempty a) || String.prefix "/" (String.rev a))%bool
       then a +:+ b
       else a +:+ "/" +:+ b.

End Py.

(** ** Exceptions

    The classes the source names in an [except] clause, and one class for
    every other subclass of [Exception].  [exn_text] is [str(e)]. *)

Inductive exn_class :=
| FileNotFoundError
| FileExistsError
| ImportError
| PytubeError
| AttributeError
| OtherException.

#[global] Instance exn_class_eq_dec : EqDecision exn_class.
Proof. solve_decision. Defined.

Record exn := Exc { exn_kind : exn_class; exn_text : string }.

(** [isinstance(e, cls)] for the classes above, none of which derives from
    another one of them. *)
Definition isinstance (e : exn) (c : exn_class) : bool :=
  bool_decide (exn_kind e = c).

(** ** The record of a run *)

Inductive level := DEBUG | INFO | WARNING | ERROR.

#[global] Instance level_eq_dec : EqDecision level.
Proof. solve_decision. Defined.

(** What [subprocess.Popen] hands back once the child has exited. *)
Record process := Proc { returncode : Z; stdout : string; stderr : string }.

(** Every call that leaves the program: the libraries and the child
    processes that do the actual downloading, transcoding and inference. *)
Inductive call :=
| CYouTube (url : string)
| CStreamsFirst (url : string) (resolution : option string)
| CStreamDownload (stream output_dir filename : string)
| CPopen (cmd : list string)
| CWhisperLoadModel (model_name : string)
| CWhisperTranscribe (model_name audio_path : string) (language : option string)
| CTranslatepy (text source_lang target_lang : string)
| COpenAIChat (api_key system_message text : string)
| CgTTS (text lang : string)
| CgTTSSave (text lang path : string)
| CImportBark
| CBarkPreload
| CBarkGenerate (text history_prompt : string)
| CSoundfileWrite (path audio : string)
| CImportTTS
| CTTSLoad (model_name : string) (gpu : bool)
| CTTSToFile (model_name text : string)
             (file_path speaker_wav language : option string)
| CCudaIsAvailable
| CTime
| CVideoFileClip (path : string)
| CAudioFileClip (path : string)
| CWriteVideofile (output_path video_path audio_path : string)
                  (audio_end : option Z).

Inductive event :=
| Log (logger : string) (lvl : level) (msg : string)
| Call (c : call).

Definition is_call (e : event) : bool :=
  match e with Call _ => true | Log _ _ _ => false end.

(** The engine invocations of a record, in order. *)
Definition calls (tr : list event) : list event := List.filter is_call tr.

(** The messages logged at level [l], in order. *)
Fixpoint messages_at (l : level) (tr : list event) : list string :=
  match tr with
  | [] => []
  | Log _ l' m :: r =>
      if bool_decide (l' = l) then m :: messages_at l r else messages_at l r
  | Call _ :: r => messages_at l r
  end.

(** ** The world and computations over it *)

Inductive res (A : Type) :=
| Val (a : A)
| Raise (e : exn).
Arguments Val {A} a.
Arguments Raise {A} e.

Section World.

(** Whatever is outside the program and can change between two calls:
    the network, the remote services, the clock. *)
Context {X : Type}.

Record sys := Sys { outside : X; files : gmap string string }.

Record world := World { system : sys; trace : list event }.

(** The behaviour of one external call. *)
Definition ext (A : Type) : Type := sys -> res A * sys.

Definition M (A : Type) : Type := world -> res A * world.

Definition ret {A} (a : A) : M A := fun w => (Val a, w).

Definition raise {A} (e : exn) : M A := fun w => (Raise e, w).

Definition bind {A B} (m : M A) (k : A -> M B) : M B :=
  fun w =>
    match m w with
    | (Val a, w') => k a w'
    | (Raise e, w') => (Raise e, w')
    end.

(** [try: m  except Exception as e: h e]; a handler list that ends in
    [except Exception] is a case analysis on [e] inside [h]. *)
Definition try_except {A} (m : M A) (h : exn -> M A) : M A :=
  fun w =>
    match m w with
    | (Val a, w') => (Val a, w')
    | (Raise e, w') => h e w'
    end.

Definition emit (e : event) : M unit :=
  fun w => (Val tt, {| system := system w; trace := trace w ++ [e] |}).

(** [logging.getLogger(name).log(lvl, msg)] *)
Definition log (name : string) (lvl : level) (msg : string) : M unit :=
  emit (Log name lvl msg).

(** An external call: it is recorded, then it acts on the system. *)
Definition extern {A} (c : call) (f : ext A) : M A :=
  fun w =>
    let '(r, s) := f (system w) in
    (r, {| system := s; trace := trace w ++ [Call c] |}).

Definition file_exists (s : sys) (p : string) : bool :=
  bool_decide (is_Some (files s !! p)).

(** [os.path.exists(p)] *)
Definition path_exists (p : string) : M bool :=
  fun w => (Val (file_exists (system w) p), w).

(** [os.path.getsize(p)] *)
Definition getsize (p : string) : M Z :=
  fun w =>
    match files (system w) !! p with
    | Some c => (Val (Z.of_nat (String.length c)), w)
    | None =>
        (Raise (Exc FileNotFoundError
                    ("[Errno 2] No such file or directory: '" +:+ p +:+ "'")), w)
    end.

(** [os.makedirs(d, exist_ok=True)] *)
Definition makedirs (d : string) : M unit :=
  fun w =>
    if negb (Py.nonempty d) then
      (Raise (Exc FileNotFoundError
                  "[Errno 2] No such file or directory: ''"), w)
    else if file_exists (system w) d then
      (Raise (Exc FileExistsError
                  ("[Errno 17] File exists: '" +:+ d +:+ "'")), w)
    else (Val tt, w).

(** [with open(p, "r", encoding="utf-8") as f: f.read()] *)
Definition read_file (p : string) : M string :=
  fun w =>
    match files (system w) !! p with
    | Some c => (Val c, w)
    | None =>
        (Raise (Exc FileNotFoundError
                    ("[Errno 2] No such file or directory: '" +:+ p +:+ "'")), w)
    end.

(** [with open(p, "w", encoding="utf-8") as f: f.write(c)] *)
Definition write_file (p c : string) : M unit :=
  fun w =>
    (Val tt,
     {| system := {| outside := outside (system w);
                     files := <[p := c]> (files (system w)) |};
        trace := trace w |}).

End World.

Arguments sys X : clear implicits.
Arguments world X : clear implicits.
Arguments ext X A : clear implicits.
Arguments M X A : clear implicits.

Declare Scope py_scope.
Delimit Scope py_scope with py.
Notation "x <- m ;; k" := (bind m (fun x => k))
  (at level 100, m at next level, right associativity) : py_scope.
Notation "m ;; k" := (bind m (fun _ => k))
  (at level 100, right associativity) : py_scope.
Local Open Scope py_scope.

(** ** The external collaborators

    What each external call returns to the program.  An environment says,
    for every call, how it acts on the system and what it returns or
    raises; nothing is assumed about it. *)

Definition returns (c : call) : Type :=
  match c with
  | CYouTube _ => string                 (* [yt.title] *)
  | CStreamsFirst _ _ => option string   (* a stream, or [None] *)
  | CStreamDownload _ _ _ => unit
  | CPopen _ => process
  | CWhisperLoadModel _ => unit
  | CWhisperTranscribe _ _ _ => string   (* [result["text"]] *)
  | CTranslatepy _ _ _ => string         (* [result.result] *)
  | COpenAIChat _ _ _ => option string   (* content of the first choice *)
  | CgTTS _ _ => unit
  | CgTTSSave _ _ _ => unit
  | CImportBark => unit
  | CBarkPreload => unit
  | CBarkGenerate _ _ => string          (* the audio array *)
  | CSoundfileWrite _ _ => unit
  | CImportTTS => unit
  | CTTSLoad _ _ => unit
  | CTTSToFile _ _ _ _ _ => unit
  | CCudaIsAvailable => bool
  | CTime => Z                           (* [int(time.time())] *)
  | CVideoFileClip _ => Z                (* [clip.duration] *)
  | CAudioFileClip _ => Z
  | CWriteVideofile _ _ _ _ => unit
  end.

Definition Env (X : Type) : Type := forall c : call, ext X (returns c).

(** ** config/settings.py *)

Record Settings := { BASE_DIR : string; OPENAI_API_KEY : string }.

Definition OUTPUTS_DIR (cfg : Settings) : string := Py.join (BASE_DIR cfg) "outputs".
Definition TEMP_VIDEO_PATH (cfg : Settings) := Py.join (OUTPUTS_DIR cfg) "temp_video.mp4".
Definition TEMP_AUDIO_PATH (cfg : Settings) := Py.join (OUTPUTS_DIR cfg) "temp_audio.wav".
Definition TEMP_TRANSCRIPT_PATH (cfg : Settings) := Py.join (OUTPUTS_DIR cfg) "transcript.txt".
Definition TEMP_TRANSLATED_PATH (cfg : Settings) := Py.join (OUTPUTS_DIR cfg) "translated.txt".
Definition TEMP_DUBBED_AUDIO_PATH (cfg : Settings) := Py.join (OUTPUTS_DIR cfg) "dubbed_audio.wav".
Definition OUTPUT_VIDEO_PATH (cfg : Settings) := Py.join (OUTPUTS_DIR cfg) "dubbed_video.mp4".
Definition SOURCE_LANGUAGE : string := "en".
Definition TARGET_LANGUAGE : string := "tr".
Definition WHISPER_MODEL : string := "base".
Definition TTS_ENGINE : string := "gtts".
Definition TRANSLATION_ENGINE : string := "google".

Definition invoke {X : Type} (env : Env X) (c : call) : M X (returns c) :=
  extern c (env c).

(** ** utils/downloader.py *)

Module downloader.
Section Defs.

Context {X : Type} (env : Env X).

Definition yt_dlp_cmd (url output_path resolution : string) : list string :=
  ["yt-dlp"; "-f"; "best[height<=" +:+ resolution +:+ "]";
   "-o"; output_path; "--no-playlist"; url].

Definition download_video_with_yt_dlp
    (url output_path resolution : string) : M X (option string) :=
  let logger := log "utils.downloader" in
  try_except
    (makedirs (Py.dirname output_path);;
     logger INFO ("Attempting to download with yt-dlp: " +:+ url);;
     p <- invoke env (CPopen (yt_dlp_cmd url output_path resolution));;
     if negb (returncode p =? 0) then
       logger ERROR ("yt-dlp error: " +:+ stderr p);;
       ret None
     else
       _ <- getsize output_path;;
       logger INFO ("Video downloaded successfully using yt-dlp to " +:+ output_path);;
       logger INFO "Download time: {:.2f} seconds, Size: {:.2f} MB";;
       ret (Some output_path))
    (fun e =>
       if isinstance e FileNotFoundError then
         logger ERROR "yt-dlp is not installed. Install it with 'pip install yt-dlp'";;
         ret None
       else
         logger ERROR ("Error using yt-dlp: " +:+ exn_text e);;
         ret None).

(** The body of the [try] of [download_youtube_video]: the pytube
    attempt. *)
Definition download_with_pytube
    (url output_path resolution : string) : M X (option string) :=
  let logger := log "utils.downloader" in
  title <- invoke env (CYouTube url);;
  logger INFO ("Video title: " +:+ title);;
  first <- invoke env (CStreamsFirst url (Some resolution));;
  video_stream <-
    match first with
    | Some s => ret (Some s)
    | None =>
        logger WARNING ("Resolution " +:+ resolution
                        +:+ " not available. Getting highest resolution.");;
        invoke env (CStreamsFirst url None)
    end;;
  makedirs (Py.dirname output_path);;
  match video_stream with
  | Some s =>
      invoke env (CStreamDownload s (Py.dirname output_path) (Py.basename output_path))
  | None =>
      raise (Exc AttributeError "'NoneType' object has no attribute 'download'")
  end;;
  _ <- getsize output_path;;
  logger INFO ("Video downloaded successfully to " +:+ output_path);;
  logger INFO "Download time: {:.2f} seconds, Size: {:.2f} MB";;
  ret (Some output_path).

Definition download_youtube_video
    (url output_path resolution : string) : M X (option string) :=
  let logger := log "utils.downloader" in
  logger INFO ("Downloading YouTube video: " +:+ url);;
  try_except
    (download_with_pytube url output_path resolution)
    (fun e =>
       if isinstance e PytubeError then
         logger ERROR ("Error downloading YouTube video with pytube: " +:+ exn_text e);;
         logger INFO "Trying alternative download method...";;
         download_video_with_yt_dlp url output_path (Py.remove_char "p" resolution)
       else
         logger ERROR ("Unexpected error during download: " +:+ exn_text e);;
         download_video_with_yt_dlp url output_path (Py.remove_char "p" resolution)).

End Defs.
End downloader.

(** ** utils/audio_extractor.py *)

Module audio_extractor.
Section Defs.

Context {X : Type} (env : Env X).

Definition extract_audio_cmd
    (video_path audio_path : string) (sample_rate channels : Z) : list string :=
  ["ffmpeg"; "-y"; "-i"; video_path; "-vn"; "-acodec"; "pcm_s16le";
   "-ar"; Py.str sample_rate; "-ac"; Py.str channels; audio_path].

Definition extract_audio
    (video_path audio_path : string) (sample_rate channels : Z)
    : M X (option string) :=
  let logger := log "utils.audio_extractor" in
  logger INFO ("Extracting audio from video: " +:+ video_path);;
  found <- path_exists video_path;;
  if negb found then
    logger ERROR ("Video file not found: " +:+ video_path);;
    ret None
  else
    makedirs (Py.dirname audio_path);;
    try_except
      (let cmd := extract_audio_cmd video_path audio_path sample_rate channels in
       logger DEBUG ("Running command: " +:+ String.concat " " cmd);;
       p <- invoke env (CPopen cmd);;
       if negb (returncode p =? 0) then
         logger ERROR ("Error extracting audio: " +:+ stderr p);;
         ret None
       else
         _ <- getsize audio_path;;
         logger INFO ("Audio extracted successfully to " +:+ audio_path);;
         logger INFO "Extraction time: {:.2f} seconds, Size: {:.2f} MB";;
         logger INFO ("Audio settings: " +:+ Py.str sample_rate +:+ "Hz, "
                      +:+ Py.str channels +:+ " channel(s)");;
         ret (Some audio_path))
      (fun e =>
         if isinstance e FileNotFoundError then
           logger ERROR "ffmpeg not found. Please install ffmpeg and ensure it's in your PATH.";;
           ret None
         else
           logger ERROR ("Unexpected error during audio extraction: " +:+ exn_text e);;
           ret None).

End Defs.
End audio_extractor.

(** ** utils/transcriber.py *)

Module transcriber.
Section Defs.

Context {X : Type} (env : Env X).

Definition transcribe_audio
    (audio_path output_path model_name language : string) : M X (option string) :=
  let logger := log "utils.transcriber" in
  logger INFO ("Transcribing audio: " +:+ audio_path +:+ " using Whisper "
               +:+ model_name +:+ " model");;
  found <- path_exists audio_path;;
  if negb found then
    logger ERROR ("Audio file not found: " +:+ audio_path);;
    ret None
  else
    try_except
      (logger INFO ("Loading Whisper " +:+ model_name +:+ " model...");;
       invoke env (CWhisperLoadModel model_name);;
       logger INFO "Model loaded in {:.2f} seconds";;
       logger INFO "Starting transcription...";;
       let options := if Py.nonempty language then Some language else None in
       transcript <- invoke env (CWhisperTranscribe model_name audio_path options);;
       logger INFO "Transcription completed in {:.2f} seconds";;
       makedirs (Py.dirname output_path);;
       write_file output_path transcript;;
       logger INFO ("Transcript saved to " +:+ output_path);;
       logger INFO ("Transcript length: "
                    +:+ Py.str (Z.of_nat (String.length transcript)) +:+ " characters");;
       ret (Some output_path))
      (fun e =>
         logger ERROR ("Error during transcription: " +:+ exn_text e);;
         ret None).

End Defs.
End transcriber.

(** ** utils/translator.py *)

Module translator.
Section Defs.

Context {X : Type} (cfg : Settings) (env : Env X).

Definition translate_text_google
    (text source_lang target_lang : string) : M X (option string) :=
  let logger := log "utils.translator" in
  try_except
    (logger INFO ("Translating text using Google Translate (" +:+ source_lang
                  +:+ " -> " +:+ target_lang +:+ ")");;
     result <- invoke env (CTranslatepy text source_lang target_lang);;
     ret (Some result))
    (fun e =>
       logger ERROR ("Error translating with Google: " +:+ exn_text e);;
       ret None).

Definition translate_text_openai
    (text source_lang target_lang : string) : M X (option string) :=
  let logger := log "utils.translator" in
  if negb (Py.nonempty (OPENAI_API_KEY cfg)) then
    logger ERROR "OpenAI API key not found. Please set it in settings.py or environment variables.";;
    ret None
  else
    try_except
      (logger INFO ("Translating text using OpenAI GPT (" +:+ source_lang
                    +:+ " -> " +:+ target_lang +:+ ")");;
       let system_message :=
         "You are a professional translator. Translate the following text from "
         +:+ source_lang +:+ " to " +:+ target_lang
         +:+ ". Keep the text structure and formatting intact. Only return the translated text, no explanations or additional text." in
       choice <- invoke env (COpenAIChat (OPENAI_API_KEY cfg) system_message text);;
       match choice with
       | Some content => ret (Some (Py.strip content))
       | None =>
           logger ERROR "Unexpected response from OpenAI: {response_data}";;
           ret None
       end)
      (fun e =>
         logger ERROR ("Error translating with OpenAI: " +:+ exn_text e);;
         ret None).

Definition translate_file
    (input_path output_path source_lang target_lang engine : string)
    : M X (option string) :=
  let logger := log "utils.translator" in
  logger INFO ("Translating file: " +:+ input_path +:+ " (" +:+ source_lang
               +:+ " -> " +:+ target_lang +:+ ") using " +:+ engine);;
  found <- path_exists input_path;;
  if negb found then
    logger ERROR ("Input file not found: " +:+ input_path);;
    ret None
  else
    try_except
      (text <- read_file input_path;;
       logger INFO ("Loaded text from " +:+ input_path +:+ " ("
                    +:+ Py.str (Z.of_nat (String.length text)) +:+ " characters)");;
       let translate :=
         if String.eqb (Py.lower engine) "google" then
           Some (translate_text_google text source_lang target_lang)
         else if String.eqb (Py.lower engine) "openai" then
           Some (translate_text_openai text source_lang target_lang)
         else None in
       match translate with
       | None =>
           logger ERROR ("Unknown translation engine: " +:+ engine);;
           ret None
       | Some run =>
           translated <- run;;
           match translated with
           | None =>
               logger ERROR "Translation failed";;
               ret None
           | Some translated_text =>
               logger INFO "Translation completed in {:.2f} seconds";;
               makedirs (Py.dirname output_path);;
               write_file output_path translated_text;;
               logger INFO ("Translated text saved to " +:+ output_path);;
               logger INFO ("Translation length: "
                            +:+ Py.str (Z.of_nat (String.length translated_text))
                            +:+ " characters");;
               ret (Some output_path)
           end
       end)
      (fun e =>
         logger ERROR ("Error during translation: " +:+ exn_text e);;
         ret None).

End Defs.
End translator.

(** A Python [dict] of language codes. *)
Definition dict_get (d : gmap string string) (k default : string) : string :=
  match d !! k with Some v => v | None => default end.

Definition dict_has (d : gmap string string) (k : string) : bool :=
  bool_decide (is_Some (d !! k)).

(** ** utils/tts.py *)

Module tts.
Section Defs.

Context {X : Type} (env : Env X).

Definition generate_speech_bark
    (text output_path language voice_preset : string) : M X (option string) :=
  let logger := log "utils.tts" in
  try_except
    (invoke env CImportBark;;
     let voice_preset :=
       if Py.startswith language "tr" then "v2/tr_speaker_0"
       else if Py.startswith language "fr" then "v2/fr_speaker_0"
       else if Py.startswith language "es" then "v2/es_speaker_0"
       else if Py.startswith language "de" then "v2/de_speaker_0"
       else voice_preset in
     logger INFO ("Generating speech using Bark TTS (voice: " +:+ voice_preset +:+ ")");;
     invoke env CBarkPreload;;
     audio_array <- invoke env (CBarkGenerate text voice_preset);;
     makedirs (Py.dirname output_path);;
     invoke env (CSoundfileWrite output_path audio_array);;
     _ <- getsize output_path;;
     logger INFO ("Speech generated successfully to " +:+ output_path);;
     logger INFO "Generation time: {:.2f} seconds, Size: {:.2f} MB";;
     ret (Some output_path))
    (fun e =>
       if isinstance e ImportError then
         logger ERROR "Bark TTS not installed. Install using 'pip install git+https://github.com/suno-ai/bark.git'";;
         ret None
       else
         logger ERROR ("Error generating speech with Bark: " +:+ exn_text e);;
         ret None).

Definition your_tts : string := "tts_models/multilingual/multi-dataset/your_tts".

Definition generate_speech_coqui
    (text output_path language : string) : M X (option string) :=
  let logger := log "utils.tts" in
  try_except
    (invoke env CImportTTS;;
     logger INFO "Generating speech using Coqui TTS";;
     invoke env (CTTSLoad your_tts true);;
     makedirs (Py.dirname output_path);;
     invoke env (CTTSToFile your_tts text (Some output_path) None None);;
     _ <- getsize output_path;;
     logger INFO ("Speech generated successfully to " +:+ output_path);;
     logger INFO "Generation time: {:.2f} seconds, Size: {:.2f} MB";;
     ret (Some output_path))
    (fun e =>
       if isinstance e ImportError then
         logger ERROR "Coqui TTS not installed. Install using 'pip install TTS'";;
         ret None
       else
         logger ERROR ("Error generating speech with Coqui TTS: " +:+ exn_text e);;
         ret None).

(** [lang_mapping] of [generate_speech_voice_clone] *)
Definition yourtts_lang_mapping : gmap string string :=
  list_to_map
    [("en", "en"); ("tr", "en"); ("fr", "fr-fr"); ("es", "en"); ("de", "en");
     ("ru", "en"); ("zh", "en"); ("ja", "en"); ("ko", "en"); ("ar", "en");
     ("pt", "pt-br")].

(** [lang_mapping] of [generate_speech_gtts] *)
Definition gtts_lang_mapping : gmap string string :=
  list_to_map
    [("en", "en"); ("tr", "tr"); ("fr", "fr"); ("es", "es"); ("de", "de");
     ("ru", "ru"); ("zh", "zh-CN"); ("ja", "ja"); ("ko", "ko"); ("ar", "ar")].

(** The three-way choice both functions make: the code itself, else its
    first two characters, else English with a warning. *)
Definition pick_lang (lang_mapping : gmap string string) (language : string)
    : M X string :=
  let logger := log "utils.tts" in
  if dict_has lang_mapping language then
    ret (dict_get lang_mapping language "")
  else if dict_has lang_mapping (Py.take2 language) then
    ret (dict_get lang_mapping (Py.take2 language) "")
  else
    logger WARNING ("Language " +:+ language
                    +:+ " not found in mapping, defaulting to English");;
    ret "en".

Definition generate_speech_voice_clone
    (text output_path reference_audio_path language : string)
    : M X (option string) :=
  let logger := log "utils.tts" in
  try_except
    (invoke env CImportTTS;;
     logger INFO ("Generating speech using voice cloning with reference: "
                  +:+ reference_audio_path);;
     found <- path_exists reference_audio_path;;
     if negb found then
       logger ERROR ("Reference audio file not found: " +:+ reference_audio_path);;
       ret None
     else
       tts_lang <- pick_lang yourtts_lang_mapping language;;
       logger INFO ("Using language code '" +:+ tts_lang
                    +:+ "' for YourTTS voice cloning");;
       invoke env (CTTSLoad your_tts false);;
       makedirs (Py.dirname output_path);;
       logger INFO ("Starting voice cloning generation with language: " +:+ tts_lang);;
       invoke env (CTTSToFile your_tts text (Some output_path)
                              (Some reference_audio_path) (Some tts_lang));;
       _ <- getsize output_path;;
       logger INFO ("Voice cloned speech generated successfully to " +:+ output_path);;
       logger INFO "Generation time: {:.2f} seconds, Size: {:.2f} MB";;
       ret (Some output_path))
    (fun e =>
       if isinstance e ImportError then
         logger ERROR "Coqui TTS not installed. Install using 'pip install TTS'";;
         ret None
       else
         logger ERROR ("Error generating speech with voice cloning: " +:+ exn_text e);;
         ret None).

Definition generate_speech_gtts
    (text output_path language : string) : M X (option string) :=
  let logger := log "utils.tts" in
  try_except
    (logger INFO ("Generating speech using Google TTS (language: " +:+ language +:+ ")");;
     tts_lang <- pick_lang gtts_lang_mapping language;;
     invoke env (CgTTS text tts_lang);;
     makedirs (Py.dirname output_path);;
     invoke env (CgTTSSave text tts_lang output_path);;
     _ <- getsize output_path;;
     logger INFO ("Speech generated successfully to " +:+ output_path);;
     logger INFO "Generation time: {:.2f} seconds, Size: {:.2f} MB";;
     ret (Some output_path))
    (fun e =>
       logger ERROR ("Error generating speech with Google TTS: " +:+ exn_text e);;
       ret None).

Definition text_to_speech
    (input_path output_path language engine : string)
    (reference_audio : option string) : M X (option string) :=
  let logger := log "utils.tts" in
  logger INFO ("Converting text to speech: " +:+ input_path +:+ " using "
               +:+ engine +:+ " engine");;
  found <- path_exists input_path;;
  if negb found then
    logger ERROR ("Input file not found: " +:+ input_path);;
    ret None
  else
    try_except
      (text <- read_file input_path;;
       logger INFO ("Loaded text from " +:+ input_path +:+ " ("
                    +:+ Py.str (Z.of_nat (String.length text)) +:+ " characters)");;
       if String.eqb (Py.lower engine) "bark" then
         generate_speech_bark text output_path language "v2/en_speaker_6"
       else if String.eqb (Py.lower engine) "coqui" then
         generate_speech_coqui text output_path language
       else if String.eqb (Py.lower engine) "gtts" then
         generate_speech_gtts text output_path language
       else if String.eqb (Py.lower engine) "voice_clone" then
         match reference_audio with
         | Some ref =>
             usable <- (if Py.nonempty ref then path_exists ref else ret false);;
             if usable then
               generate_speech_voice_clone text output_path ref language
             else
               logger ERROR "Voice cloning requires a valid reference audio file. Falling back to Google TTS.";;
               generate_speech_gtts text output_path language
         | None =>
             logger ERROR "Voice cloning requires a valid reference audio file. Falling back to Google TTS.";;
             generate_speech_gtts text output_path language
         end
       else
         logger ERROR ("Unknown TTS engine: " +:+ engine);;
         logger INFO "Falling back to Google TTS";;
         generate_speech_gtts text output_path language)
      (fun e =>
         logger ERROR ("Error during text-to-speech conversion: " +:+ exn_text e);;
         ret None).

End Defs.
End tts.

(** [str(x)] for a value that is a string or [None]. *)
Definition str_opt (o : option string) : string :=
  match o with Some s => s | None => "None" end.

Definition xtts_v2 : string := "tts_models/multilingual/multi-dataset/xtts_v2".

(** The [lang_mapping] that [voice_cloner.clone_voice_and_speak] and
    [voice_cloner_fallback.clone_voice_and_speak] both spell out for the
    XTTS model. *)
Definition xtts_lang_mapping : gmap string string :=
  list_to_map
    [("en", "en"); ("fr", "fr"); ("tr", "tr"); ("es", "es"); ("it", "it");
     ("de", "de"); ("pt", "pt"); ("pl", "pl"); ("ru", "ru"); ("nl", "nl");
     ("cs", "cs"); ("ar", "ar"); ("zh", "zh-cn"); ("ja", "ja"); ("ko", "ko");
     ("hu", "hu")].

(** [lang_mapping.get(target_lang.lower(), "en")] *)
Definition xtts_lang (target_lang : string) : string :=
  dict_get xtts_lang_mapping (Py.lower target_lang) "en".

(** ** utils/voice_cloner.py *)

Module voice_cloner.
Section Defs.

Context {X : Type} (cfg : Settings) (env : Env X).

(** [os.path.dirname(os.path.dirname(__file__))] is the directory
    [BASE_DIR] of the settings. *)
Definition clone_voice_and_speak
    (text speaker_wav_path target_lang : string) (output_path : option string)
    : M X (option string) :=
  let logger := log "utils.voice_cloner" in
  logger INFO ("Starting XTTS voice cloning from sample: " +:+ speaker_wav_path);;
  logger INFO ("Target language: " +:+ target_lang +:+ ", Output path: "
               +:+ str_opt output_path);;
  found <- path_exists speaker_wav_path;;
  if negb found then
    logger ERROR ("Speaker audio sample not found: " +:+ speaker_wav_path);;
    ret None
  else
    output_path <-
      (if Py.truthy output_path then ret (str_opt output_path)
       else
         let output_dir := Py.join (BASE_DIR cfg) "outputs" in
         makedirs output_dir;;
         now <- invoke env CTime;;
         ret (Py.join output_dir ("xtts_cloned_" +:+ Py.str now +:+ ".wav")));;
    makedirs (Py.dirname output_path);;
    let xtts_lang := xtts_lang target_lang in
    logger INFO ("Using language code '" +:+ xtts_lang +:+ "' for XTTS");;
    use_gpu <- invoke env CCudaIsAvailable;;
    logger INFO ("GPU acceleration: "
                 +:+ (if use_gpu : bool then "Enabled" else "Disabled"));;
    try_except
      (invoke env CImportTTS;;
       invoke env (CTTSLoad xtts_v2 use_gpu);;
       logger INFO ("Model loaded: " +:+ xtts_v2);;
       logger INFO "Generating speech with cloned voice...";;
       invoke env (CTTSToFile xtts_v2 text (Some output_path)
                              (Some speaker_wav_path) (Some xtts_lang));;
       _ <- getsize output_path;;
       logger INFO "Voice cloning completed in {:.2f} seconds";;
       logger INFO ("Generated audio saved to: " +:+ output_path +:+ " ({:.2f} MB)");;
       ret (Some output_path))
      (fun e =>
         if isinstance e ImportError then
           logger ERROR "TTS library not installed. Install using 'pip install TTS'";;
           ret None
         else
           logger ERROR ("Error in voice cloning: " +:+ exn_text e);;
           ret None).

End Defs.
End voice_cloner.

(** ** utils/voice_cloner_fallback.py *)

Module voice_cloner_fallback.
Section Defs.

Context {X : Type} (cfg : Settings) (env : Env X).

(** [lang_mapping] of [clone_voice_fallback] *)
Definition gtts_lang_mapping : gmap string string :=
  list_to_map
    [("en", "en"); ("fr", "fr"); ("tr", "tr"); ("es", "es"); ("it", "it");
     ("de", "de"); ("pt", "pt"); ("pl", "pl"); ("ru", "ru"); ("nl", "nl");
     ("cs", "cs"); ("ar", "ar"); ("zh", "zh-CN"); ("ja", "ja"); ("ko", "ko");
     ("hu", "hu")].

Definition clone_voice_fallback
    (text target_lang : string) (output_path : option string)
    : M X (option string) :=
  let logger := log "utils.voice_cloner_fallback" in
  logger INFO ("Starting fallback TTS for language: " +:+ target_lang);;
  logger INFO ("Output path: " +:+ str_opt output_path);;
  output_path <-
    (if Py.truthy output_path then ret (str_opt output_path)
     else
       let output_dir := Py.join (BASE_DIR cfg) "outputs" in
       makedirs output_dir;;
       now <- invoke env CTime;;
       ret (Py.join output_dir ("gtts_" +:+ Py.str now +:+ ".mp3")));;
  makedirs (Py.dirname output_path);;
  let gtts_lang := dict_get gtts_lang_mapping (Py.lower target_lang) "en" in
  logger INFO ("Using language code '" +:+ gtts_lang +:+ "' for gTTS");;
  try_except
    (logger INFO "Generating speech with gTTS...";;
     invoke env (CgTTS text gtts_lang);;
     invoke env (CgTTSSave text gtts_lang output_path);;
     _ <- getsize output_path;;
     logger INFO "Speech generation completed in {:.2f} seconds";;
     logger INFO ("Generated audio saved to: " +:+ output_path +:+ " ({:.2f} MB)");;
     ret (Some output_path))
    (fun e =>
       logger ERROR ("Error in fallback speech generation: " +:+ exn_text e);;
       ret None).

(** The nested [try] blocks of [clone_voice_and_speak].  The value is
    [Some r] when the block executed [return r], and [None] when control
    falls through to the gTTS fallback below it. *)
Definition try_xtts
    (text : string) (speaker_wav_path : option string) (target_lang : string)
    (output_path : option string) : M X (option (option string)) :=
  let logger := log "utils.voice_cloner_fallback" in
  try_except
    (invoke env CImportTTS;;
     logger INFO "Using PyTorch {torch.__version__}";;
     logger INFO "Attempting to load XTTS model...";;
     cuda <- invoke env CCudaIsAvailable;;
     (if cuda : bool then logger INFO "GPU is available, using CUDA"
      else logger INFO "GPU not available, using CPU");;
     usable <-
       match speaker_wav_path with
       | Some spk => if Py.nonempty spk then path_exists spk else ret false
       | None => ret false
       end;;
     if usable : bool then
       try_except
         (invoke env (CTTSLoad xtts_v2 cuda);;
          let xtts_lang := xtts_lang target_lang in
          invoke env (CTTSToFile xtts_v2 text output_path
                                 speaker_wav_path (Some xtts_lang));;
          logger INFO ("XTTS voice cloning successful: " +:+ str_opt output_path);;
          ret (Some output_path))
         (fun e =>
            logger WARNING ("XTTS voice cloning failed: " +:+ exn_text e);;
            logger INFO "Falling back to gTTS...";;
            ret None)
     else ret None)
    (fun e =>
       logger WARNING ("Could not initialize TTS model: " +:+ exn_text e);;
       logger INFO "Falling back to gTTS...";;
       ret None).

Definition clone_voice_and_speak
    (text : string) (speaker_wav_path : option string) (target_lang : string)
    (output_path : option string) : M X (option string) :=
  let logger := log "utils.voice_cloner_fallback" in
  logger INFO "Attempting to generate speech using fallback method...";;
  returned <- try_xtts text speaker_wav_path target_lang output_path;;
  match returned with
  | Some r => ret r
  | None => clone_voice_fallback text target_lang output_path
  end.

End Defs.
End voice_cloner_fallback.

(** ** utils/video_merger.py *)

Module video_merger.
Section Defs.

Context {X : Type} (env : Env X).

Definition merge_cmd (video_path audio_path output_path : string) : list string :=
  ["ffmpeg"; "-y"; "-i"; video_path; "-i"; audio_path;
   "-map"; "0:v:0"; "-map"; "1:a:0";
   "-c:v"; "copy"; "-c:a"; "aac"; "-b:a"; "192k"; "-shortest"; output_path].

Definition merge_video_audio_ffmpeg
    (video_path audio_path output_path : string) : M X (option string) :=
  let logger := log "utils.video_merger" in
  logger INFO ("Merging video and audio using ffmpeg: " +:+ video_path
               +:+ " + " +:+ audio_path);;
  video_found <- path_exists video_path;;
  if negb video_found then
    logger ERROR ("Video file not found: " +:+ video_path);;
    ret None
  else
    audio_found <- path_exists audio_path;;
    if negb audio_found then
      logger ERROR ("Audio file not found: " +:+ audio_path);;
      ret None
    else
      try_except
        (makedirs (Py.dirname output_path);;
         let cmd := merge_cmd video_path audio_path output_path in
         logger DEBUG ("Running command: " +:+ String.concat " " cmd);;
         p <- invoke env (CPopen cmd);;
         if negb (returncode p =? 0) then
           logger ERROR ("Error merging video and audio: " +:+ stderr p);;
           ret None
         else
           _ <- getsize output_path;;
           logger INFO ("Video and audio merged successfully to " +:+ output_path);;
           logger INFO "Merge time: {:.2f} seconds, Size: {:.2f} MB";;
           ret (Some output_path))
        (fun e =>
           if isinstance e FileNotFoundError then
             logger ERROR "ffmpeg not found. Please install ffmpeg and ensure it's in your PATH.";;
             ret None
           else
             logger ERROR ("Unexpected error during video/audio merging: " +:+ exn_text e);;
             ret None).

Definition merge_video_audio_moviepy
    (video_path audio_path output_path : string) : M X (option string) :=
  let logger := log "utils.video_merger" in
  logger INFO ("Merging video and audio using moviepy: " +:+ video_path
               +:+ " + " +:+ audio_path);;
  video_found <- path_exists video_path;;
  if negb video_found then
    logger ERROR ("Video file not found: " +:+ video_path);;
    ret None
  else
    audio_found <- path_exists audio_path;;
    if negb audio_found then
      logger ERROR ("Audio file not found: " +:+ audio_path);;
      ret None
    else
      try_except
        (makedirs (Py.dirname output_path);;
         video_duration <- invoke env (CVideoFileClip video_path);;
         audio_duration <- invoke env (CAudioFileClip audio_path);;
         audio_end <-
           (if audio_duration >? video_duration then
              logger INFO "Audio ({:.2f}s) longer than video ({:.2f}s), trimming audio";;
              ret (Some video_duration)
            else ret None);;
         invoke env (CWriteVideofile output_path video_path audio_path audio_end);;
         _ <- getsize output_path;;
         logger INFO ("Video and audio merged successfully to " +:+ output_path);;
         logger INFO "Merge time: {:.2f} seconds, Size: {:.2f} MB";;
         ret (Some output_path))
        (fun e =>
           logger ERROR ("Error merging video and audio with moviepy: " +:+ exn_text e);;
           ret None).

Definition merge_video_audio
    (video_path audio_path output_path : string) (use_ffmpeg : bool)
    : M X (option string) :=
  let logger := log "utils.video_merger" in
  if use_ffmpeg then
    try_except
      (merge_video_audio_ffmpeg video_path audio_path output_path)
      (fun e =>
         logger WARNING ("ffmpeg merging failed: " +:+ exn_text e
                         +:+ ". Falling back to moviepy.");;
         merge_video_audio_moviepy video_path audio_path output_path)
  else
    merge_video_audio_moviepy video_path audio_path output_path.

End Defs.
End video_merger.

(** ** main.py *)

Module main.
Section Defs.

Context {X : Type} (cfg : Settings) (env : Env X).

(** The arguments of [process_video]. *)
Record args := Args {
  youtube_url : string;
  source_lang : string;
  target_lang : string;
  tts_engine : string;
  reference_audio : option string
}.

(** Where a run of [process_video] stands: before one of its six steps,
    holding the paths the remaining steps use, or at its end.  [Failed]
    is any of the [return None] that follow a step. *)
Inductive state :=
| Acquiring
| Extracting (video_path : string)
| Transcribing (video_path audio_path : string)
| Translating (video_path transcript_path : string)
| Synthesizing (video_path translated_path : string)
| Muxing (video_path dubbed_audio_path : string)
| Done (output_path : string)
| Failed.

(** The size is left in bytes; it is only printed. *)
Definition get_file_size_mb (file_path : string) : M X Z :=
  found <- path_exists file_path;;
  if found then getsize file_path else ret 0.

(** Steps 1 to 6 of [process_video]: the step that starts in state [s],
    up to the start of the next one. *)
Definition step (a : args) (s : state) : M X state :=
  let logger := log "__main__" in
  match s with
  | Acquiring =>
      video_path <- downloader.download_youtube_video env
                      (youtube_url a) (TEMP_VIDEO_PATH cfg) "720p";;
      if negb (Py.truthy video_path) then
        logger ERROR "Failed to download video. Exiting.";;
        ret Failed
      else
        get_file_size_mb (str_opt video_path);;
        ret (Extracting (str_opt video_path))
  | Extracting video_path =>
      audio_path <- audio_extractor.extract_audio env
                      video_path (TEMP_AUDIO_PATH cfg) 16000 1;;
      if negb (Py.truthy audio_path) then
        logger ERROR "Failed to extract audio. Exiting.";;
        ret Failed
      else
        get_file_size_mb (str_opt audio_path);;
        ret (Transcribing video_path (str_opt audio_path))
  | Transcribing video_path audio_path =>
      transcript_path <- transcriber.transcribe_audio env
                           audio_path (TEMP_TRANSCRIPT_PATH cfg)
                           WHISPER_MODEL (source_lang a);;
      if negb (Py.truthy transcript_path) then
        logger ERROR "Failed to transcribe audio. Exiting.";;
        ret Failed
      else
        read_file (str_opt transcript_path);;
        ret (Translating video_path (str_opt transcript_path))
  | Translating video_path transcript_path =>
      translated_path <- translator.translate_file cfg env
                           transcript_path (TEMP_TRANSLATED_PATH cfg)
                           (source_lang a) (target_lang a) TRANSLATION_ENGINE;;
      if negb (Py.truthy translated_path) then
        logger ERROR "Failed to translate text. Exiting.";;
        ret Failed
      else
        read_file (str_opt translated_path);;
        ret (Synthesizing video_path (str_opt translated_path))
  | Synthesizing video_path translated_path =>
      dubbed_audio_path <-
        (if (String.eqb (tts_engine a) "voice_clone"
             && Py.truthy (reference_audio a))%bool then
           translated_text <- read_file translated_path;;
           voice_cloner_fallback.clone_voice_and_speak cfg env
             translated_text (reference_audio a) (target_lang a)
             (Some (TEMP_DUBBED_AUDIO_PATH cfg))
         else
           tts.text_to_speech env
             translated_path (TEMP_DUBBED_AUDIO_PATH cfg)
             (target_lang a) (tts_engine a) (reference_audio a));;
      if negb (Py.truthy dubbed_audio_path) then
        logger ERROR "Failed to generate speech. Exiting.";;
        ret Failed
      else
        get_file_size_mb (str_opt dubbed_audio_path);;
        ret (Muxing video_path (str_opt dubbed_audio_path))
  | Muxing video_path dubbed_audio_path =>
      output_path <- video_merger.merge_video_audio env
                       video_path dubbed_audio_path (OUTPUT_VIDEO_PATH cfg) true;;
      if negb (Py.truthy output_path) then
        logger ERROR "Failed to merge video and audio. Exiting.";;
        ret Failed
      else
        get_file_size_mb (str_opt output_path);;
        ret (Done (str_opt output_path))
  | Done output_path => ret (Done output_path)
  | Failed => ret Failed
  end.

(** [n] steps in a row, from state [s]. *)
Fixpoint steps (a : args) (n : nat) (s : state) : M X state :=
  match n with
  | O => ret s
  | S k => s' <- step a s;; steps a k s'
  end.

Definition banner (a : args) : M X unit :=
  let logger := log "__main__" in
  logger INFO "==================================================";;
  logger INFO ("Starting AI dubbing process for: " +:+ youtube_url a);;
  logger INFO ("Source language: " +:+ source_lang a
               +:+ ", Target language: " +:+ target_lang a);;
  logger INFO "==================================================".

Definition process_video (a : args) : M X (option string) :=
  let logger := log "__main__" in
  try_except
    (banner a;;
     final <- steps a 6 Acquiring;;
     match final with
     | Done output_path =>
         logger INFO "==================================================";;
         logger INFO "AI dubbing process completed successfully!";;
         logger INFO "Total processing time: {:.2f} seconds";;
         logger INFO ("Output video saved to: " +:+ output_path);;
         logger INFO "==================================================";;
         ret (Some output_path)
     | _ => ret None
     end)
    (fun e =>
       logger ERROR ("Unexpected error during dubbing process: " +:+ exn_text e);;
       ret None).

(** The adapter call that [step] makes in state [s]. *)
Definition run_stage (a : args) (s : state) : M X (option string) :=
  match s with
  | Acquiring =>
      downloader.download_youtube_video env
        (youtube_url a) (TEMP_VIDEO_PATH cfg) "720p"
  | Extracting video_path =>
      audio_extractor.extract_audio env video_path (TEMP_AUDIO_PATH cfg) 16000 1
  | Transcribing _ audio_path =>
      transcriber.transcribe_audio env
        audio_path (TEMP_TRANSCRIPT_PATH cfg) WHISPER_MODEL (source_lang a)
  | Translating _ transcript_path =>
      translator.translate_file cfg env
        transcript_path (TEMP_TRANSLATED_PATH cfg)
        (source_lang a) (target_lang a) TRANSLATION_ENGINE
  | Synthesizing _ translated_path =>
      if (String.eqb (tts_engine a) "voice_clone"
          && Py.truthy (reference_audio a))%bool then
        translated_text <- read_file translated_path;;
        voice_cloner_fallback.clone_voice_and_speak cfg env
          translated_text (reference_audio a) (target_lang a)
          (Some (TEMP_DUBBED_AUDIO_PATH cfg))
      else
        tts.text_to_speech env
          translated_path (TEMP_DUBBED_AUDIO_PATH cfg)
          (target_lang a) (tts_engine a) (reference_audio a)
  | Muxing video_path dubbed_audio_path =>
      video_merger.merge_video_audio env
        video_path dubbed_audio_path (OUTPUT_VIDEO_PATH cfg) true
  | Done _ | Failed => ret None
  end.

(** The artifact a state has just received from the step before it. *)
Definition handed (s : state) : option string :=
  match s with
  | Acquiring | Failed => None
  | Extracting video_path => Some video_path
  | Transcribing _ audio_path => Some audio_path
  | Translating _ transcript_path => Some transcript_path
  | Synthesizing _ translated_path => Some translated_path
  | Muxing _ dubbed_audio_path => Some dubbed_audio_path
  | Done output_path => Some output_path
  end.

(** The number of the step a state is at. *)
Definition index (s : state) : nat :=
  match s with
  | Acquiring => 0 | Extracting _ => 1 | Transcribing _ _ => 2
  | Translating _ _ => 3 | Synthesizing _ _ => 4 | Muxing _ _ => 5
  | Done _ => 6 | Failed => 7
  end.

(** The run up to the start of step [k + 1]. *)
Definition prefix (a : args) (k : nat) : M X state :=
  banner a;; steps a k Acquiring.

End Defs.
End main.

(** ** Vocabulary of the properties *)

(** The world [w] after one more line in the log. *)
Definition logged {X} (name : string) (lvl : level) (msg : string) (w : world X)
    : world X :=
  {| system := system w; trace := trace w ++ [Log name lvl msg] |}.

(** The system an external call leaves behind. *)
Definition after {X} (env : Env X) (c : call) (s : sys X) : sys X := snd (env c s).


(** [os.makedirs(d, exist_ok=True)] goes through. *)
Definition can_makedirs {X} (s : sys X) (d : string) : bool :=
  (Py.nonempty d && negb (file_exists s d))%bool.

(** How many times [msg] was logged. *)
Fixpoint count_message (msg : string) (tr : list event) : nat :=
  match tr with
  | [] => 0
  | Log _ _ m :: r =>
      if String.eqb m msg then S (count_message msg r) else count_message msg r
  | Call _ :: r => count_message msg r
  end.

(** The [language] arguments of the [tts.tts_to_file] calls of a record. *)
Fixpoint langs_passed (tr : list event) : list (option string) :=
  match tr with
  | [] => []
  | Call (CTTSToFile _ _ _ _ language) :: r => language :: langs_passed r
  | _ :: r => langs_passed r
  end.

(** An adapter call that did not produce an artifact: it returned
    [None] or an empty path, or it raised. *)
Definition stage_failed (r : res (option string)) : bool :=
  match r with
  | Val o => negb (Py.truthy o)
  | Raise _ => true
  end.

(** A computation that fails without reaching any engine: it returns
    [None], calls nothing and leaves the system as it was. *)
Definition fails_without_engine {X} (m : M X (option string)) (w : world X) : Prop :=
  fst (m w) = Val None
  /\ calls (trace (snd (m w))) = calls (trace w)
  /\ system (snd (m w)) = system w.

(** A computation whose success is a file: when it returns a path, the
    path is [out] and a file is there. *)
Definition produces {X} (m : M X (option string)) (out : string) : Prop :=
  forall (w : world X) p w',
    m w = (Val (Some p), w') -> p = out /\ file_exists (system w') p = true.

(** The line [download_youtube_video] logs when the pytube attempt raised [e]. *)
Definition pytube_error_line (e : exn) : string :=
  if isinstance e PytubeError
  then "Error downloading YouTube video with pytube: " +:+ exn_text e
  else "Unexpected error during download: " +:+ exn_text e.

(** The world in which [download_youtube_video] starts its yt-dlp
    attempt, when the pytube attempt raised [e] and left [w1]. *)
Definition after_pytube_error {X} (e : exn) (w1 : world X) : world X :=
  {| system := system w1;
     trace :=
       if isinstance e PytubeError
       then (trace w1 ++ [Log "utils.downloader" ERROR (pytube_error_line e)])
              ++ [Log "utils.downloader" INFO "Trying alternative download method..."]
       else trace w1 ++ [Log "utils.downloader" ERROR (pytube_error_line e)] |}.

(** The world in which [text_to_speech] hands an engine name it does not
    know to Google TTS. *)
Definition at_unknown_engine {X} (input engine text : string) (w : world X)
    : world X :=
  logged "utils.tts" INFO "Falling back to Google TTS"
    (logged "utils.tts" ERROR ("Unknown TTS engine: " +:+ engine)
       (logged "utils.tts" INFO
          ("Loaded text from " +:+ input +:+ " ("
           +:+ Py.str (Z.of_nat (String.length text)) +:+ " characters)")
          (logged "utils.tts" INFO
             ("Converting text to speech: " +:+ input +:+ " using "
              +:+ engine +:+ " engine") w))).

(** The one step of [process_video] that takes the path its adapter
    returns without the adapter having looked at the file: speech
    synthesis through [voice_cloner_fallback.clone_voice_and_speak]. *)
Definition unchecked_synthesis (a : main.args) (s : main.state) : Prop :=
  (exists video_path dubbed_audio_path, s = main.Muxing video_path dubbed_audio_path)
  /\ String.eqb (main.tts_engine a) "voice_clone" = true
  /\ Py.truthy (main.reference_audio a) = true.

(** What holds of the artifact a state has received. *)
Definition handed_ok {X} (a : main.args) (s : main.state) (w : world X) : Prop :=
  forall p, main.handed s = Some p ->
    Py.nonempty p = true
    /\ (file_exists (system w) p = true \/ unchecked_synthesis a s).

(** What one attempt of the transcoder amounts to, for an adapter that
    started the child [p] and found the system in [s'] afterwards. *)
Definition attempt_result {X} (r : res (option string)) (p : process) (s' : sys X)
    (out : string) : Prop :=
  (r = Val (Some out) /\ returncode p = 0 /\ file_exists s' out = true)
  \/ (r = Val None /\ (returncode p <> 0 \/ file_exists s' out = false)).

(** The run [m] from [w] started exactly one child process, with the
    command line [cmd], and called nothing else. *)
Definition started_once {X} (m : M X (option string)) (w : world X)
    (cmd : list string) : Prop :=
  calls (trace (snd (m w))) = (calls (trace w) ++ [Call (CPopen cmd)])%list.


(** ** Scenarios

    Concrete environments over a trivial outside world, used to run the
    definitions above. *)

Module Scenario.

Definition put (p c : string) (s : sys unit) : sys unit :=
  {| outside := outside s; files := <[p := c]> (files s) |}.

Definition disk (l : list (string * string)) : world unit :=
  {| system := {| outside := tt; files := list_to_map l |}; trace := [] |}.

Definition cfg : Settings := {| BASE_DIR := "/app"; OPENAI_API_KEY := "" |}.

(** Nothing is installed and nothing answers. *)
Definition nothing_works : Env unit :=
  fun c s => (Raise (Exc OtherException "unavailable"), s).

(** Every engine of the default configuration works and writes its
    output; speech recognition hears [heard]. *)
Definition all_work (heard : string) : Env unit :=
  fun c =>
    match c return ext unit (returns c) with
    | CYouTube _ => fun s => (Val "title", s)
    | CStreamsFirst _ _ => fun s => (Val (Some "22"), s)
    | CStreamDownload _ d f => fun s => (Val tt, put (Py.join d f) "video" s)
    | CPopen cmd => fun s => (Val (Proc 0 "" ""), put (List.last cmd "") "data" s)
    | CWhisperLoadModel _ => fun s => (Val tt, s)
    | CWhisperTranscribe _ _ _ => fun s => (Val heard, s)
    | CTranslatepy t _ _ => fun s => (Val t, s)
    | CgTTS _ _ => fun s => (Val tt, s)
    | CgTTSSave _ _ p => fun s => (Val tt, put p "speech" s)
    | c' => nothing_works c'
    end.

(** Child processes start and exit with status [code], [err] on their
    standard error; nothing else is available. *)
Definition processes_exit (code : Z) (err : string) : Env unit :=
  fun c =>
    match c return ext unit (returns c) with
    | CPopen cmd => fun s => (Val (Proc code "" err), s)
    | c' => nothing_works c'
    end.

(** As [processes_exit], but the child first writes [partial] to the
    path that ends its command line. *)
Definition processes_leave (code : Z) (err partial : string) : Env unit :=
  fun c =>
    match c return ext unit (returns c) with
    | CPopen cmd =>
        fun s => (Val (Proc code "" err), put (List.last cmd "") partial s)
    | c' => nothing_works c'
    end.

(** pytube downloads the video; every child process exits with status 1. *)
Definition only_pytube_works : Env unit :=
  fun c =>
    match c return ext unit (returns c) with
    | CYouTube _ => fun s => (Val "title", s)
    | CStreamsFirst _ _ => fun s => (Val (Some "22"), s)
    | CStreamDownload _ d f => fun s => (Val tt, put (Py.join d f) "video" s)
    | CPopen _ => fun s => (Val (Proc 1 "" "Invalid data found"), s)
    | c' => nothing_works c'
    end.

(** The transcoder fails with status 1; moviepy works. *)
Definition only_moviepy_works : Env unit :=
  fun c =>
    match c return ext unit (returns c) with
    | CPopen _ => fun s => (Val (Proc 1 "" "Conversion failed!"), s)
    | CVideoFileClip _ => fun s => (Val 30, s)
    | CAudioFileClip _ => fun s => (Val 28, s)
    | CWriteVideofile out _ _ _ => fun s => (Val tt, put out "muxed" s)
    | c' => nothing_works c'
    end.

(** The XTTS model loads and writes its file; no GPU. *)
Definition xtts_works : Env unit :=
  fun c =>
    match c return ext unit (returns c) with
    | CImportTTS => fun s => (Val tt, s)
    | CCudaIsAvailable => fun s => (Val false, s)
    | CTTSLoad _ _ => fun s => (Val tt, s)
    | CTTSToFile _ _ (Some p) _ _ => fun s => (Val tt, put p "cloned" s)
    | c' => nothing_works c'
    end.

Definition default_args : main.args :=
  main.Args "https://youtu.be/x" SOURCE_LANGUAGE TARGET_LANGUAGE TTS_ENGINE None.

(** As [all_work "hello"], with an XTTS model that loads and returns
    from [tts_to_file] without having written anything. *)
Definition cloning_writes_nothing : Env unit :=
  fun c =>
    match c return ext unit (returns c) with
    | CImportTTS => fun s => (Val tt, s)
    | CCudaIsAvailable => fun s => (Val false, s)
    | CTTSLoad _ _ => fun s => (Val tt, s)
    | CTTSToFile _ _ _ _ _ => fun s => (Val tt, s)
    | c' => all_work "hello" c'
    end.

Definition cloning_args : main.args :=
  main.Args "https://youtu.be/x" SOURCE_LANGUAGE TARGET_LANGUAGE "voice_clone"
            (Some "/app/ref.wav").

End Scenario.

(** ** utils/create_test_audio.py *)

(** [os.remove(p)] *)
Definition remove_file {X} (p : string) : M X unit :=
  fun w =>
    match files (system w) !! p with
    | Some _ =>
        (Val tt,
         {| system := {| outside := outside (system w);
                         files := delete p (files (system w)) |};
            trace := trace w |})
    | None =>
        (Raise (Exc FileNotFoundError
                    ("[Errno 2] No such file or directory: '" +:+ p +:+ "'")), w)
    end.

Module create_test_audio.
Section Defs.

Context {X : Type} (cfg : Settings) (env : Env X).

(** [subprocess.run(cmd, check=True)]: the child is taken to its exit,
    and an exit status other than 0 is a [CalledProcessError], whose text
    shows the command as a list of plain strings. *)
Definition run_checked (cmd : list string) : M X process :=
  p <- invoke env (CPopen cmd);;
  if negb (returncode p =? 0) then
    raise (Exc OtherException
               ("Command '["
                +:+ String.concat ", " (List.map (fun a => "'" +:+ a +:+ "'") cmd)
                +:+ "]' returned non-zero exit status "
                +:+ Py.str (returncode p) +:+ "."))
  else ret p.

Definition samples_dir : string := Py.join (OUTPUTS_DIR cfg) "samples".

Definition test_audio_path : string := Py.join samples_dir "test_reference_audio.wav".

Definition test_text : string :=
  "This is a test reference audio for voice cloning. Hello world!".

Definition temp_mp3_path : string := Py.join samples_dir "temp.mp3".

Definition convert_cmd : list string :=
  ["ffmpeg"; "-y"; "-i"; temp_mp3_path; "-acodec"; "pcm_s16le";
   "-ar"; "16000"; "-ac"; "1"; test_audio_path].

Definition create_test_audio : M X string :=
  makedirs samples_dir;;
  invoke env (CgTTS test_text "en");;
  invoke env (CgTTSSave test_text "en" temp_mp3_path);;
  try_except
    (run_checked convert_cmd;;
     remove_file temp_mp3_path;;
     ret test_audio_path)
    (fun e => ret temp_mp3_path).

End Defs.
End create_test_audio.

(** [for x in l: body(x)] *)
Fixpoint for_each {X A} (l : list A) (body : A -> M X unit) : M X unit :=
  match l with
  | [] => ret tt
  | x :: r => body x;; for_each r body
  end.

(** ** test_voice_cloner.py *)

Module test_voice_cloner.
Section Defs.

Context {X : Type} (cfg : Settings) (env : Env X).

(** The language and the text of each test case. *)
Definition test_cases : list (string * string) :=
  [("en", "Hello! I'm an AI-generated voice speaking in English. This is a demonstration of cross-lingual voice cloning.");
   ("tr", "Merhaba! Ben Türkçe konuşan yapay zeka tarafından oluşturulmuş bir sesim. Bu, diller arası ses klonlamanın bir gösterimi.");
   ("fr", "Bonjour! Je suis une voix générée par l'IA parlant en français. Ceci est une démonstration de clonage vocal multilingue.")].

Definition main : M X unit :=
  let sample_dir := Py.join (OUTPUTS_DIR cfg) "samples" in
  makedirs sample_dir;;
  let sample_path := Py.join sample_dir "test_reference_audio.wav" in
  found <- path_exists sample_path;;
  sample_path <-
    (if negb found then create_test_audio.create_test_audio cfg env
     else ret sample_path);;
  for_each test_cases
    (fun case =>
       let lang := fst case in
       let text := snd case in
       let output_path :=
         Py.join (OUTPUTS_DIR cfg) ("cloned_" +:+ lang +:+ "_fallback.mp3") in
       try_except
         (voice_cloner_fallback.clone_voice_and_speak cfg env
            text (Some sample_path) lang (Some output_path);;
          ret tt)
         (fun e => ret tt)).

End Defs.
End test_voice_cloner.

(** ** test_voice_cloner_with_env.py *)

Module test_voice_cloner_with_env.
Section Defs.

Context {X : Type} (cfg : Settings) (env : Env X).

(** The two imports come before the [try]; the table of language codes
    is the one of the XTTS variants. *)
Definition clone_voice_directly
    (text speaker_wav target_lang output_path : string) : M X (option string) :=
  invoke env CImportTTS;;
  let xtts_lang := xtts_lang target_lang in
  try_except
    (use_gpu <- invoke env CCudaIsAvailable;;
     invoke env (CTTSLoad xtts_v2 use_gpu);;
     invoke env (CTTSToFile xtts_v2 text (Some output_path)
                            (Some speaker_wav) (Some xtts_lang));;
     found <- path_exists output_path;;
     if found then ret (Some output_path) else ret None)
    (fun e => ret None).

Definition test_cases : list (string * string) :=
  [("en", "Hello! I'm an AI-generated voice speaking in English. This is a demonstration of cross-lingual voice cloning.");
   ("fr", "Bonjour! Je suis une voix générée par l'IA parlant en français. Ceci est une démonstration de clonage vocal multilingue.")].

Definition main : M X unit :=
  let sample_dir := Py.join (OUTPUTS_DIR cfg) "samples" in
  makedirs sample_dir;;
  let sample_path := Py.join sample_dir "test_reference_audio.wav" in
  found <- path_exists sample_path;;
  sample_path <-
    (if negb found then create_test_audio.create_test_audio cfg env
     else ret sample_path);;
  for_each test_cases
    (fun case =>
       let lang := fst case in
       let text := snd case in
       let output_path :=
         Py.join (OUTPUTS_DIR cfg) ("cloned_" +:+ lang +:+ "_env.wav") in
       try_except
         (clone_voice_directly text sample_path lang output_path;;
          ret tt)
         (fun e => ret tt)).

End Defs.
End test_voice_cloner_with_env.

(** ** utils/logger.py *)

(** [s.replace(old, new, 1)] *)
Fixpoint replace_first (s old new : string) : string :=
  if String.prefix old s then
    new +:+ String.substring (String.length old) (String.length s - String.length old) s
  else
    match s with
    | EmptyString => EmptyString
    | String c r => String c (replace_first r old new)
    end.

Module logger.

(** The escape character, ["\033"]. *)
Definition ESC : string := String (ascii_of_nat 27) EmptyString.

Module Colors.
Definition RESET : string := ESC +:+ "[0m".
Definition BOLD : string := ESC +:+ "[1m".
Definition RED : string := ESC +:+ "[31m".
Definition GREEN : string := ESC +:+ "[32m".
Definition YELLOW : string := ESC +:+ "[33m".
Definition BLUE : string := ESC +:+ "[34m".
Definition WHITE : string := ESC +:+ "[37m".
Definition BG_RED : string := ESC +:+ "[41m".
End Colors.

(** [ColoredFormatter.COLORS] *)
Definition COLORS : gmap string string :=
  list_to_map
    [("DEBUG", Colors.BLUE); ("INFO", Colors.GREEN); ("WARNING", Colors.YELLOW);
     ("ERROR", Colors.RED);
     ("CRITICAL", Colors.BG_RED +:+ Colors.WHITE +:+ Colors.BOLD)].

(** [ColoredFormatter.format], given [record.levelname] and the line
    [super().format(record)]. *)
Definition format (levelname log_message : string) : string :=
  if dict_has COLORS levelname then
    let color_code := dict_get COLORS levelname "" in
    let colored_levelname := color_code +:+ levelname +:+ Colors.RESET in
    replace_first log_message levelname colored_levelname
  else log_message.

(** The format string the console handler is given,
    ['%(levelname)s: %(message)s'], applied to a record without exception
    or stack information. *)
Definition console_format (levelname message : string) : string :=
  levelname +:+ ": " +:+ message.

(** What the console shows for a record. *)
Definition console_line (levelname message : string) : string :=
  format levelname (console_format levelname message).

Inductive formatter :=
| Formatter (fmt : string)
| ColoredFormatter (fmt : string).

Inductive handler :=
| StreamHandler (f : formatter)
| FileHandler (filename : string) (f : formatter).

(** A logger of the [logging] module: its level, [NOTSET] at first, and
    its handlers. *)
Record Logger := { level : Z; handlers : list handler }.

(** The loggers that exist, by name. *)
Abbreviation registry := (gmap string Logger).

Definition LOGS_DIR (cfg : Settings) : string := Py.join (BASE_DIR cfg) "logs".
Definition LOG_FILE (cfg : Settings) : string := Py.join (LOGS_DIR cfg) "process.log".

Definition LOG_LEVEL : string := "INFO".

(** [getattr(logging, name)] for the names of the levels; [None] is an
    [AttributeError]. *)
Definition logging_level (name : string) : option Z :=
  if String.eqb name "CRITICAL" then Some 50
  else if String.eqb name "ERROR" then Some 40
  else if String.eqb name "WARNING" then Some 30
  else if String.eqb name "INFO" then Some 20
  else if String.eqb name "DEBUG" then Some 10
  else if String.eqb name "NOTSET" then Some 0
  else None.

Section Defs.

Context (cfg : Settings).

(** The logger called [name], as it is now; one that was never asked for
    has the level [NOTSET] and no handler. *)
Definition lookup_logger (name : string) (w : world registry) : Logger :=
  match outside (system w) !! name with
  | Some l => l
  | None => {| level := 0; handlers := [] |}
  end.

(** [logging.getLogger(name)] *)
Definition getLogger (name : string) : M registry Logger :=
  fun w => (Val (lookup_logger name w), w).

Definition update_logger (name : string) (f : Logger -> Logger) : M registry unit :=
  fun w =>
    (Val tt,
     {| system := {| outside := <[name := f (lookup_logger name w)]> (outside (system w));
                     files := files (system w) |};
        trace := trace w |}).

(** [logger.setLevel(l)] *)
Definition setLevel (name : string) (l : Z) : M registry unit :=
  update_logger name (fun lg => {| level := l; handlers := handlers lg |}).

(** [logger.addHandler(h)]; a handler is a new object each time, so it is
    never there already. *)
Definition addHandler (name : string) (h : handler) : M registry unit :=
  update_logger name (fun lg => {| level := level lg; handlers := handlers lg ++ [h] |}).

(** What [logging.FileHandler(p)] does to the disk: the file is opened
    for appending, and created when it is not there. *)
Definition open_append (p : string) : M registry unit :=
  fun w =>
    match files (system w) !! p with
    | Some _ => (Val tt, w)
    | None =>
        (Val tt,
         {| system := {| outside := outside (system w);
                         files := <[p := ""]> (files (system w)) |};
            trace := trace w |})
    end.

(** The value is the name of the logger, which stands for the object. *)
Definition setup_logger (name : string) : M registry string :=
  logger <- getLogger name;;
  match handlers logger with
  | _ :: _ => ret name
  | [] =>
      level <-
        match logging_level LOG_LEVEL with
        | Some l => ret l
        | None =>
            raise (Exc AttributeError
                       ("module 'logging' has no attribute '" +:+ LOG_LEVEL +:+ "'"))
        end;;
      setLevel name level;;
      let file_formatter :=
        Formatter "[%(asctime)s] %(levelname)s - %(name)s - %(message)s" in
      let console_formatter := ColoredFormatter "%(levelname)s: %(message)s" in
      addHandler name (StreamHandler console_formatter);;
      makedirs (LOGS_DIR cfg);;
      open_append (LOG_FILE cfg);;
      addHandler name (FileHandler (LOG_FILE cfg) file_formatter);;
      ret name
  end.

End Defs.
End logger.

(** ** utils/audio_recorder.py

    The calls to PyAudio, which are not among the calls of the pipeline:
    they act on the system and are not entered in its record. *)

Inductive mic_call :=
| PaPyAudio
| PaOpen (channels rate frames_per_buffer : Z)
| PaRead (num_frames : Z)
| PaStopStream
| PaClose
| PaTerminate
| PaGetSampleSize
| PaGetDeviceCount
| PaGetDeviceInfoByIndex (i : Z).

Definition mic_returns (c : mic_call) : Type :=
  match c with
  | PaRead _ => string                   (* the bytes of a chunk *)
  | PaGetSampleSize => Z
  | PaGetDeviceCount => Z
  | PaGetDeviceInfoByIndex _ => Z        (* [device_info.get('maxInputChannels')] *)
  | _ => unit
  end.

Definition Mic (X : Type) : Type := forall c : mic_call, ext X (mic_returns c).

Definition listen {X : Type} (mic : Mic X) (c : mic_call) : M X (mic_returns c) :=
  fun w =>
    let '(r, s) := mic c (system w) in
    (r, {| system := s; trace := trace w |}).

(** [a % b] on integers *)
Definition py_mod {X : Type} (a b : Z) : M X Z :=
  if b =? 0 then raise (Exc OtherException "integer division or modulo by zero")
  else ret (a mod b).

Module audio_recorder.
Section Defs.

Context {X : Type} (cfg : Settings) (env : Env X) (mic : Mic X).

Definition chunk : Z := 1024.

(** The [for] loop of [record_audio], with [n] chunks still to read; the
    progress bar it updates is console output. *)
Fixpoint read_frames (n : nat) (i per_second : Z) (frames : list string)
    : M X (list string) :=
  match n with
  | O => ret frames
  | S k =>
      data <- listen mic (PaRead chunk);;
      let frames := (frames ++ [data])%list in
      _ <- py_mod i per_second;;
      read_frames k (i + 1) per_second frames
  end.

(** The two numbers the loop is run with are [int(sample_rate / chunk *
    duration)] and [int(sample_rate / chunk)]; the division by 1024 is
    exact in floating point, and so is the product below 2^53, so that
    they are the integer quotients, rounded towards zero.  The block
    [with wave.open(output_path, 'wb') as wf] creates the file when it
    opens it, its setters check their argument, and the frames are
    written at the end; the header of the file is left out. *)
Definition record_audio
    (output_path : option string) (sample_rate channels duration : Z)
    : M X (option string) :=
  let logger := log "utils.audio_recorder" in
  try_except
    (output_path <-
       (if negb (Py.truthy output_path) then
          makedirs (Py.join (OUTPUTS_DIR cfg) "samples");;
          timestamp <- invoke env CTime;;
          ret (Py.join (Py.join (OUTPUTS_DIR cfg) "samples")
                 ("reference_audio_" +:+ Py.str timestamp +:+ ".wav"))
        else ret (str_opt output_path));;
     makedirs (Py.dirname output_path);;
     logger INFO ("Starting audio recording: " +:+ output_path);;
     listen mic PaPyAudio;;
     listen mic (PaOpen channels sample_rate chunk);;
     frames <- read_frames (Z.to_nat (Z.quot (sample_rate * duration) chunk))
                 0 (Z.quot sample_rate chunk) [];;
     listen mic PaStopStream;;
     listen mic PaClose;;
     listen mic PaTerminate;;
     write_file output_path "";;
     (if channels <? 1 then raise (Exc OtherException "bad # of channels")
      else ret tt);;
     sampwidth <- listen mic PaGetSampleSize;;
     (if ((sampwidth <? 1) || (4 <? sampwidth))%bool
      then raise (Exc OtherException "bad sample width") else ret tt);;
     (if sample_rate <=? 0 then raise (Exc OtherException "bad frame rate")
      else ret tt);;
     write_file output_path (String.concat "" frames);;
     logger INFO ("Audio recording saved to " +:+ output_path);;
     _ <- getsize output_path;;
     logger INFO "Recording size: {:.2f} MB";;
     ret (Some output_path))
    (fun e =>
       logger ERROR ("Error recording audio: " +:+ exn_text e);;
       ret None).

(** The [for] loop of [test_audio_device], with [n] devices still to
    look at. *)
Fixpoint has_input (n : nat) (i : Z) : M X bool :=
  match n with
  | O => ret false
  | S k =>
      max_input_channels <- listen mic (PaGetDeviceInfoByIndex i);;
      if max_input_channels >? 0 then ret true else has_input k (i + 1)
  end.

Definition test_audio_device : M X bool :=
  let logger := log "utils.audio_recorder" in
  try_except
    (listen mic PaPyAudio;;
     device_count <- listen mic PaGetDeviceCount;;
     found <- has_input (Z.to_nat device_count) 0;;
     listen mic PaTerminate;;
     ret found)
    (fun e =>
       logger ERROR ("Error testing audio device: " +:+ exn_text e);;
       ret false).

End Defs.
End audio_recorder.

(** ** main.py: the command line *)

(** What is outside the command-line program: the lines waiting on its
    standard input, and everything else. *)
Record console (X : Type) := Console { stdin : list string; beyond : X }.
Arguments Console {X} stdin beyond.
Arguments stdin {X} c.
Arguments beyond {X} c.

(** [input(prompt)]; the prompt is console output. *)
Definition input {X : Type} : M (console X) string :=
  fun w =>
    match stdin (outside (system w)) with
    | [] => (Raise (Exc OtherException "EOF when reading a line"), w)
    | line :: rest =>
        (Val line,
         {| system := {| outside := Console rest (beyond (outside (system w)));
                         files := files (system w) |};
            trace := trace w |})
    end.

(** [while not ok(x): x = input(prompt)], on the lines that are waiting:
    the value the loop ends with, and the lines it has left. *)
Fixpoint ask_until (ok : string -> bool) (x : string) (lines : list string)
    : res string * list string :=
  if ok x then (Val x, lines)
  else
    match lines with
    | [] => (Raise (Exc OtherException "EOF when reading a line"), [])
    | line :: rest => ask_until ok line rest
    end.

(** The same as a computation; [ok] may look at the files, which reading
    a line does not change. *)
Definition input_until {X : Type} (ok : string -> sys (console X) -> bool) (x : string)
    : M (console X) string :=
  fun w =>
    let '(r, rest) := ask_until (fun x => ok x (system w)) x (stdin (outside (system w))) in
    (r,
     {| system := {| outside := Console rest (beyond (outside (system w)));
                     files := files (system w) |};
        trace := trace w |}).

Module main_cli.
Section Defs.

Context {X : Type} (cfg : Settings) (env : Env (console X)) (mic : Mic (console X)).

(** [HAS_AUDIO_RECORDER]: whether [utils.audio_recorder] could be
    imported. *)
Context (HAS_AUDIO_RECORDER : bool).

(** What [parse_arguments] returns. *)
Record namespace := Namespace {
  youtube_url : option string;
  source_lang : string;
  target_lang : string;
  tts_engine : string;
  reference_audio : option string;
  record : bool;
  record_duration : Z
}.

(** [tts_engines] *)
Definition tts_engines : gmap string string :=
  list_to_map [("1", "gtts"); ("2", "voice_clone"); ("3", "bark"); ("4", "coqui")].

(** [choice in ["1", "2", "3", "4"]] *)
Definition is_choice (choice : string) : bool :=
  (String.eqb choice "1" || String.eqb choice "2"
   || String.eqb choice "3" || String.eqb choice "4")%bool.

(** The first part of [main], up to the call of [process_video]: the
    arguments of that call, or the exit status when [main] returns
    before it. *)
Definition prepare (args : namespace) : M (console X) (Z + main.args) :=
  youtube_url <-
    (if negb (Py.truthy (youtube_url args)) then input
     else ret (str_opt (youtube_url args)));;
  target_lang <-
    (if (negb (Py.nonempty (target_lang args))
         || String.eqb (Py.lower (target_lang args)) "ask")%bool then
       answer <- input;;
       input_until (fun x _ => Py.nonempty (Py.strip x)) answer
     else ret (target_lang args));;
  tts_engine <-
    (if String.eqb (Py.lower (tts_engine args)) "ask" then
       choice <- input;;
       choice <- input_until
                   (fun x _ => negb (negb (Py.nonempty (Py.strip x))
                                     || negb (is_choice x)))
                   choice;;
       ret (dict_get tts_engines choice "")
     else ret (tts_engine args));;
  if String.eqb (Py.lower tts_engine) "voice_clone" then
    if record args then
      if negb HAS_AUDIO_RECORDER then ret (inl 1)
      else
        available <- audio_recorder.test_audio_device mic;;
        if negb available then ret (inl 1)
        else
          recorded <- audio_recorder.record_audio cfg env mic
                        None 16000 1 (record_duration args);;
          if negb (Py.truthy recorded) then ret (inl 1)
          else ret (inr (main.Args youtube_url (source_lang args) target_lang
                           tts_engine recorded))
    else if negb (Py.truthy (reference_audio args)) then
      answer <- input;;
      path <- input_until
                (fun x s => negb (negb (Py.nonempty (Py.strip x))
                                  || negb (file_exists s x)))
                answer;;
      ret (inr (main.Args youtube_url (source_lang args) target_lang
                  tts_engine (Some path)))
    else
      ret (inr (main.Args youtube_url (source_lang args) target_lang
                  tts_engine (reference_audio args)))
  else
    ret (inr (main.Args youtube_url (source_lang args) target_lang
                tts_engine (reference_audio args))).

(** The rest of [main]: the pipeline, and the exit status. *)
Definition conclude (a : main.args) : M (console X) Z :=
  output_path <- main.process_video cfg env a;;
  found <- (if Py.truthy output_path then path_exists (str_opt output_path)
            else ret false);;
  if found then ret 0 else ret 1.

Definition main (args : namespace) : M (console X) Z :=
  prepared <- prepare args;;
  match prepared with
  | inl status => ret status
  | inr a => conclude a
  end.

(** ["%02d" % n] for a number of minutes or seconds *)
Definition two_digits (n : Z) : string :=
  if n <? 10 then "0" +:+ Py.str n else Py.str n.

(** [str(timedelta(seconds=int(seconds)))], on the whole seconds
    [int(seconds)]: the days, when there are any, then hours, minutes and
    seconds.  A [timedelta] holds at most 999999999 days. *)
Definition format_time (seconds : Z) : res string :=
  let days := seconds / 86400 in
  let rest := seconds mod 86400 in
  let clock := Py.str (rest / 3600) +:+ ":" +:+ two_digits (rest / 60 mod 60)
               +:+ ":" +:+ two_digits (rest mod 60) in
  if Z.abs days >? 999999999 then
    Raise (Exc OtherException
               ("days=" +:+ Py.str days +:+ "; must have magnitude <= 999999999"))
  else if days =? 0 then Val clock
  else Val (Py.str days +:+ " day" +:+ (if Z.abs days =? 1 then "" else "s")
            +:+ ", " +:+ clock).

End Defs.
End main_cli.

(** ** Vocabulary of the further properties *)

(** A computation that never raises. *)
Definition returns_normally {X A} (m : M X A) : Prop :=
  forall w, exists a w', m w = (Val a, w').

(** A computation all of whose calls satisfy [allowed]: a call in the
    record it leaves was there before, or is allowed. *)
Definition confined {X A} (allowed : call -> bool) (m : M X A) : Prop :=
  forall w c, In (Call c) (trace (snd (m w))) ->
              In (Call c) (trace w) \/ allowed c = true.

Definition is_popen (c : call) : bool :=
  match c with CPopen _ => true | _ => false end.

Definition is_moviepy (c : call) : bool :=
  match c with
  | CVideoFileClip _ | CAudioFileClip _ | CWriteVideofile _ _ _ _ => true
  | _ => false
  end.

Definition is_openai (c : call) : bool :=
  match c with COpenAIChat _ _ _ => true | _ => false end.

(** Loading the XTTS model, or synthesizing with it. *)
Definition is_xtts (c : call) : bool :=
  match c with CTTSLoad _ _ | CTTSToFile _ _ _ _ _ => true | _ => false end.

(** The calls of the default configuration: pytube, child processes,
    Whisper, Google Translate and Google TTS. *)
Definition is_light (c : call) : bool :=
  match c with
  | CYouTube _ | CStreamsFirst _ _ | CStreamDownload _ _ _ | CPopen _
  | CWhisperLoadModel _ | CWhisperTranscribe _ _ _ | CTranslatepy _ _ _
  | CgTTS _ _ | CgTTSSave _ _ _ => true
  | _ => false
  end.

(** The external call [c] leaves the files alone. *)
Definition leaves_files {X} (env : Env X) (c : call) : Prop :=
  forall s, files (snd (env c s)) = files s.

(** The engine names for which [text_to_speech] loads a speech model. *)
Definition loads_model (engine : string) : bool :=
  (String.eqb (Py.lower engine) "bark"
   || String.eqb (Py.lower engine) "coqui"
   || String.eqb (Py.lower engine) "voice_clone")%bool.

(** Neither moviepy nor the OpenAI API. *)
Definition is_configured (c : call) : bool := negb (is_moviepy c || is_openai c).

(** The world in which [text_to_speech] gives up on voice cloning, for
    want of a reference recording, and hands the text to Google TTS. *)
Definition at_missing_reference {X} (input engine text : string) (w : world X)
    : world X :=
  logged "utils.tts" ERROR
    "Voice cloning requires a valid reference audio file. Falling back to Google TTS."
    (logged "utils.tts" INFO
       ("Loaded text from " +:+ input +:+ " ("
        +:+ Py.str (Z.of_nat (String.length text)) +:+ " characters)")
       (logged "utils.tts" INFO
          ("Converting text to speech: " +:+ input +:+ " using "
           +:+ engine +:+ " engine") w)).

(** How many events of a record satisfy [f]. *)
Definition occurrences (f : event -> bool) (tr : list event) : nat :=
  length (List.filter f tr).

(** The log line [msg], at any level and from any logger. *)
Definition is_line (msg : string) (e : event) : bool :=
  match e with Log _ _ m => String.eqb m msg | Call _ => false end.

(** The import of the Coqui TTS library and of torch. *)
Definition is_import_tts (e : event) : bool :=
  match e with Call CImportTTS => true | _ => false end.

(** A computation that adds [n] events satisfying [f] to the record,
    whether it returns or raises. *)
Definition adds {X A} (f : event -> bool) (n : nat) (m : M X A) : Prop :=
  forall w, occurrences f (trace (snd (m w))) = (occurrences f (trace w) + n)%nat.

(** The two handlers [setup_logger] gives a logger, in the order in which
    it adds them. *)
Definition console_handler : logger.handler :=
  logger.StreamHandler (logger.ColoredFormatter "%(levelname)s: %(message)s").

Definition file_handler (cfg : Settings) : logger.handler :=
  logger.FileHandler (logger.LOG_FILE cfg)
    (logger.Formatter "[%(asctime)s] %(levelname)s - %(name)s - %(message)s").

(** A computation that always raises. *)
Definition always_raises {X A} (m : M X A) : Prop :=
  forall w, exists e w', m w = (Raise e, w').

(** A sound set-up that does not change: [count] devices, of which device
    [i] has [channels i] input channels. *)
Definition device_table {X} (mic : Mic X) (count : Z) (channels : Z -> Z) : Prop :=
  forall s,
    mic PaPyAudio s = (Val tt, s)
    /\ mic PaGetDeviceCount s = (Val count, s)
    /\ (forall i, mic (PaGetDeviceInfoByIndex i) s = (Val (channels i), s))
    /\ mic PaTerminate s = (Val tt, s).

(** The command line left the target language to be asked for. *)
Definition asks_language (args : main_cli.namespace) : bool :=
  (negb (Py.nonempty (main_cli.target_lang args))
   || String.eqb (Py.lower (main_cli.target_lang args)) "ask")%bool.

(** The command line left the engine to be asked for. *)
Definition asks_engine (args : main_cli.namespace) : bool :=
  String.eqb (Py.lower (main_cli.tts_engine args)) "ask".

(** The exit status that goes with what the pipeline returned. *)
Definition status_of (r : res (option string)) : Z :=
  match r with Val (Some _) => 0 | _ => 1 end.

(** What holds once the last step of [process_video] is over. *)
Definition final_ok {X} (cfg : Settings) (s : main.state) (w : world X) : Prop :=
  match s with
  | main.Done p => p = OUTPUT_VIDEO_PATH cfg /\ file_exists (system w) p = true
  | _ => True
  end.

(** ** Further scenarios *)

Module Cases.

(** Google Translate answers with nothing; the OpenAI API answers every
    request with [reply]; nothing else is available. *)
Definition translators (reply : string) : Env unit :=
  fun c =>
    match c return ext unit (returns c) with
    | CTranslatepy _ _ _ => fun s => (Val "", s)
    | COpenAIChat _ _ _ => fun s => (Val (Some reply), s)
    | c' => Scenario.nothing_works c'
    end.

Definition with_key : Settings := {| BASE_DIR := "/app"; OPENAI_API_KEY := "sk-test" |}.

(** The TTS library imports and there is no GPU; Google TTS works; the
    XTTS model is not available. *)
Definition no_xtts : Env unit :=
  fun c =>
    match c return ext unit (returns c) with
    | CImportTTS => fun s => (Val tt, s)
    | CCudaIsAvailable => fun s => (Val false, s)
    | CgTTS _ _ => fun s => (Val tt, s)
    | CgTTSSave _ _ p => fun s => (Val tt, Scenario.put p "speech" s)
    | c' => Scenario.nothing_works c'
    end.

(** moviepy opens a video of [video_duration] seconds and a sound track
    of [audio_duration] seconds, and writes its output. *)
Definition moviepy_clips (video_duration audio_duration : Z) : Env unit :=
  fun c =>
    match c return ext unit (returns c) with
    | CVideoFileClip _ => fun s => (Val video_duration, s)
    | CAudioFileClip _ => fun s => (Val audio_duration, s)
    | CWriteVideofile out _ _ _ => fun s => (Val tt, Scenario.put out "muxed" s)
    | c' => Scenario.nothing_works c'
    end.

(** Google TTS saves its file; a child process exits with status [code]
    and leaves the files alone; nothing else is available. *)
Definition sample_maker (code : Z) : Env unit :=
  fun c =>
    match c return ext unit (returns c) with
    | CgTTS _ _ => fun s => (Val tt, s)
    | CgTTSSave _ _ p => fun s => (Val tt, Scenario.put p "speech" s)
    | CPopen _ => fun s => (Val (Proc code "" ""), s)
    | c' => Scenario.nothing_works c'
    end.

(** A process in which no logger has been asked for yet, with the files
    [l] on disk. *)
Definition fresh (l : list (string * string)) : world logger.registry :=
  {| system := {| outside := ∅; files := list_to_map l |}; trace := [] |}.

(** Two sound devices, the second of which is a microphone that hears
    [heard] in every chunk. *)
Definition microphone (heard : string) : Mic unit :=
  fun c =>
    match c return ext unit (mic_returns c) with
    | PaRead _ => fun s => (Val heard, s)
    | PaGetSampleSize => fun s => (Val 2, s)
    | PaGetDeviceCount => fun s => (Val 2, s)
    | PaGetDeviceInfoByIndex i => fun s => (Val (if i =? 1 then 1 else 0), s)
    | PaPyAudio | PaOpen _ _ _ | PaStopStream | PaClose | PaTerminate =>
        fun s => (Val tt, s)
    end.

(** A process with the lines [lines] waiting on its standard input and
    the files [l] on disk. *)
Definition terminal (lines : list string) (l : list (string * string))
    : world (console unit) :=
  {| system := {| outside := Console lines tt; files := list_to_map l |}; trace := [] |}.

(** Nothing is installed and nothing answers, at the command line. *)
Definition offline : Env (console unit) :=
  fun c s => (Raise (Exc OtherException "unavailable"), s).

Definition no_microphone : Mic (console unit) :=
  fun c s => (Raise (Exc OtherException "unavailable"), s).

(** [python main.py URL --tts ask]: the language and the engine are
    asked for. *)
Definition asking : main_cli.namespace :=
  main_cli.Namespace (Some "https://youtu.be/x") "en" "ask" "ask" None false 10.

(** The video has no stream pytube could download; yt-dlp fetches it. *)
Definition no_stream : Env unit :=
  fun c =>
    match c return ext unit (returns c) with
    | CYouTube _ => fun s => (Val "title", s)
    | CStreamsFirst _ _ => fun s => (Val None, s)
    | CPopen cmd =>
        fun s => (Val (Proc 0 "" ""),
                  Scenario.put (List.nth 4 cmd "") "video" s)
    | c' => Scenario.nothing_works c'
    end.

End Cases.

(** * Properties *)

Example lower_mixed : Py.lower "Voice_Clone" = "voice_clone".
Proof. reflexivity. Qed.

Example dirname_outputs :
  Py.dirname "/srv/ai_dub/outputs/temp_audio.wav" = "/srv/ai_dub/outputs".
Proof. reflexivity. Qed.

Example dirname_bare : Py.dirname "out.mp3" = "".
Proof. reflexivity. Qed.

Example basename_outputs :
  Py.basename "/srv/ai_dub/outputs/temp_audio.wav" = "temp_audio.wav".
Proof. reflexivity. Qed.

Example resolution_digits : Py.remove_char "p" "720p" = "720".
Proof. reflexivity. Qed.

Example str_sample_rate : Py.str 16000 = "16000".
Proof. reflexivity. Qed.

(** [strip] takes off the separators 28 to 31 and the spaces beyond
    ASCII, here U+00A0 and U+3000, and leaves what is inside the text;
    the zero-width space U+200B is no white space. *)
Example strip_separator : Py.strip (String "031" "selam") = "selam".
Proof. reflexivity. Qed.

Example strip_beyond_ascii :
  Py.strip (String "009" (String "194" (String "160" "a b"))
            +:+ String "227" (String "128" (String "128" (String "010" ""))))
  = "a b".
Proof. reflexivity. Qed.

Example strip_zero_width :
  Py.strip (String "226" (String "128" (String "139" "x")))
  = String "226" (String "128" (String "139" "x")).
Proof. reflexivity. Qed.

(** A run in which everything works: the six engines are called in
    order, each on the file the one before it wrote. *)
Example run_to_the_end :
  let run := main.process_video Scenario.cfg (Scenario.all_work "hello")
               Scenario.default_args (Scenario.disk []) in
  fst run = Val (Some "/app/outputs/dubbed_video.mp4")
  /\ calls (trace (snd run))
     = [Call (CYouTube "https://youtu.be/x");
        Call (CStreamsFirst "https://youtu.be/x" (Some "720p"));
        Call (CStreamDownload "22" "/app/outputs" "temp_video.mp4");
        Call (CPopen (audio_extractor.extract_audio_cmd
                        "/app/outputs/temp_video.mp4" "/app/outputs/temp_audio.wav"
                        16000 1));
        Call (CWhisperLoadModel "base");
        Call (CWhisperTranscribe "base" "/app/outputs/temp_audio.wav" (Some "en"));
        Call (CTranslatepy "hello" "en" "tr");
        Call (CgTTS "hello" "tr");
        Call (CgTTSSave "hello" "tr" "/app/outputs/dubbed_audio.wav");
        Call (CPopen (video_merger.merge_cmd
                        "/app/outputs/temp_video.mp4" "/app/outputs/dubbed_audio.wav"
                        "/app/outputs/dubbed_video.mp4"))].
Proof. vm_compute. auto. Qed.

(** A run in which nothing works ends at its first step, after both
    download engines were tried. *)
Example run_without_network :
  let run := main.process_video Scenario.cfg Scenario.nothing_works
               Scenario.default_args (Scenario.disk []) in
  fst run = Val None
  /\ calls (trace (snd run))
     = [Call (CYouTube "https://youtu.be/x");
        Call (CPopen (downloader.yt_dlp_cmd "https://youtu.be/x"
                        "/app/outputs/temp_video.mp4" "720"))]
  /\ messages_at ERROR (trace (snd run))
     = ["Unexpected error during download: unavailable";
        "Error using yt-dlp: unavailable";
        "Failed to download video. Exiting."].
Proof. vm_compute. auto. Qed.

(** ** Running computations *)

Section Laws.

Context {X : Type}.

Lemma run_bind {A B} (m : M X A) (k : A -> M X B) (w : world X) :
  bind m k w =
  match m w with
  | (Val a, w') => k a w'
  | (Raise e, w') => (Raise e, w')
  end.
Proof. reflexivity. Qed.

Lemma run_bind_val {A B} (m : M X A) (k : A -> M X B) w a w' :
  m w = (Val a, w') -> bind m k w = k a w'.
Proof. intros H. rewrite run_bind, H. reflexivity. Qed.

Lemma run_bind_raise {A B} (m : M X A) (k : A -> M X B) w e w' :
  m w = (Raise e, w') -> bind m k w = (Raise e, w').
Proof. intros H. rewrite run_bind, H. reflexivity. Qed.

Lemma run_try {A} (m : M X A) (h : exn -> M X A) (w : world X) :
  try_except m h w =
  match m w with
  | (Val a, w') => (Val a, w')
  | (Raise e, w') => h e w'
  end.
Proof. reflexivity. Qed.

Lemma run_log name lvl msg (w : world X) :
  log name lvl msg w =
  (Val tt, {| system := system w; trace := trace w ++ [Log name lvl msg] |}).
Proof. reflexivity. Qed.

Lemma isinstance_same c t : isinstance (Exc c t) c = true.
Proof. unfold isinstance. apply bool_decide_eq_true_2. reflexivity. Qed.

Lemma calls_app (t u : list event) :
  calls (t ++ u) = (calls t ++ calls u)%list.
Proof. unfold calls. apply List.filter_app. Qed.

Lemma calls_log (t : list event) name lvl msg :
  calls (t ++ [Log name lvl msg]) = calls t.
Proof. rewrite calls_app. simpl. apply app_nil_r. Qed.

(** [get_file_size_mb] only looks. *)
Lemma get_file_size_mb_run p (w : world X) :
  exists n, main.get_file_size_mb p w = (Val n, w).
Proof.
  unfold main.get_file_size_mb, path_exists, getsize, file_exists, bind, ret.
  case_bool_decide as Hp; simpl.
  - destruct Hp as [c Hc]. rewrite Hc. eauto.
  - eauto.
Qed.

End Laws.

(** Running a computation to its end: unfold the primitives and split on
    the outcome of every call and test. *)
Ltac case_inner x :=
  match x with
  | context [match ?y with _ => _ end] => case_inner y
  | _ => destruct x eqn:?
  end.

Ltac run_all :=
  unfold bind, try_except, makedirs, log, emit, invoke, extern, getsize,
         path_exists, read_file, write_file, raise, ret; cbn;
  repeat (match goal with
          | |- context [match ?x with _ => _ end] => case_inner x
          end; cbn).

(** ** Files, records and the merger's dispatch *)

Section Shared.

Context {X : Type} (env : Env X).

Lemma file_exists_missing (s : sys X) p : files s !! p = None -> file_exists s p = false.
Proof. intros H. unfold file_exists. rewrite H. apply bool_decide_eq_false. intros [? ?]; discriminate. Qed.

Lemma file_exists_present (s : sys X) p : file_exists s p = true <-> is_Some (files s !! p).
Proof. unfold file_exists. apply bool_decide_eq_true. Qed.

Lemma file_exists_lookup (s : sys X) p c : files s !! p = Some c -> file_exists s p = true.
Proof. intros H. apply file_exists_present. eauto. Qed.

Lemma file_exists_cases (s : sys X) p :
  (exists c, files s !! p = Some c /\ file_exists s p = true)
  \/ (files s !! p = None /\ file_exists s p = false).
Proof.
  destruct (files s !! p) as [c|] eqn:E.
  - left. exists c. split; [reflexivity|]. eapply file_exists_lookup, E.
  - right. split; [reflexivity|]. apply file_exists_missing, E.
Qed.

Lemma messages_at_app l (t u : list event) :
  messages_at l (t ++ u) = (messages_at l t ++ messages_at l u)%list.
Proof.
  induction t as [|[name l' m|c] t IH]; simpl; [reflexivity| |exact IH].
  case_bool_decide; simpl; rewrite IH; reflexivity.
Qed.

Lemma langs_passed_app (t u : list event) :
  langs_passed (t ++ u) = (langs_passed t ++ langs_passed u)%list.
Proof.
  induction t as [|[name l m|c] t IH]; simpl; [reflexivity|exact IH|].
  destruct c; simpl; rewrite IH; reflexivity.
Qed.

Lemma count_message_app msg (t u : list event) :
  count_message msg (t ++ u) = (count_message msg t + count_message msg u)%nat.
Proof.
  induction t as [|[name l m|c] t IH]; simpl; [reflexivity| |exact IH].
  destruct (String.eqb m msg); simpl; rewrite IH; reflexivity.
Qed.

(** [merge_video_audio_ffmpeg] turns every exception into [None]. *)
Lemma merge_ffmpeg_returns (w : world X) video audio out :
  exists r w', video_merger.merge_video_audio_ffmpeg env video audio out w = (Val r, w').
Proof.
  unfold video_merger.merge_video_audio_ffmpeg.
  rewrite run_bind, run_log, run_bind. cbn [path_exists].
  destruct (file_exists _ video); cbn [negb]; [|rewrite run_bind, run_log; eauto].
  rewrite run_bind. cbn [path_exists].
  destruct (file_exists _ audio); cbn [negb]; [|rewrite run_bind, run_log; eauto].
  rewrite run_try.
  match goal with |- context [match ?m ?w0 with _ => _ end] => destruct (m w0) as [[r|e] w1] end;
    [eauto|].
  destruct (isinstance e FileNotFoundError); rewrite run_bind, run_log; eauto.
Qed.

(** So the [except] clause of [merge_video_audio] never runs: with
    [use_ffmpeg=True] the function is [merge_video_audio_ffmpeg]. *)
Lemma merge_video_audio_is_ffmpeg (w : world X) video audio out :
  video_merger.merge_video_audio env video audio out true w
  = video_merger.merge_video_audio_ffmpeg env video audio out w.
Proof.
  unfold video_merger.merge_video_audio. rewrite run_try.
  destruct (merge_ffmpeg_returns w video audio out) as (r & w' & ->). reflexivity.
Qed.

End Shared.

(** ** What a successful adapter has produced *)

Section Produced.

Context {X : Type} (cfg : Settings) (env : Env X).

(** The acquirer: when the pytube attempt raises, the stage is the
    yt-dlp attempt, from the world pytube left behind. *)
Lemma download_falls_back url out res (w : world X) e w1 :
  downloader.download_with_pytube env url out res
    (logged "utils.downloader" INFO ("Downloading YouTube video: " +:+ url) w)
    = (Raise e, w1) ->
  downloader.download_youtube_video env url out res w
  = downloader.download_video_with_yt_dlp env url out (Py.remove_char "p" res)
      (after_pytube_error e w1).
Proof.
  intros H. unfold downloader.download_youtube_video.
  rewrite run_bind, run_log, run_try. fold (logged "utils.downloader" INFO ("Downloading YouTube video: " +:+ url) w).
  rewrite H. unfold after_pytube_error, pytube_error_line.
  destruct (isinstance e PytubeError); reflexivity.
Qed.

Lemma download_pytube_ok url out res (w : world X) r w1 :
  downloader.download_with_pytube env url out res
    (logged "utils.downloader" INFO ("Downloading YouTube video: " +:+ url) w)
    = (Val r, w1) ->
  downloader.download_youtube_video env url out res w = (Val r, w1).
Proof.
  intros H. unfold downloader.download_youtube_video.
  rewrite run_bind, run_log, run_try. fold (logged "utils.downloader" INFO ("Downloading YouTube video: " +:+ url) w).
  rewrite H. reflexivity.
Qed.

Ltac produced :=
  intros w p w'; run_all; intros H; inversion H; subst; clear H;
  (split; [reflexivity|]); cbn;
  first [ eapply file_exists_lookup; eassumption
        | eapply file_exists_lookup; cbn; apply lookup_insert_eq ].

Lemma yt_dlp_produces url out res :
  produces (downloader.download_video_with_yt_dlp env url out res) out.
Proof. unfold downloader.download_video_with_yt_dlp. produced. Qed.

Lemma pytube_produces url out res :
  produces (downloader.download_with_pytube env url out res) out.
Proof. unfold downloader.download_with_pytube. produced. Qed.

Lemma download_produces url out res :
  produces (downloader.download_youtube_video env url out res) out.
Proof.
  intros w p w' H.
  destruct (downloader.download_with_pytube env url out res
              (logged "utils.downloader" INFO ("Downloading YouTube video: " +:+ url) w))
    as [[r|e] w1] eqn:E.
  - rewrite (download_pytube_ok _ _ _ _ _ _ E) in H. inversion H; subst.
    apply (pytube_produces _ _ _ _ _ _ E).
  - rewrite (download_falls_back _ _ _ _ _ _ E) in H.
    apply (yt_dlp_produces _ _ _ _ _ _ H).
Qed.

Lemma extract_produces video out sr ch :
  produces (audio_extractor.extract_audio env video out sr ch) out.
Proof. unfold audio_extractor.extract_audio. produced. Qed.

Lemma transcribe_produces audio out model lang :
  produces (transcriber.transcribe_audio env audio out model lang) out.
Proof. unfold transcriber.transcribe_audio. produced. Qed.

Lemma translate_produces input out src tgt engine :
  produces (translator.translate_file cfg env input out src tgt engine) out.
Proof.
  unfold translator.translate_file, translator.translate_text_google,
         translator.translate_text_openai.
  produced.
Qed.

Lemma bark_produces text out language preset :
  produces (tts.generate_speech_bark env text out language preset) out.
Proof. unfold tts.generate_speech_bark. produced. Qed.

Lemma coqui_produces text out language :
  produces (tts.generate_speech_coqui env text out language) out.
Proof. unfold tts.generate_speech_coqui. produced. Qed.

Lemma voice_clone_produces text out ref language :
  produces (tts.generate_speech_voice_clone env text out ref language) out.
Proof. unfold tts.generate_speech_voice_clone, tts.pick_lang. produced. Qed.

Lemma gtts_produces text out language :
  produces (tts.generate_speech_gtts env text out language) out.
Proof. unfold tts.generate_speech_gtts, tts.pick_lang. produced. Qed.

Lemma produces_after_log name lvl msg (m : M X (option string)) out :
  produces m out -> produces (log name lvl msg;; m) out.
Proof. intros Hm w p w' H. rewrite run_bind, run_log in H. eapply Hm, H. Qed.

Lemma text_to_speech_produces input out language engine ref :
  produces (tts.text_to_speech env input out language engine ref) out.
Proof.
  intros w p w'. unfold tts.text_to_speech.
  rewrite run_bind, run_log, run_bind. cbn [path_exists].
  destruct (file_exists _ input); cbn [negb];
    [|rewrite run_bind, run_log; discriminate].
  rewrite run_try, run_bind.
  destruct (read_file input _) as [[text|e] w1];
    [|rewrite run_bind, run_log; discriminate].
  rewrite run_bind, run_log.
  match goal with |- context [match ?m ?w0 with _ => _ end] =>
    destruct (m w0) as [[r|e] w2] eqn:E end;
    [|rewrite run_bind, run_log; discriminate].
  intros H. inversion H; subst. revert E.
  repeat match goal with |- context [if ?b then _ else _] => destruct b end;
    try apply bark_produces; try apply coqui_produces; try apply gtts_produces.
  destruct ref as [ref|]; [|apply produces_after_log, gtts_produces].
  rewrite run_bind.
  destruct (Py.nonempty ref); [cbn [path_exists] | cbn [ret]].
  - destruct (file_exists _ ref).
    + apply voice_clone_produces.
    + apply produces_after_log, gtts_produces.
  - apply produces_after_log, gtts_produces.
Qed.

Lemma merge_produces video audio out use_ffmpeg :
  produces (video_merger.merge_video_audio env video audio out use_ffmpeg) out.
Proof.
  destruct use_ffmpeg.
  - intros w p w'. rewrite merge_video_audio_is_ffmpeg. revert w p w'.
    unfold video_merger.merge_video_audio_ffmpeg. produced.
  - unfold video_merger.merge_video_audio, video_merger.merge_video_audio_moviepy.
    produced.
Qed.

End Produced.

(** ** The orchestrator *)

Section Orchestrator.

Context {X : Type} (cfg : Settings) (env : Env X) (a : main.args).

#[local] Abbreviation step := (main.step cfg env a).
#[local] Abbreviation steps := (main.steps cfg env a).
#[local] Abbreviation run_stage := (main.run_stage cfg env a).
#[local] Abbreviation process_video := (main.process_video cfg env a).

Lemma steps_failed n (w : world X) : steps n main.Failed w = (Val main.Failed, w).
Proof. induction n as [|n IH]; [reflexivity|]. simpl. rewrite run_bind. simpl. apply IH. Qed.

Lemma steps_add k j s (w : world X) :
  steps (k + j) s w =
  match steps k s w with
  | (Val s', w') => steps j s' w'
  | (Raise e, w') => (Raise e, w')
  end.
Proof.
  revert s w. induction k as [|k IH]; intros s w; [reflexivity|].
  simpl. rewrite !run_bind. destruct (step s w) as [[s'|e] w']; [apply IH | reflexivity].
Qed.

(** What a step does with the value its adapter returned. *)
Lemma step_falsy s (w : world X) r w' :
  (forall o, s <> main.Done o) ->
  run_stage s w = (Val r, w') -> Py.truthy r = false ->
  exists w'', step s w = (Val main.Failed, w'')
              /\ system w'' = system w' /\ calls (trace w'') = calls (trace w').
Proof.
  intros Hs Hrun Hr.
  destruct s; simpl in Hrun |- *;
    try (rewrite (run_bind_val _ _ _ _ _ Hrun), Hr; simpl;
         eexists; split; [reflexivity|]; simpl; split; [reflexivity | apply calls_log]).
  - exfalso. eapply Hs. reflexivity.
  - inversion Hrun; subst. eauto.
Qed.

Lemma step_index s (w : world X) s' w' :
  step s w = (Val s', w') -> (main.index s < 6)%nat ->
  s' = main.Failed \/ main.index s' = S (main.index s).
Proof.
  intros Hstep Hlt.
  destruct s; simpl in Hstep, Hlt; try lia;
    rewrite run_bind in Hstep;
    match type of Hstep with
    | context [match ?m w with _ => _ end] => destruct (m w) as [[r|e] w1]
    end; try discriminate;
    destruct (Py.truthy r); simpl in Hstep.
  all: try (rewrite run_bind in Hstep; simpl in Hstep; inversion Hstep; subst; auto; fail).
  all: rewrite run_bind in Hstep.
  all: try (destruct (get_file_size_mb_run (str_opt r) w1) as [n Hn]; rewrite Hn in Hstep;
            inversion Hstep; subst; simpl; auto; fail).
  all: try (destruct (read_file (str_opt r) w1) as [[c|e] w2]; inversion Hstep; subst; simpl; auto; fail).
Qed.


Lemma steps_index k (w : world X) s w' :
  steps k main.Acquiring w = (Val s, w') -> (k <= 6)%nat ->
  s = main.Failed \/ main.index s = k.
Proof.
  revert s w'. induction k as [|k IH]; intros s w' Hk Hle.
  - inversion Hk; subst. auto.
  - replace (S k) with (k + 1)%nat in Hk by lia.
    rewrite steps_add in Hk.
    destruct (steps k main.Acquiring w) as [[s1|e] w1] eqn:E1; [|discriminate].
    destruct (IH _ _ eq_refl ltac:(lia)) as [->|Hi].
    + rewrite steps_failed in Hk. inversion Hk; auto.
    + simpl in Hk. rewrite run_bind in Hk.
      destruct (step s1 w1) as [[s2|e] w2] eqn:E2; [|discriminate].
      inversion Hk; subst.
      destruct (step_index _ _ _ _ E2 ltac:(lia)) as [?|?]; [auto | right; lia].
Qed.

Lemma banner_run (w : world X) :
  exists w', main.banner a w = (Val tt, w') /\ system w' = system w
             /\ calls (trace w') = calls (trace w).
Proof.
  unfold main.banner. eexists. split; [reflexivity|]. simpl.
  split; [reflexivity|]. rewrite !calls_log. reflexivity.
Qed.

(** A step that ends in [Failed] ends the run, in the world it left. *)
Lemma process_video_fails_at k s (w w_k w'' : world X) :
  (k < 6)%nat ->
  main.prefix cfg env a k w = (Val s, w_k) ->
  step s w_k = (Val main.Failed, w'') ->
  process_video w = (Val None, w'').
Proof.
  intros Hk Hpre Hstep.
  unfold main.prefix in Hpre. rewrite run_bind in Hpre.
  destruct (banner_run w) as (wb & Hb & _ & _).
  rewrite Hb in Hpre.
  assert (Hfinal : steps 6 main.Acquiring wb = (Val main.Failed, w'')).
  { replace 6%nat with (k + S (5 - k))%nat by lia.
    rewrite steps_add, Hpre. simpl. rewrite run_bind, Hstep.
    apply steps_failed. }
  unfold main.process_video. rewrite run_try, run_bind, Hb, run_bind, Hfinal.
  reflexivity.
Qed.

Lemma step_raises s (w : world X) e w' :
  run_stage s w = (Raise e, w') -> step s w = (Raise e, w').
Proof.
  intros Hrun.
  destruct s; simpl in Hrun |- *;
    try (rewrite (run_bind_raise _ _ _ _ _ Hrun); reflexivity);
    discriminate.
Qed.

(** A step that raises ends the run in the [except] clause of
    [process_video]. *)
Lemma process_video_raises_at k s (w w_k w' : world X) e :
  (k < 6)%nat ->
  main.prefix cfg env a k w = (Val s, w_k) ->
  step s w_k = (Raise e, w') ->
  process_video w
  = (Val None,
     logged "__main__" ERROR
       ("Unexpected error during dubbing process: " +:+ exn_text e) w').
Proof.
  intros Hk Hpre Hstep.
  unfold main.prefix in Hpre. rewrite run_bind in Hpre.
  destruct (banner_run w) as (wb & Hb & _ & _).
  rewrite Hb in Hpre.
  assert (Hfinal : steps 6 main.Acquiring wb = (Raise e, w')).
  { replace 6%nat with (k + S (5 - k))%nat by lia.
    rewrite steps_add, Hpre. simpl. rewrite run_bind, Hstep. reflexivity. }
  unfold main.process_video. rewrite run_try, run_bind, Hb, run_bind, Hfinal.
  reflexivity.
Qed.

(** ** C1 *)

(** C1.  When the adapter of a step fails, by returning [None] or an
    empty path or by raising, the run is over: [process_video] returns
    [None], and between the adapter's return and the end of the run
    nothing is called and no file changes. *)
Theorem failed_stage_ends_run k s (w w_k : world X) r w' :
  (k < 6)%nat ->
  main.prefix cfg env a k w = (Val s, w_k) ->
  run_stage s w_k = (r, w') ->
  stage_failed r = true ->
  fst (process_video w) = Val None
  /\ calls (trace (snd (process_video w))) = calls (trace w')
  /\ system (snd (process_video w)) = system w'.
Proof.
  intros Hk Hpre Hrun Hr. destruct r as [r|e]; simpl in Hr.
  - apply negb_true_iff in Hr.
    assert (Hs : exists w'', step s w_k = (Val main.Failed, w'')
                   /\ system w'' = system w'
                   /\ calls (trace w'') = calls (trace w')).
    { assert (Hi : s = main.Failed \/ main.index s = k).
      { unfold main.prefix in Hpre. rewrite run_bind in Hpre.
        destruct (banner_run w) as (wb & Hb & _ & _). rewrite Hb in Hpre.
        apply (steps_index _ _ _ _ Hpre). lia. }
      destruct Hi as [->|Hi].
      - simpl in Hrun. inversion Hrun; subst. simpl. eauto.
      - apply (step_falsy s w_k r w'); auto.
        intros o ->. simpl in Hi. lia. }
    destruct Hs as (w'' & Hstep & Hsys & Hc).
    rewrite (process_video_fails_at k s w w_k w'' Hk Hpre Hstep).
    simpl. auto.
  - rewrite (process_video_raises_at k s w w_k w' e Hk Hpre (step_raises _ _ _ _ Hrun)).
    simpl. split; [reflexivity|]. split; [apply calls_log | reflexivity].
Qed.

End Orchestrator.

Lemma failed_stage_ends_run_witness :
  let run := main.process_video Scenario.cfg Scenario.only_pytube_works
               Scenario.default_args (Scenario.disk []) in
  let reached := main.prefix Scenario.cfg Scenario.only_pytube_works
                   Scenario.default_args 1 (Scenario.disk []) in
  let extraction := main.run_stage Scenario.cfg Scenario.only_pytube_works
                      Scenario.default_args
                      (main.Extracting "/app/outputs/temp_video.mp4") (snd reached) in
  fst extraction = Val None
  /\ fst run = Val None
  /\ calls (trace (snd run)) = calls (trace (snd extraction))
  /\ system (snd run) = system (snd extraction).
Proof.
  intros run reached extraction.
  split; [vm_compute; reflexivity|].
  apply (failed_stage_ends_run Scenario.cfg Scenario.only_pytube_works
           Scenario.default_args 1 (main.Extracting "/app/outputs/temp_video.mp4")
           (Scenario.disk []) (snd reached) (Val None)).
  - lia.
  - vm_compute. reflexivity.
  - vm_compute. reflexivity.
  - reflexivity.
Defined.

(** ** C2 *)

Section MissingInput.

Context {X : Type} (cfg : Settings) (env : Env X).

Ltac missing H :=
  unfold fails_without_engine, bind, log, emit, path_exists, ret; cbn;
  rewrite ?(file_exists_missing _ _ H); cbn;
  rewrite ?calls_log; auto.

Lemma extract_audio_missing (w : world X) p out sr ch :
  files (system w) !! p = None ->
  fails_without_engine (audio_extractor.extract_audio env p out sr ch) w.
Proof. intros H. unfold audio_extractor.extract_audio. missing H. Qed.

Lemma transcribe_audio_missing (w : world X) p out model lang :
  files (system w) !! p = None ->
  fails_without_engine (transcriber.transcribe_audio env p out model lang) w.
Proof. intros H. unfold transcriber.transcribe_audio. missing H. Qed.

Lemma translate_file_missing (w : world X) p out src tgt engine :
  files (system w) !! p = None ->
  fails_without_engine (translator.translate_file cfg env p out src tgt engine) w.
Proof. intros H. unfold translator.translate_file. missing H. Qed.

Lemma text_to_speech_missing (w : world X) p out lang engine ref :
  files (system w) !! p = None ->
  fails_without_engine (tts.text_to_speech env p out lang engine ref) w.
Proof. intros H. unfold tts.text_to_speech. missing H. Qed.

Lemma merge_ffmpeg_missing_video (w : world X) p audio out :
  files (system w) !! p = None ->
  fails_without_engine (video_merger.merge_video_audio_ffmpeg env p audio out) w.
Proof. intros H. unfold video_merger.merge_video_audio_ffmpeg. missing H. Qed.

Lemma merge_ffmpeg_missing_audio (w : world X) video p out :
  files (system w) !! p = None ->
  fails_without_engine (video_merger.merge_video_audio_ffmpeg env video p out) w.
Proof.
  intros H. unfold video_merger.merge_video_audio_ffmpeg.
  unfold fails_without_engine, bind, log, emit, path_exists, ret; cbn.
  destruct (file_exists (system w) video); cbn;
   rewrite ?(file_exists_missing _ _ H); cbn; rewrite ?calls_log; auto.
Qed.


Lemma merge_moviepy_missing_video (w : world X) p audio out :
  files (system w) !! p = None ->
  fails_without_engine (video_merger.merge_video_audio_moviepy env p audio out) w.
Proof. intros H. unfold video_merger.merge_video_audio_moviepy. missing H. Qed.

Lemma merge_moviepy_missing_audio (w : world X) video p out :
  files (system w) !! p = None ->
  fails_without_engine (video_merger.merge_video_audio_moviepy env video p out) w.
Proof.
  intros H. unfold video_merger.merge_video_audio_moviepy.
  unfold fails_without_engine, bind, log, emit, path_exists, ret; cbn.
  destruct (file_exists (system w) video); cbn;
   rewrite ?(file_exists_missing _ _ H); cbn; rewrite ?calls_log; auto.
Qed.

(** C2, amended.  An adapter whose input file does not exist returns
    [None] without calling any engine and without touching the system.
    This holds for the extractor, the transcriber, the translator, the
    synthesizer and, for each of its two inputs, the muxer. *)
Theorem missing_input_no_engine (w : world X) (p : string) :
  files (system w) !! p = None ->
  (forall out sr ch,
      fails_without_engine (audio_extractor.extract_audio env p out sr ch) w)
  /\ (forall out model lang,
      fails_without_engine (transcriber.transcribe_audio env p out model lang) w)
  /\ (forall out src tgt engine,
      fails_without_engine (translator.translate_file cfg env p out src tgt engine) w)
  /\ (forall out lang engine ref,
      fails_without_engine (tts.text_to_speech env p out lang engine ref) w)
  /\ (forall other out use_ffmpeg,
      fails_without_engine (video_merger.merge_video_audio env p other out use_ffmpeg) w
      /\ fails_without_engine (video_merger.merge_video_audio env other p out use_ffmpeg) w).
Proof.
  intros H. split; [|split; [|split; [|split]]]; intros.
  - apply extract_audio_missing, H.
  - apply transcribe_audio_missing, H.
  - apply translate_file_missing, H.
  - apply text_to_speech_missing, H.
  - destruct use_ffmpeg; split; unfold fails_without_engine;
      rewrite ?merge_video_audio_is_ffmpeg.
    + apply merge_ffmpeg_missing_video, H.
    + apply merge_ffmpeg_missing_audio, H.
    + apply merge_moviepy_missing_video, H.
    + apply merge_moviepy_missing_audio, H.
Qed.

End MissingInput.

Lemma missing_input_no_engine_witness :
  fails_without_engine
    (audio_extractor.extract_audio (Scenario.all_work "hello")
       "/app/outputs/temp_video.mp4" "/app/outputs/temp_audio.wav" 16000 1)
    (Scenario.disk []).
Proof.
  apply (missing_input_no_engine Scenario.cfg (Scenario.all_work "hello")
           (Scenario.disk []) "/app/outputs/temp_video.mp4").
  reflexivity.
Defined.

(** C2, as stated, fails on an input file that exists and is empty: the
    extractor starts the transcoder on it. *)
Lemma empty_input_reaches_engine :
  files (system (Scenario.disk [("/app/outputs/temp_video.mp4", "")]))
    !! "/app/outputs/temp_video.mp4" = Some ""
  /\ calls (trace (snd (audio_extractor.extract_audio (Scenario.all_work "hello")
                          "/app/outputs/temp_video.mp4" "/app/outputs/temp_audio.wav"
                          16000 1
                          (Scenario.disk [("/app/outputs/temp_video.mp4", "")]))))
     = [Call (CPopen (audio_extractor.extract_audio_cmd
                        "/app/outputs/temp_video.mp4" "/app/outputs/temp_audio.wav"
                        16000 1))]
  /\ ~ fails_without_engine
        (audio_extractor.extract_audio (Scenario.all_work "hello")
           "/app/outputs/temp_video.mp4" "/app/outputs/temp_audio.wav" 16000 1)
        (Scenario.disk [("/app/outputs/temp_video.mp4", "")]).
Proof.
  split; [reflexivity|]. split; [vm_compute; reflexivity|].
  intros (H & _). vm_compute in H. discriminate.
Qed.


(** ** C3 and C4: fallback between candidate engines *)

Section Fallback.

Context {X : Type} (cfg : Settings) (env : Env X).

(** The yt-dlp attempt never raises, and when it fails it has logged
    exactly one error. *)
Lemma yt_dlp_failure url out res (w : world X) :
  exists r w', downloader.download_video_with_yt_dlp env url out res w = (Val r, w')
    /\ (r = None ->
        exists detail,
          messages_at ERROR (trace w')
          = (messages_at ERROR (trace w) ++ [detail])%list).
Proof.
  unfold downloader.download_video_with_yt_dlp.
  run_all.
  all: do 2 eexists; (split; [reflexivity|]); intros E; try discriminate E.
  all: cbn; rewrite ?messages_at_app; cbn; rewrite ?app_nil_r; eauto.
Qed.


(** The acquirer does what C3 says: when pytube raises and yt-dlp
    succeeds, the stage returns the file yt-dlp wrote, and the fallback
    is announced in the log once. *)
Lemma acquirer_falls_back_once url out res (w : world X) e w1 p w2 :
  let announced := count_message ("Attempting to download with yt-dlp: " +:+ url) in
  downloader.download_with_pytube env url out res
    (logged "utils.downloader" INFO ("Downloading YouTube video: " +:+ url) w)
    = (Raise e, w1) ->
  downloader.download_video_with_yt_dlp env url out (Py.remove_char "p" res)
    (after_pytube_error e w1) = (Val (Some p), w2) ->
  downloader.download_youtube_video env url out res w = (Val (Some out), w2)
  /\ file_exists (system w2) out = true
  /\ announced (trace w2) = S (announced (trace w1)).
Proof.
  intros announced H1 H2.
  rewrite (download_falls_back env _ _ _ _ _ _ H1).
  destruct (yt_dlp_produces env _ _ _ _ _ _ H2) as [-> Hex].
  split; [exact H2|]. split; [exact Hex|].
  assert (Hbefore : announced (trace (after_pytube_error e w1)) = announced (trace w1)).
  { unfold after_pytube_error, announced, pytube_error_line. simpl.
    destruct (isinstance e PytubeError); rewrite !count_message_app;
      cbv beta iota delta [String.append count_message]; simpl; lia. }
  rewrite <- Hbefore. revert H2. generalize (after_pytube_error e w1) as w0.
  intros w0. unfold downloader.download_video_with_yt_dlp.
  run_all; intros H; inversion H; subst; clear H. cbn.
  unfold announced. rewrite <- !app_assoc. rewrite count_message_app.
  cbn [count_message app]. rewrite String.eqb_refl.
  cbv beta iota delta [String.append]. simpl. lia.
Qed.

(** C4, amended.  When the pytube attempt raises and the yt-dlp attempt
    fails too, the stage hands the orchestrator the value the last
    candidate returned, [None], and [process_video] returns [None].  No
    error detail travels with these values: the details are lines of the
    log, the first candidate's followed by the last candidate's,
    followed by the orchestrator's own. *)
Theorem exhausted_acquirer_reports_in_log (a : main.args) (w : world X) e w1 :
  let url := main.youtube_url a in
  let out := TEMP_VIDEO_PATH cfg in
  let wb := snd (main.banner a w) in
  let last_candidate :=
    downloader.download_video_with_yt_dlp env url out "720" (after_pytube_error e w1) in
  downloader.download_with_pytube env url out "720p"
    (logged "utils.downloader" INFO ("Downloading YouTube video: " +:+ url) wb)
    = (Raise e, w1) ->
  fst last_candidate = Val None ->
  downloader.download_youtube_video env url out "720p" wb = last_candidate
  /\ fst (main.process_video cfg env a w) = Val None
  /\ exists detail,
       messages_at ERROR (trace (snd last_candidate))
       = (messages_at ERROR (trace w1) ++ [pytube_error_line e; detail])%list
       /\ messages_at ERROR (trace (snd (main.process_video cfg env a w)))
          = (messages_at ERROR (trace w1)
             ++ [pytube_error_line e; detail; "Failed to download video. Exiting."])%list.
Proof.
  intros url out wb last_candidate Hfirst Hlast.
  subst url out. set (wb' := wb). subst wb.
  assert (Hstage : downloader.download_youtube_video env (main.youtube_url a)
                     (TEMP_VIDEO_PATH cfg) "720p" wb' = last_candidate).
  { apply (download_falls_back env _ _ "720p" wb' e w1 Hfirst). }
  destruct (yt_dlp_failure (main.youtube_url a) (TEMP_VIDEO_PATH cfg) "720"
              (after_pytube_error e w1))
    as (r & w2 & Hrun & Hdetail).
  fold last_candidate in Hrun. rewrite Hrun in Hlast. simpl in Hlast.
  injection Hlast as ->. destruct (Hdetail eq_refl) as (detail & Hmsgs).
  assert (Hbefore : messages_at ERROR (trace (after_pytube_error e w1))
                    = (messages_at ERROR (trace w1) ++ [pytube_error_line e])%list).
  { unfold after_pytube_error. simpl.
    destruct (isinstance e PytubeError); rewrite ?messages_at_app; simpl;
      rewrite ?app_nil_r; reflexivity. }
  assert (Hpv : main.process_video cfg env a w
                = (Val None, logged "__main__" ERROR "Failed to download video. Exiting." w2)).
  { apply (process_video_fails_at cfg env a 0 main.Acquiring w wb'); [lia|reflexivity|].
    cbn [main.step]. rewrite run_bind, Hstage, Hrun. reflexivity. }
  split; [exact Hstage|]. split; [rewrite Hpv; reflexivity|].
  exists detail. rewrite Hrun, Hpv. simpl.
  rewrite messages_at_app, Hmsgs, Hbefore. simpl.
  rewrite <- !app_assoc. split; reflexivity.
Qed.

End Fallback.


(** C3 on the muxer: the transcoder fails, moviepy would have merged the
    two files, and [merge_video_audio] returns [None] without calling
    moviepy. *)
Theorem muxer_fallback_never_tried :
  let video := "/app/outputs/temp_video.mp4" in
  let audio := "/app/outputs/dubbed_audio.wav" in
  let out := "/app/outputs/dubbed_video.mp4" in
  let w := Scenario.disk [(video, "video"); (audio, "speech")] in
  let run := video_merger.merge_video_audio Scenario.only_moviepy_works
               video audio out true w in
  fst run = Val None
  /\ calls (trace (snd run)) = [Call (CPopen (video_merger.merge_cmd video audio out))]
  /\ fst (video_merger.merge_video_audio_moviepy Scenario.only_moviepy_works
            video audio out w) = Val (Some out).
Proof. vm_compute. auto. Qed.

Lemma exhausted_acquirer_reports_in_log_witness :
  fst (main.process_video Scenario.cfg (Scenario.processes_exit 1 "HTTP Error 403")
         Scenario.default_args (Scenario.disk [])) = Val None.
Proof.
  refine (proj1 (proj2 (exhausted_acquirer_reports_in_log
            Scenario.cfg (Scenario.processes_exit 1 "HTTP Error 403")
            Scenario.default_args (Scenario.disk [])
            (Exc OtherException "unavailable")
            (snd (downloader.download_with_pytube
                    (Scenario.processes_exit 1 "HTTP Error 403")
                    "https://youtu.be/x" (TEMP_VIDEO_PATH Scenario.cfg) "720p"
                    (logged "utils.downloader" INFO
                       "Downloading YouTube video: https://youtu.be/x"
                       (snd (main.banner Scenario.default_args (Scenario.disk []))))))
            _ _))).
  - vm_compute. reflexivity.
  - vm_compute. reflexivity.
Defined.

(** C4, as stated, fails: two runs whose last candidate fails for
    different reasons hand the orchestrator the same value, so that value
    does not carry the last candidate's error detail. *)
Lemma failure_value_carries_no_detail :
  let stage err :=
    fst (downloader.download_youtube_video (Scenario.processes_exit 1 err)
           "https://youtu.be/x" (TEMP_VIDEO_PATH Scenario.cfg) "720p"
           (Scenario.disk [])) in
  let run err :=
    fst (main.process_video Scenario.cfg (Scenario.processes_exit 1 err)
           Scenario.default_args (Scenario.disk [])) in
  ~ (exists detail_of : res (option string) -> string,
        detail_of (stage "HTTP Error 403") = "HTTP Error 403"
        /\ detail_of (stage "Video unavailable") = "Video unavailable")
  /\ ~ (exists detail_of : res (option string) -> string,
        detail_of (run "HTTP Error 403") = "HTTP Error 403"
        /\ detail_of (run "Video unavailable") = "Video unavailable").
Proof.
  intros stage run.
  assert (Hs : stage "HTTP Error 403" = stage "Video unavailable") by (vm_compute; reflexivity).
  assert (Hr : run "HTTP Error 403" = run "Video unavailable") by (vm_compute; reflexivity).
  split; intros (f & H1 & H2); [rewrite Hs in H1 | rewrite Hr in H1];
    rewrite H1 in H2; discriminate.
Qed.

(** ** C5: language codes *)

Section LanguageCodes.

Context {X : Type} (cfg : Settings) (env : Env X).

Lemma xtts_lang_unmapped target :
  xtts_lang_mapping !! Py.lower target = None -> xtts_lang target = "en".
Proof. intros H. unfold xtts_lang, dict_get. rewrite H. reflexivity. Qed.

Lemma voice_cloner_langs text spk target out (w : world X) :
  let run := voice_cloner.clone_voice_and_speak cfg env text spk target out w in
  (exists l, langs_passed (trace (snd run)) = (langs_passed (trace w) ++ l)%list
             /\ Forall (eq (Some (xtts_lang target))) l)
  /\ messages_at WARNING (trace (snd run)) = messages_at WARNING (trace w).
Proof.
  unfold voice_cloner.clone_voice_and_speak.
  generalize (xtts_lang target) as code. intros code.
  run_all.
  all: rewrite <- ?app_assoc; cbn.
  all: rewrite ?langs_passed_app, ?messages_at_app; cbn.
  all: split; [eexists; split; [reflexivity|]; repeat constructor
              | rewrite ?app_nil_r; reflexivity].
Qed.


Lemma clone_voice_fallback_langs text target out (w : world X) :
  langs_passed (trace (snd (voice_cloner_fallback.clone_voice_fallback
                              cfg env text target out w)))
  = langs_passed (trace w).
Proof.
  unfold voice_cloner_fallback.clone_voice_fallback.
  generalize (dict_get voice_cloner_fallback.gtts_lang_mapping (Py.lower target) "en") as gcode.
  intros gcode.
  run_all.
  all: rewrite <- ?app_assoc; cbn.
  all: rewrite ?langs_passed_app; cbn; rewrite ?app_nil_r; reflexivity.
Qed.

Lemma clone_voice_fallback_keeps text target out (w : world X) e :
  In e (trace w) ->
  In e (trace (snd (voice_cloner_fallback.clone_voice_fallback
                      cfg env text target out w))).
Proof.
  intros H. unfold voice_cloner_fallback.clone_voice_fallback.
  generalize (dict_get voice_cloner_fallback.gtts_lang_mapping (Py.lower target) "en") as gcode.
  intros gcode.
  run_all.
  all: rewrite ?in_app_iff; tauto.
Qed.

Lemma try_xtts_langs text spk target out (w : world X) :
  let run := voice_cloner_fallback.try_xtts env text spk target out w in
  (exists r, fst run = Val r)
  /\ exists l, langs_passed (trace (snd run)) = (langs_passed (trace w) ++ l)%list
               /\ Forall (eq (Some (xtts_lang target))) l.
Proof.
  unfold voice_cloner_fallback.try_xtts.
  generalize (xtts_lang target) as code. intros code.
  run_all.
  all: rewrite <- ?app_assoc; cbn.
  all: rewrite ?langs_passed_app; cbn.
  all: split; [eauto | eexists; split; [reflexivity|]; repeat constructor].
Qed.

Lemma voice_cloner_fallback_langs text spk target out (w : world X) :
  let run := voice_cloner_fallback.clone_voice_and_speak cfg env text spk target out w in
  exists l, langs_passed (trace (snd run)) = (langs_passed (trace w) ++ l)%list
            /\ Forall (eq (Some (xtts_lang target))) l.
Proof.
  unfold voice_cloner_fallback.clone_voice_and_speak.
  rewrite run_bind, run_log, run_bind.
  match goal with |- context [voice_cloner_fallback.try_xtts _ _ _ _ _ ?w0] =>
    remember w0 as w1 eqn:Hw1 end.
  assert (H1 : langs_passed (trace w1) = langs_passed (trace w)).
  { subst w1. simpl. rewrite langs_passed_app. simpl. apply app_nil_r. }
  clear Hw1.
  destruct (try_xtts_langs text spk target out w1) as ((r & Hr) & l & Hl & Hall).
  destruct (voice_cloner_fallback.try_xtts env text spk target out w1) as [r0 w2].
  simpl in Hr, Hl. subst r0.
  exists l. split; [|exact Hall].
  destruct r as [r|].
  - simpl. rewrite Hl, H1. reflexivity.
  - rewrite clone_voice_fallback_langs, Hl, H1. reflexivity.
Qed.

(** The variants of [utils/tts.py] do warn: a code that is not in their
    table, and whose first two characters are not either, becomes ["en"]
    with a warning. *)
Lemma pick_lang_unmapped (mapping : gmap string string) language (w : world X) :
  mapping !! language = None ->
  mapping !! Py.take2 language = None ->
  tts.pick_lang mapping language w
  = (Val "en",
     logged "utils.tts" WARNING
       ("Language " +:+ language +:+ " not found in mapping, defaulting to English") w).
Proof.
  intros H1 H2. unfold tts.pick_lang, dict_has. rewrite H1, H2.
  rewrite !bool_decide_eq_false_2 by (intros [? ?]; discriminate).
  reflexivity.
Qed.

(** [voice_cloner.clone_voice_and_speak] with the sample on disk, a
    directory for the output, and a library that imports and loads the
    model: the model is asked once, with the code of the table. *)
Lemma voice_cloner_asks_model text spk target out (w : world X) gpu s1 s2 s3 :
  file_exists (system w) spk = true ->
  Py.truthy out = true ->
  can_makedirs (system w) (Py.dirname (str_opt out)) = true ->
  env CCudaIsAvailable (system w) = (Val gpu, s1) ->
  env CImportTTS s1 = (Val tt, s2) ->
  env (CTTSLoad xtts_v2 gpu) s2 = (Val tt, s3) ->
  let run := voice_cloner.clone_voice_and_speak cfg env text spk target out w in
  langs_passed (trace (snd run))
  = (langs_passed (trace w) ++ [Some (xtts_lang target)])%list
  /\ In (Call (CTTSToFile xtts_v2 text out (Some spk) (Some (xtts_lang target))))
        (trace (snd run)).
Proof.
  intros Hspk Hout Hd Hgpu Himport Hload. unfold can_makedirs in Hd.
  apply andb_true_iff in Hd. destruct Hd as [Hd1 Hd2].
  apply negb_true_iff in Hd2.
  destruct out as [out|]; [|discriminate]. cbn [Py.truthy str_opt] in *.
  unfold voice_cloner.clone_voice_and_speak.
  generalize (xtts_lang target) as code. intros code.
  unfold bind, try_except, makedirs, log, emit, invoke, extern, getsize,
         path_exists, ret. cbn.
  rewrite Hspk; cbn. rewrite Hout; cbn. rewrite Hd1; cbn. rewrite Hd2; cbn.
  rewrite Hgpu; cbn. rewrite Himport; cbn. rewrite Hload; cbn.
  destruct (env (CTTSToFile xtts_v2 text (Some out) (Some spk) (Some code)) s3)
    as [[[]|e] s4]; cbn.
  - destruct (files s4 !! out); cbn.
    all: try match goal with |- context [isinstance ?e0 ImportError] =>
           change (isinstance e0 ImportError) with false end; cbn.
    all: rewrite ?langs_passed_app; cbn; rewrite ?app_nil_r.
    all: split; [reflexivity|].
    all: rewrite ?in_app_iff; cbn; tauto.
  - destruct (isinstance e ImportError); cbn.
    all: rewrite ?langs_passed_app; cbn; rewrite ?app_nil_r.
    all: split; [reflexivity|].
    all: rewrite ?in_app_iff; cbn; tauto.
Qed.

(** The same for [voice_cloner_fallback.clone_voice_and_speak], which
    imports the library first and looks for the sample after that. *)
Lemma fallback_cloner_asks_model text spk target out (w : world X) cuda s1 s2 s3 :
  Py.nonempty spk = true ->
  env CImportTTS (system w) = (Val tt, s1) ->
  env CCudaIsAvailable s1 = (Val cuda, s2) ->
  file_exists s2 spk = true ->
  env (CTTSLoad xtts_v2 cuda) s2 = (Val tt, s3) ->
  let run := voice_cloner_fallback.clone_voice_and_speak
               cfg env text (Some spk) target out w in
  langs_passed (trace (snd run))
  = (langs_passed (trace w) ++ [Some (xtts_lang target)])%list
  /\ In (Call (CTTSToFile xtts_v2 text out (Some spk) (Some (xtts_lang target))))
        (trace (snd run)).
Proof.
  intros Hn Himport Hcuda Hspk Hload.
  unfold voice_cloner_fallback.clone_voice_and_speak.
  cbv zeta. rewrite run_bind, run_log, run_bind.
  match goal with |- context [voice_cloner_fallback.try_xtts _ _ _ _ _ ?w0] =>
    assert (Htry : exists r w1,
              voice_cloner_fallback.try_xtts env text (Some spk) target out w0 = (Val r, w1)
              /\ langs_passed (trace w1)
                 = (langs_passed (trace w) ++ [Some (xtts_lang target)])%list
              /\ In (Call (CTTSToFile xtts_v2 text out (Some spk) (Some (xtts_lang target))))
                    (trace w1))
  end.
  { unfold voice_cloner_fallback.try_xtts.
    generalize (xtts_lang target) as code. intros code.
    unfold bind, try_except, log, emit, invoke, extern, path_exists, ret. cbn.
    rewrite Himport; cbn. rewrite Hcuda; cbn.
    destruct cuda; cbn; rewrite Hn; cbn; rewrite Hspk; cbn; rewrite Hload; cbn.
    all: destruct (env (CTTSToFile xtts_v2 text out (Some spk) (Some code)) s3)
           as [[[]|e] s4]; cbn.
    all: do 2 eexists; split; [reflexivity|].
    all: cbn; rewrite ?langs_passed_app; cbn; rewrite ?app_nil_r.
    all: split; [reflexivity|].
    all: rewrite ?in_app_iff; cbn; tauto. }
  destruct Htry as (r & w1 & -> & Hl & Hin).
  destruct r as [r|]; cbn [fst snd].
  - split; [exact Hl | exact Hin].
  - rewrite clone_voice_fallback_langs. split; [exact Hl|].
    apply clone_voice_fallback_keeps. exact Hin.
Qed.

(** C5, amended.  The table of the XTTS variants maps ["zh"] to
    ["zh-cn"], and a code that is not in it, once lower-cased, to the
    default ["en"]; the lookup has that default, so it cannot fail.  Every
    call of the voice model made by either variant receives the code so
    chosen, and a variant that is given an output path and gets as far as
    the model (the sample is there, the library imports and the model
    loads) calls it exactly once, with that code, the caller's text and
    the caller's sample.  The variant of [utils/voice_cloner.py] logs no
    warning, whatever the code. *)
Theorem xtts_language_code text spk spk' target out (w : world X) :
  let run := voice_cloner.clone_voice_and_speak cfg env text spk target out w in
  let run' := voice_cloner_fallback.clone_voice_and_speak cfg env text spk' target out w in
  let code := if bool_decide (Py.lower target = "zh") then "zh-cn"
              else if bool_decide (is_Some (xtts_lang_mapping !! Py.lower target))
                   then xtts_lang target else "en" in
  xtts_lang "zh" = "zh-cn"
  /\ (xtts_lang_mapping !! Py.lower target = None -> xtts_lang target = "en")
  /\ (exists l, langs_passed (trace (snd run)) = (langs_passed (trace w) ++ l)%list
                /\ Forall (eq (Some (xtts_lang target))) l)
  /\ (exists l, langs_passed (trace (snd run')) = (langs_passed (trace w) ++ l)%list
                /\ Forall (eq (Some (xtts_lang target))) l)
  /\ messages_at WARNING (trace (snd run)) = messages_at WARNING (trace w)
  /\ (forall gpu s1 s2 s3,
        file_exists (system w) spk = true ->
        Py.truthy out = true ->
        can_makedirs (system w) (Py.dirname (str_opt out)) = true ->
        env CCudaIsAvailable (system w) = (Val gpu, s1) ->
        env CImportTTS s1 = (Val tt, s2) ->
        env (CTTSLoad xtts_v2 gpu) s2 = (Val tt, s3) ->
        langs_passed (trace (snd run)) = (langs_passed (trace w) ++ [Some code])%list
        /\ In (Call (CTTSToFile xtts_v2 text out (Some spk) (Some code)))
              (trace (snd run)))
  /\ (forall sample cuda s1 s2 s3,
        spk' = Some sample ->
        Py.nonempty sample = true ->
        env CImportTTS (system w) = (Val tt, s1) ->
        env CCudaIsAvailable s1 = (Val cuda, s2) ->
        file_exists s2 sample = true ->
        env (CTTSLoad xtts_v2 cuda) s2 = (Val tt, s3) ->
        langs_passed (trace (snd run')) = (langs_passed (trace w) ++ [Some code])%list
        /\ In (Call (CTTSToFile xtts_v2 text out spk' (Some code)))
              (trace (snd run'))).
Proof.
  intros run run' code.
  assert (Hcode : code = xtts_lang target).
  { subst code. case_bool_decide as Hzh.
    - unfold xtts_lang. rewrite Hzh. reflexivity.
    - case_bool_decide as Hin; [reflexivity|].
      symmetry. apply xtts_lang_unmapped.
      destruct (xtts_lang_mapping !! Py.lower target) eqn:E; [|reflexivity].
      exfalso. apply Hin. eauto. }
  rewrite Hcode. clear Hcode code.
  destruct (voice_cloner_langs text spk target out w) as [Hl Hw].
  split; [reflexivity|]. split; [apply xtts_lang_unmapped|].
  split; [exact Hl|]. split; [apply voice_cloner_fallback_langs|].
  split; [exact Hw|]. split.
  - intros gpu s1 s2 s3. apply voice_cloner_asks_model.
  - intros sample cuda s1 s2 s3 ->. apply fallback_cloner_asks_model.
Qed.

End LanguageCodes.

Lemma xtts_language_code_witness :
  let w := Scenario.disk [("/app/ref.wav", "voice")] in
  let out := Some "/app/outputs/dubbed_audio.wav" in
  langs_passed (trace (snd (voice_cloner.clone_voice_and_speak
                              Scenario.cfg Scenario.xtts_works
                              "merhaba" "/app/ref.wav" "zh" out w)))
  = [Some "zh-cn"]
  /\ langs_passed (trace (snd (voice_cloner_fallback.clone_voice_and_speak
                                 Scenario.cfg Scenario.xtts_works
                                 "merhaba" (Some "/app/ref.wav") "zh" out w)))
     = [Some "zh-cn"]
  /\ langs_passed (trace (snd (voice_cloner.clone_voice_and_speak
                                 Scenario.cfg Scenario.xtts_works
                                 "merhaba" "/app/ref.wav" "xx" out w)))
     = [Some "en"]
  /\ langs_passed (trace (snd (voice_cloner_fallback.clone_voice_and_speak
                                 Scenario.cfg Scenario.xtts_works
                                 "merhaba" (Some "/app/ref.wav") "xx" out w)))
     = [Some "en"].
Proof.
  intros w out.
  destruct (xtts_language_code Scenario.cfg Scenario.xtts_works
              "merhaba" "/app/ref.wav" (Some "/app/ref.wav") "zh" out w)
    as (_ & _ & _ & _ & _ & Hzh & Hzh').
  destruct (xtts_language_code Scenario.cfg Scenario.xtts_works
              "merhaba" "/app/ref.wav" (Some "/app/ref.wav") "xx" out w)
    as (_ & _ & _ & _ & _ & Hxx & Hxx').
  split; [|split; [|split]].
  - apply (Hzh false (system w) (system w) (system w)); vm_compute; reflexivity.
  - apply (Hzh' "/app/ref.wav" false (system w) (system w) (system w));
      vm_compute; reflexivity.
  - apply (Hxx false (system w) (system w) (system w)); vm_compute; reflexivity.
  - apply (Hxx' "/app/ref.wav" false (system w) (system w) (system w));
      vm_compute; reflexivity.
Defined.

(** C5, as stated, fails on the unmapped code ["xx"]: the XTTS variant
    passes the default ["en"] to the model and succeeds, and no warning is
    logged. *)
Lemma unmapped_code_logs_no_warning :
  let w := Scenario.disk [("/app/ref.wav", "voice")] in
  let run := voice_cloner.clone_voice_and_speak Scenario.cfg Scenario.xtts_works
               "merhaba" "/app/ref.wav" "xx" (Some "/app/outputs/dubbed_audio.wav") w in
  let run' := voice_cloner_fallback.clone_voice_and_speak Scenario.cfg Scenario.xtts_works
                "merhaba" (Some "/app/ref.wav") "xx"
                (Some "/app/outputs/dubbed_audio.wav") w in
  xtts_lang_mapping !! "xx" = None
  /\ fst run = Val (Some "/app/outputs/dubbed_audio.wav")
  /\ langs_passed (trace (snd run)) = [Some "en"]
  /\ messages_at WARNING (trace (snd run)) = []
  /\ fst run' = Val (Some "/app/outputs/dubbed_audio.wav")
  /\ langs_passed (trace (snd run')) = [Some "en"]
  /\ messages_at WARNING (trace (snd run')) = [].
Proof. vm_compute. repeat split; reflexivity. Qed.


(** ** C6: what a failed attempt leaves behind *)

Section NoCleanup.

Context {X : Type} (env : Env X).

(** C6, amended.  The adapters write nothing themselves and clean nothing
    up: whether the attempt succeeds or fails, [extract_audio] and
    [merge_video_audio_ffmpeg] leave the system either untouched or
    exactly as the transcoder left it, and [generate_speech_gtts] exactly
    as gTTS left it.  What a failed engine wrote at the target path stays
    there. *)
Theorem adapters_leave_engine_output (w : world X) :
  (forall video audio sr ch,
      let s' := system (snd (audio_extractor.extract_audio env video audio sr ch w)) in
      s' = system w
      \/ s' = after env (CPopen (audio_extractor.extract_audio_cmd video audio sr ch))
                (system w))
  /\ (forall video audio out,
      let s' := system (snd (video_merger.merge_video_audio_ffmpeg env video audio out w)) in
      s' = system w
      \/ s' = after env (CPopen (video_merger.merge_cmd video audio out)) (system w))
  /\ (forall text out language,
      let s' := system (snd (tts.generate_speech_gtts env text out language w)) in
      s' = system w
      \/ exists lang,
           s' = after env (CgTTS text lang) (system w)
           \/ s' = after env (CgTTSSave text lang out)
                     (after env (CgTTS text lang) (system w))).
Proof.
  unfold after. split; [|split]; intros; cbv zeta.
  - unfold audio_extractor.extract_audio. run_all; auto.
    all: right; match goal with H : env _ _ = _ |- _ => rewrite H end; reflexivity.
  - unfold video_merger.merge_video_audio_ffmpeg. run_all; auto.
    all: right; match goal with H : env _ _ = _ |- _ => rewrite H end; reflexivity.
  - unfold tts.generate_speech_gtts, tts.pick_lang. run_all; auto.
    all: right; eexists;
      repeat match goal with H : env _ _ = _ |- _ => rewrite H; clear H end; cbn.
    all: repeat match goal with H : env _ _ = _ |- _ => rewrite H; clear H end; cbn; auto.
Qed.

End NoCleanup.

(** C6, as stated, fails: the transcoder writes part of the audio and
    exits with status 1; [extract_audio] returns [None] and the partial
    file is at the target path. *)
Lemma failed_extraction_leaves_partial_file :
  let video := "/app/outputs/temp_video.mp4" in
  let audio := "/app/outputs/temp_audio.wav" in
  let w := Scenario.disk [(video, "video")] in
  let run := audio_extractor.extract_audio
               (Scenario.processes_leave 1 "Conversion failed!" "RIFF")
               video audio 16000 1 w in
  files (system w) !! audio = None
  /\ fst run = Val None
  /\ files (system (snd run)) !! audio = Some "RIFF".
Proof. vm_compute. auto. Qed.

(** ** C7: what is handed from one step to the next *)

Section Outputs.

Context {X : Type} (cfg : Settings) (env : Env X).

Context (a : main.args).

(** The code between the return of an adapter and the next step. *)
Lemma after_stage {B} (m : M X (option string)) (look : string -> M X B)
    msg (next : string -> main.state) (w : world X) s' w' :
  (forall p w0 b w2, look p w0 = (Val b, w2) -> w2 = w0) ->
  (r <- m;;
   if negb (Py.truthy r) then log "__main__" ERROR msg;; ret main.Failed
   else look (str_opt r);; ret (next (str_opt r))) w = (Val s', w') ->
  s' = main.Failed
  \/ exists p, s' = next p /\ Py.nonempty p = true /\ m w = (Val (Some p), w').
Proof.
  intros Hlook H. rewrite run_bind in H.
  destruct (m w) as [[r|e] w1]; [|discriminate].
  destruct r as [p|]; simpl in H.
  - destruct (Py.nonempty p) eqn:Hp; simpl in H.
    + rewrite run_bind in H.
      destruct (look p w1) as [[b|e] w2] eqn:El; [|discriminate].
      apply Hlook in El. subst w2. inversion H; subst. right. eauto.
    + rewrite run_bind, run_log in H. inversion H; auto.
  - rewrite run_bind, run_log in H. inversion H; auto.
Qed.

Lemma get_file_size_mb_looks p (w0 : world X) b w2 :
  main.get_file_size_mb p w0 = (Val b, w2) -> w2 = w0.
Proof.
  destruct (get_file_size_mb_run p w0) as [n Hn]. rewrite Hn. congruence.
Qed.

Lemma read_file_looks p (w0 : world X) b w2 :
  read_file p w0 = (Val b, w2) -> w2 = w0.
Proof. unfold read_file. destruct (files _ !! p); congruence. Qed.

Lemma step_handed_ok s (w : world X) s' w' :
  main.step cfg env a s w = (Val s', w') -> handed_ok a s w -> handed_ok a s' w'.
Proof.
  intros H Hs.
  destruct s; cbn [main.step] in H;
    try (inversion H; subst; exact Hs).
  1-4, 6:
    (eapply after_stage in H;
       [|first [apply get_file_size_mb_looks | apply read_file_looks]]);
    (destruct H as [->|(p & -> & Hp & Hrun)]; [intros q Hq; discriminate|]);
    intros q Hq; inversion Hq; subst q; (split; [exact Hp|]); left.
  - apply (download_produces env _ _ _ _ _ _ Hrun).
  - apply (extract_produces env _ _ _ _ _ _ _ Hrun).
  - apply (transcribe_produces env _ _ _ _ _ _ _ Hrun).
  - apply (translate_produces cfg env _ _ _ _ _ _ _ _ Hrun).
  - apply (merge_produces env _ _ _ _ _ _ _ Hrun).
  - eapply after_stage in H; [|apply get_file_size_mb_looks].
    destruct H as [->|(p & -> & Hp & Hrun)]; [intros q Hq; discriminate|].
    intros q Hq; inversion Hq; subst q. split; [exact Hp|].
    destruct (String.eqb (main.tts_engine a) "voice_clone" &&
              Py.truthy (main.reference_audio a))%bool eqn:Hx.
    + right. apply andb_true_iff in Hx. destruct Hx. split; eauto.
    + left. apply (text_to_speech_produces env _ _ _ _ _ _ _ _ Hrun).
Qed.

(** C7, amended.  Whenever [process_video] is about to start a step, the
    path it has just received from the step before is a non-empty string
    and, unless speech was synthesized through the voice-cloning branch,
    a file exists at that path.  The file may be empty. *)
Theorem handoff_exists k (w : world X) s w_k p :
  main.prefix cfg env a k w = (Val s, w_k) ->
  main.handed s = Some p ->
  Py.nonempty p = true
  /\ (file_exists (system w_k) p = true \/ unchecked_synthesis a s).
Proof.
  intros Hpre. unfold main.prefix in Hpre. rewrite run_bind in Hpre.
  destruct (main.banner a w) as [[[]|e] wb]; [|discriminate].
  assert (Hinv : handed_ok a s w_k); [|exact (Hinv p)].
  revert s w_k Hpre. induction k as [|k IH]; intros s w_k Hpre.
  - inversion Hpre; subst. intros q Hq. discriminate.
  - replace (S k) with (k + 1)%nat in Hpre by lia.
    rewrite (steps_add cfg env a) in Hpre.
    destruct (main.steps cfg env a k main.Acquiring wb) as [[s1|e] w1]; [|discriminate].
    simpl in Hpre. rewrite run_bind in Hpre.
    destruct (main.step cfg env a s1 w1) as [[s2|e] w2] eqn:E; [|discriminate].
    inversion Hpre; subst.
    eapply step_handed_ok; [exact E|]. apply IH. reflexivity.
Qed.

End Outputs.

Lemma handoff_exists_witness :
  Py.nonempty "/app/outputs/transcript.txt" = true
  /\ (file_exists
        (system (snd (main.prefix Scenario.cfg (Scenario.all_work "") Scenario.default_args
                        3 (Scenario.disk []))))
        "/app/outputs/transcript.txt" = true
      \/ unchecked_synthesis Scenario.default_args
           (main.Translating "/app/outputs/temp_video.mp4" "/app/outputs/transcript.txt")).
Proof.
  apply (handoff_exists Scenario.cfg (Scenario.all_work "") Scenario.default_args
           3 (Scenario.disk [])
           (main.Translating "/app/outputs/temp_video.mp4" "/app/outputs/transcript.txt")).
  - vm_compute. reflexivity.
  - reflexivity.
Defined.

(** C7, as stated, fails: speech recognition hears nothing, the transcript
    is an empty file, and the run goes on to translate it and ends in
    success.  And in the voice-cloning branch, a model that returns
    without writing its file has its path handed to the muxer. *)
Lemma empty_transcript_is_handed_on :
  let run := main.prefix Scenario.cfg (Scenario.all_work "") Scenario.default_args
               3 (Scenario.disk []) in
  let cloning := main.prefix Scenario.cfg Scenario.cloning_writes_nothing
                   Scenario.cloning_args 5
                   (Scenario.disk [("/app/ref.wav", "voice")]) in
  (fst run = Val (main.Translating "/app/outputs/temp_video.mp4"
                                   "/app/outputs/transcript.txt")
   /\ files (system (snd run)) !! "/app/outputs/transcript.txt" = Some ""
   /\ fst (main.process_video Scenario.cfg (Scenario.all_work "") Scenario.default_args
             (Scenario.disk [])) = Val (Some "/app/outputs/dubbed_video.mp4"))
  /\ (fst cloning = Val (main.Muxing "/app/outputs/temp_video.mp4"
                                      "/app/outputs/dubbed_audio.wav")
      /\ files (system (snd cloning)) !! "/app/outputs/dubbed_audio.wav" = None).
Proof. vm_compute. auto. Qed.


(** ** C8: the transcoder and its exit status *)

Section Transcoder.

Context {X : Type} (env : Env X).

Ltac only_call :=
  rewrite ?isinstance_same; cbn;
  rewrite ?calls_app; cbn; rewrite ?app_nil_r, <- ?app_assoc; cbn; reflexivity.

(** C8.  The extractor starts the transcoder with ["-ar" "16000"] and
    ["-ac" "1"]; the muxer with the video as input 0, the audio as input
    1, and the maps ["0:v:0"] and ["1:a:0"].  Once the child has run, the
    attempt succeeds exactly when it exited with status 0 and the output
    file is there; with any other status, or without the file, the
    adapter returns [None].  Nothing else is started. *)
Theorem transcoder_exit_code video audio out (w : world X) :
  audio_extractor.extract_audio_cmd video audio 16000 1
  = ["ffmpeg"; "-y"; "-i"; video; "-vn"; "-acodec"; "pcm_s16le";
     "-ar"; "16000"; "-ac"; "1"; audio]
  /\ video_merger.merge_cmd video audio out
     = ["ffmpeg"; "-y"; "-i"; video; "-i"; audio; "-map"; "0:v:0"; "-map"; "1:a:0";
        "-c:v"; "copy"; "-c:a"; "aac"; "-b:a"; "192k"; "-shortest"; out]
  /\ (forall p s',
        file_exists (system w) video = true ->
        can_makedirs (system w) (Py.dirname audio) = true ->
        env (CPopen (audio_extractor.extract_audio_cmd video audio 16000 1)) (system w)
          = (Val p, s') ->
        started_once (audio_extractor.extract_audio env video audio 16000 1) w
          (audio_extractor.extract_audio_cmd video audio 16000 1)
        /\ attempt_result
             (fst (audio_extractor.extract_audio env video audio 16000 1 w)) p s' audio)
  /\ (forall p s',
        file_exists (system w) video = true ->
        file_exists (system w) audio = true ->
        can_makedirs (system w) (Py.dirname out) = true ->
        env (CPopen (video_merger.merge_cmd video audio out)) (system w) = (Val p, s') ->
        started_once (video_merger.merge_video_audio env video audio out true) w
          (video_merger.merge_cmd video audio out)
        /\ attempt_result
             (fst (video_merger.merge_video_audio env video audio out true w)) p s' out).
Proof.
  split; [reflexivity|]. split; [reflexivity|]. split.
  - intros p s' Hv Hd Hrun. unfold can_makedirs in Hd.
    apply andb_true_iff in Hd. destruct Hd as [Hd1 Hd2].
    apply negb_true_iff in Hd2.
    unfold started_once, attempt_result, audio_extractor.extract_audio.
    unfold bind, try_except, makedirs, log, emit, invoke, extern, getsize,
           path_exists, ret. cbn.
    rewrite Hv; cbn. rewrite Hd1; cbn. rewrite Hd2; cbn. rewrite Hrun; cbn.
    destruct (Z.eqb_spec (returncode p) 0) as [Hz|Hz]; cbn.
    + destruct (file_exists_cases s' audio) as [(c & Hc & He)|(Hc & He)];
        rewrite Hc; cbn; (split; [only_call | auto]).
    + split; [only_call | auto].
  - intros p s' Hv Ha Hd Hrun. unfold can_makedirs in Hd.
    apply andb_true_iff in Hd. destruct Hd as [Hd1 Hd2].
    apply negb_true_iff in Hd2.
    unfold started_once. rewrite merge_video_audio_is_ffmpeg.
    unfold attempt_result, video_merger.merge_video_audio_ffmpeg.
    unfold bind, try_except, makedirs, log, emit, invoke, extern, getsize,
           path_exists, ret. cbn.
    rewrite Hv; cbn. rewrite Ha; cbn. rewrite Hd1; cbn. rewrite Hd2; cbn.
    rewrite Hrun; cbn.
    destruct (Z.eqb_spec (returncode p) 0) as [Hz|Hz]; cbn.
    + destruct (file_exists_cases s' out) as [(c & Hc & He)|(Hc & He)];
        rewrite Hc; cbn; (split; [only_call | auto]).
    + split; [only_call | auto].
Qed.

End Transcoder.

Lemma transcoder_exit_code_witness :
  attempt_result
    (fst (audio_extractor.extract_audio (Scenario.processes_leave 1 "Conversion failed!" "RIFF")
            "/app/outputs/temp_video.mp4" "/app/outputs/temp_audio.wav" 16000 1
            (Scenario.disk [("/app/outputs/temp_video.mp4", "video")])))
    (Proc 1 "" "Conversion failed!")
    (Scenario.put "/app/outputs/temp_audio.wav" "RIFF"
       (system (Scenario.disk [("/app/outputs/temp_video.mp4", "video")])))
    "/app/outputs/temp_audio.wav"
  /\ attempt_result
       (fst (video_merger.merge_video_audio (Scenario.all_work "hello")
               "/app/outputs/temp_video.mp4" "/app/outputs/dubbed_audio.wav"
               "/app/outputs/dubbed_video.mp4" true
               (Scenario.disk [("/app/outputs/temp_video.mp4", "video");
                               ("/app/outputs/dubbed_audio.wav", "speech")])))
       (Proc 0 "" "")
       (Scenario.put "/app/outputs/dubbed_video.mp4" "data"
          (system (Scenario.disk [("/app/outputs/temp_video.mp4", "video");
                                  ("/app/outputs/dubbed_audio.wav", "speech")])))
       "/app/outputs/dubbed_video.mp4".
Proof.
  split.
  - apply (proj1 (proj2 (proj2 (transcoder_exit_code
             (Scenario.processes_leave 1 "Conversion failed!" "RIFF")
             "/app/outputs/temp_video.mp4" "/app/outputs/temp_audio.wav" ""
             (Scenario.disk [("/app/outputs/temp_video.mp4", "video")]))))).
    + vm_compute. reflexivity.
    + vm_compute. reflexivity.
    + reflexivity.
  - apply (proj2 (proj2 (proj2 (transcoder_exit_code (Scenario.all_work "hello")
             "/app/outputs/temp_video.mp4" "/app/outputs/dubbed_audio.wav"
             "/app/outputs/dubbed_video.mp4"
             (Scenario.disk [("/app/outputs/temp_video.mp4", "video");
                             ("/app/outputs/dubbed_audio.wav", "speech")]))))).
    + vm_compute. reflexivity.
    + vm_compute. reflexivity.
    + vm_compute. reflexivity.
    + reflexivity.
Defined.

(** ** C9: merging twice *)

Section Rerun.

Context {X : Type} (env : Env X).






End Rerun.



(** ** C10: an unknown synthesis engine *)

Section Dispatch.

Context {X : Type} (env : Env X).

(** [generate_speech_gtts] turns every exception into [None]. *)
Lemma gtts_returns text out language (w : world X) :
  exists r w', tts.generate_speech_gtts env text out language w = (Val r, w').
Proof.
  unfold tts.generate_speech_gtts. rewrite run_try.
  match goal with |- context [match ?m w with _ => _ end] =>
    destruct (m w) as [[r|e] w1] end; [eauto|].
  rewrite run_bind, run_log. eauto.
Qed.

(** C10.  An engine name that, lower-cased, is none of ["bark"],
    ["coqui"], ["gtts"], ["voice_clone"] is reported in the log and the
    text is given to Google TTS; what [text_to_speech] returns is what
    Google TTS returns, a path or [None], never an exception. *)
Theorem unknown_engine_uses_gtts input out language engine ref text (w : world X) :
  ~ In (Py.lower engine) ["bark"; "coqui"; "gtts"; "voice_clone"] ->
  files (system w) !! input = Some text ->
  tts.text_to_speech env input out language engine ref w
  = tts.generate_speech_gtts env text out language
      (at_unknown_engine input engine text w)
  /\ exists r w', tts.text_to_speech env input out language engine ref w = (Val r, w').
Proof.
  intros Hunknown Hfile.
  assert (Hne : forall name, In name ["bark"; "coqui"; "gtts"; "voice_clone"] ->
                             String.eqb (Py.lower engine) name = false).
  { intros name Hin. apply String.eqb_neq. intros Heq. apply Hunknown.
    rewrite Heq. exact Hin. }
  assert (Heq : tts.text_to_speech env input out language engine ref w
                = tts.generate_speech_gtts env text out language
                    (at_unknown_engine input engine text w)).
  { unfold tts.text_to_speech.
    rewrite run_bind, run_log, run_bind. cbn [path_exists system].
    rewrite (file_exists_lookup _ _ _ Hfile). cbn [negb].
    rewrite run_try, run_bind.
    unfold read_file at 1. cbn [system]. rewrite Hfile.
    rewrite run_bind, run_log.
    rewrite !Hne by (simpl; auto).
    rewrite run_bind, run_log, run_bind, run_log.
    fold (logged "utils.tts" INFO ("Converting text to speech: " +:+ input +:+ " using "
              +:+ engine +:+ " engine") w).
    unfold at_unknown_engine, logged at 1 2 3. cbn [system trace].
    destruct (gtts_returns text out language
      {| system := system w;
         trace := (((trace w ++ [Log "utils.tts" INFO ("Converting text to speech: " +:+ input +:+ " using " +:+ engine +:+ " engine")])
                   ++ [Log "utils.tts" INFO ("Loaded text from " +:+ input +:+ " ("
           +:+ Py.str (Z.of_nat (String.length text)) +:+ " characters)")])
                   ++ [Log "utils.tts" ERROR ("Unknown TTS engine: " +:+ engine)])
                   ++ [Log "utils.tts" INFO "Falling back to Google TTS"] |})
      as (r & w' & Hr).
    unfold logged. cbn [system trace]. rewrite Hr. reflexivity. }
  split; [exact Heq|]. rewrite Heq. apply gtts_returns.
Qed.

End Dispatch.

Lemma unknown_engine_uses_gtts_witness :
  let w := Scenario.disk [("/app/outputs/translated.txt", "merhaba")] in
  ~ In (Py.lower "Festival") ["bark"; "coqui"; "gtts"; "voice_clone"]
  /\ tts.text_to_speech (Scenario.all_work "hello")
       "/app/outputs/translated.txt" "/app/outputs/dubbed_audio.wav" "tr"
       "Festival" None w
     = tts.generate_speech_gtts (Scenario.all_work "hello")
         "merhaba" "/app/outputs/dubbed_audio.wav" "tr"
         (at_unknown_engine "/app/outputs/translated.txt" "Festival" "merhaba" w).
Proof.
  intros w.
  assert (H : ~ In (Py.lower "Festival") ["bark"; "coqui"; "gtts"; "voice_clone"]).
  { vm_compute. intros [H|[H|[H|[H|[]]]]]; discriminate H. }
  split; [exact H|].
  apply (unknown_engine_uses_gtts (Scenario.all_work "hello")
           "/app/outputs/translated.txt" "/app/outputs/dubbed_audio.wav" "tr"
           "Festival" None "merhaba" w H).
  reflexivity.
Defined.

(** * Further properties

    ** Computations that return, and the calls a computation may make *)

Section Frames.

Context {X : Type} (env : Env X).

Lemma normal_ret {A} (a : A) : returns_normally (ret (X:=X) a).
Proof. intros w. unfold ret. eauto. Qed.

Lemma normal_bind {A B} (m : M X A) (k : A -> M X B) :
  returns_normally m -> (forall a, returns_normally (k a)) ->
  returns_normally (bind m k).
Proof.
  intros Hm Hk w. rewrite run_bind. destruct (Hm w) as (a & w' & ->). apply Hk.
Qed.

Lemma normal_try {A} (m : M X A) (h : exn -> M X A) :
  (forall e, returns_normally (h e)) -> returns_normally (try_except m h).
Proof.
  intros Hh w. rewrite run_try. destruct (m w) as [[a|e] w']; [eauto | apply Hh].
Qed.

Lemma normal_log name lvl msg : returns_normally (log (X:=X) name lvl msg).
Proof. intros w. rewrite run_log. eauto. Qed.

Lemma normal_path_exists p : returns_normally (path_exists (X:=X) p).
Proof. intros w. unfold path_exists. eauto. Qed.

Lemma confined_ret {A} P (a : A) : confined P (ret (X:=X) a).
Proof. intros w c H. auto. Qed.

Lemma confined_raise {A} P e : confined P (raise (X:=X) (A:=A) e).
Proof. intros w c H. auto. Qed.

Lemma confined_bind {A B} P (m : M X A) (k : A -> M X B) :
  confined P m -> (forall a, confined P (k a)) -> confined P (bind m k).
Proof.
  intros Hm Hk w c. rewrite run_bind. specialize (Hm w c).
  destruct (m w) as [[a|e] w']; simpl in *; [|exact Hm].
  intros H. destruct (Hk a w' c H) as [H1|H1]; auto.
Qed.

Lemma confined_try {A} P (m : M X A) (h : exn -> M X A) :
  confined P m -> (forall e, confined P (h e)) -> confined P (try_except m h).
Proof.
  intros Hm Hh w c. rewrite run_try. specialize (Hm w c).
  destruct (m w) as [[a|e] w']; simpl in *; [exact Hm|].
  intros H. destruct (Hh e w' c H) as [H1|H1]; auto.
Qed.

Lemma confined_log P name lvl msg : confined P (log (X:=X) name lvl msg).
Proof.
  intros w c. rewrite run_log. simpl. rewrite in_app_iff. simpl.
  intros [H|[H|[]]]; [auto | discriminate].
Qed.

Lemma confined_invoke (P : call -> bool) c : P c = true -> confined P (invoke env c).
Proof.
  intros Hc w c'. unfold invoke, extern. destruct (env c (system w)) as [r s]. simpl.
  rewrite in_app_iff. simpl. intros [H|[H|[]]]; [auto|]. inversion H; subst. auto.
Qed.

Lemma confined_path_exists P p : confined P (path_exists (X:=X) p).
Proof. intros w c H. auto. Qed.

Lemma confined_getsize P p : confined P (getsize (X:=X) p).
Proof. intros w c. unfold getsize. destruct (files _ !! p); auto. Qed.

Lemma confined_makedirs P d : confined P (makedirs (X:=X) d).
Proof.
  intros w c. unfold makedirs.
  destruct (negb (Py.nonempty d)); [auto|]. destruct (file_exists _ d); auto.
Qed.

Lemma confined_read_file P p : confined P (read_file (X:=X) p).
Proof. intros w c. unfold read_file. destruct (files _ !! p); auto. Qed.

Lemma confined_write_file P p s : confined P (write_file (X:=X) p s).
Proof. intros w c H. auto. Qed.

Lemma confined_weaken {A} (P Q : call -> bool) (m : M X A) :
  (forall c, P c = true -> Q c = true) -> confined P m -> confined Q m.
Proof. intros HPQ Hm w c H. destruct (Hm w c H); auto. Qed.

Lemma confined_ext {A} P (m m' : M X A) :
  (forall w, m w = m' w) -> confined P m' -> confined P m.
Proof. intros E Hm w c. rewrite E. apply Hm. Qed.

End Frames.

Ltac confine :=
  repeat first
    [ apply confined_ret
    | apply confined_raise
    | apply confined_log
    | apply confined_path_exists
    | apply confined_getsize
    | apply confined_makedirs
    | apply confined_read_file
    | apply confined_write_file
    | match goal with
      | |- confined ?P (invoke ?e ?c) => exact (confined_invoke e P c eq_refl)
      end
    | apply confined_bind; [|intros ?]
    | apply confined_try; [|intros ?]
    | progress cbv beta iota zeta
    | match goal with
      | |- confined _ (if ?b then _ else _) => destruct b
      | |- confined _ (match ?x with _ => _ end) => destruct x
      end ].

Ltac normal :=
  repeat first
    [ apply normal_ret
    | apply normal_log
    | apply normal_path_exists
    | apply normal_try; intros ?
    | apply normal_bind; [|intros ?]
    | match goal with
      | |- returns_normally (if ?b then _ else _) => destruct b
      | |- returns_normally (match ?x with _ => _ end) => destruct x
      end ].

(** ** What the adapters never raise *)

Section NeverRaises.

Context {X : Type} (cfg : Settings) (env : Env X).

Lemma yt_dlp_normal url out res :
  returns_normally (downloader.download_video_with_yt_dlp env url out res).
Proof. unfold downloader.download_video_with_yt_dlp. normal. Qed.

Lemma download_normal url out res :
  returns_normally (downloader.download_youtube_video env url out res).
Proof. unfold downloader.download_youtube_video. normal; apply yt_dlp_normal. Qed.

Lemma transcribe_normal audio out model lang :
  returns_normally (transcriber.transcribe_audio env audio out model lang).
Proof. unfold transcriber.transcribe_audio. normal. Qed.

Lemma translate_normal input out src tgt engine :
  returns_normally (translator.translate_file cfg env input out src tgt engine).
Proof. unfold translator.translate_file. normal. Qed.

Lemma text_to_speech_normal input out lang engine ref :
  returns_normally (tts.text_to_speech env input out lang engine ref).
Proof. unfold tts.text_to_speech. normal. Qed.

Lemma moviepy_normal video audio out :
  returns_normally (video_merger.merge_video_audio_moviepy env video audio out).
Proof. unfold video_merger.merge_video_audio_moviepy. normal. Qed.

Lemma merge_normal video audio out use_ffmpeg :
  returns_normally (video_merger.merge_video_audio env video audio out use_ffmpeg).
Proof.
  unfold video_merger.merge_video_audio. normal; apply moviepy_normal.
Qed.

Lemma process_video_normal a : returns_normally (main.process_video cfg env a).
Proof. unfold main.process_video. normal. Qed.

(** X1.  The adapters whose body is inside a [try], and the pipeline itself:
    whatever the engines do and whatever is on disk, none of them raises. *)
Theorem adapters_never_raise a url video audio input out res model lang src tgt
    engine ref use_ffmpeg :
  returns_normally (downloader.download_youtube_video env url out res)
  /\ returns_normally (transcriber.transcribe_audio env audio out model lang)
  /\ returns_normally (translator.translate_file cfg env input out src tgt engine)
  /\ returns_normally (tts.text_to_speech env input out lang engine ref)
  /\ returns_normally (video_merger.merge_video_audio env video audio out use_ffmpeg)
  /\ returns_normally (main.process_video cfg env a).
Proof.
  split; [apply download_normal|]. split; [apply transcribe_normal|].
  split; [apply translate_normal|]. split; [apply text_to_speech_normal|].
  split; [apply merge_normal | apply process_video_normal].
Qed.

(** X2.  [extract_audio] runs its [os.makedirs] before the [try], so what
    that call raises leaves the function: [extract_audio] raises [e]
    exactly when [os.path.exists] finds the video and [os.makedirs], on
    the directory of the audio path, raises [e].  No process has been
    started then.  A bare file name is such a case: its directory is the
    empty string, which [os.makedirs] refuses. *)
Theorem extract_audio_raises_iff video audio sr ch (w : world X) :
  let run := audio_extractor.extract_audio env video audio sr ch w in
  let w0 := logged "utils.audio_extractor" INFO
              ("Extracting audio from video: " +:+ video) w in
  (forall e, fst run = Raise e <->
             fst (path_exists video w0) = Val true
             /\ fst (makedirs (Py.dirname audio) w0) = Raise e)
  /\ ((exists e, fst run = Raise e) -> calls (trace (snd run)) = calls (trace w))
  /\ (file_exists (system w) video = true ->
      Py.dirname audio = "" ->
      exists e, fst run = Raise e /\ exn_kind e = FileNotFoundError).
Proof.
  unfold audio_extractor.extract_audio, logged.
  rewrite run_bind, run_log, run_bind. cbn [path_exists system fst].
  destruct (file_exists (system w) video); cbn [negb].
  { rewrite run_bind. unfold makedirs. cbn [system].
    destruct (Py.nonempty (Py.dirname audio)) eqn:Hd; cbn [negb].
    - destruct (file_exists (system w) (Py.dirname audio)); cbn [fst snd trace].
      + rewrite calls_log. split; [|split; [reflexivity|]].
        * intros e. split; [intros H; split; [reflexivity | congruence] | intros [_ H]; congruence].
        * intros _ H. rewrite H in Hd. discriminate.
      + rewrite run_try.
        match goal with |- context [match ?m ?w0 with _ => _ end] =>
          destruct (m w0) as [[r|e] w1] end.
        * split; [intros e; split; [intros H; discriminate | intros [_ H]; discriminate]|].
          split; [intros [e H]; discriminate|].
          intros _ H. rewrite H in Hd. discriminate.
        * destruct (isinstance e FileNotFoundError); rewrite run_bind, run_log;
            (split; [intros e'; split; [intros H; discriminate | intros [_ H]; discriminate]|];
             split; [intros [e' H]; discriminate|];
             intros _ H; rewrite H in Hd; discriminate).
    - cbn [fst snd trace]. rewrite calls_log. split; [|split; [reflexivity|]].
      + intros e. split; [intros H; split; [reflexivity | congruence] | intros [_ H]; congruence].
      + intros _ _. eexists. split; reflexivity. }
  rewrite run_bind, run_log.
  split; [intros e; split; [intros H; discriminate | intros [H _]; discriminate]|].
  split; [intros [e H]; discriminate | intros H; discriminate].
Qed.

End NeverRaises.

Lemma extract_audio_raises_iff_witness :
  exists e, fst (audio_extractor.extract_audio Scenario.nothing_works
                   "/app/outputs/temp_video.mp4" "temp_audio.wav" 16000 1
                   (Scenario.disk [("/app/outputs/temp_video.mp4", "video")]))
            = Raise e
            /\ exn_kind e = FileNotFoundError.
Proof.
  apply (proj2 (proj2 (extract_audio_raises_iff Scenario.nothing_works
                         "/app/outputs/temp_video.mp4" "temp_audio.wav" 16000 1
                         (Scenario.disk [("/app/outputs/temp_video.mp4", "video")])))).
  - vm_compute. reflexivity.
  - vm_compute. reflexivity.
Defined.

(** ** The calls the pipeline can make *)

Section Calls.

Context {X : Type} (cfg : Settings) (env : Env X).

Lemma light_is_configured c : is_light c = true -> is_configured c = true.
Proof. destruct c; simpl; intros H; try discriminate; reflexivity. Qed.

Lemma yt_dlp_confined url out res :
  confined is_popen (downloader.download_video_with_yt_dlp env url out res).
Proof. unfold downloader.download_video_with_yt_dlp. confine. Qed.

Lemma pytube_confined url out res :
  confined (fun c => negb (is_popen c))
    (downloader.download_with_pytube env url out res).
Proof. unfold downloader.download_with_pytube. confine. Qed.

Lemma download_confined url out res :
  confined is_light (downloader.download_youtube_video env url out res).
Proof.
  unfold downloader.download_youtube_video, downloader.download_with_pytube,
         downloader.download_video_with_yt_dlp.
  confine.
Qed.

Lemma extract_confined video audio sr ch :
  confined is_popen (audio_extractor.extract_audio env video audio sr ch).
Proof. unfold audio_extractor.extract_audio. confine. Qed.

Lemma transcribe_confined audio out model lang :
  confined is_light (transcriber.transcribe_audio env audio out model lang).
Proof. unfold transcriber.transcribe_audio. confine. Qed.

Lemma translate_google_confined input out src tgt :
  confined is_light
    (translator.translate_file cfg env input out src tgt TRANSLATION_ENGINE).
Proof.
  unfold translator.translate_file, translator.translate_text_google.
  change (String.eqb (Py.lower TRANSLATION_ENGINE) "google") with true.
  confine.
Qed.

Lemma gtts_confined text out language :
  confined is_light (tts.generate_speech_gtts env text out language).
Proof. unfold tts.generate_speech_gtts, tts.pick_lang. confine. Qed.

Lemma text_to_speech_confined input out language engine ref :
  confined is_configured (tts.text_to_speech env input out language engine ref).
Proof.
  unfold tts.text_to_speech, tts.generate_speech_bark, tts.generate_speech_coqui,
         tts.generate_speech_gtts, tts.generate_speech_voice_clone, tts.pick_lang.
  confine.
Qed.

Lemma text_to_speech_light input out language engine ref :
  loads_model engine = false ->
  confined is_light (tts.text_to_speech env input out language engine ref).
Proof.
  unfold loads_model. intros H.
  apply orb_false_iff in H. destruct H as [H H3].
  apply orb_false_iff in H. destruct H as [H1 H2].
  unfold tts.text_to_speech. rewrite H1, H2, H3.
  apply confined_bind; [apply confined_log|intros _].
  apply confined_bind; [apply confined_path_exists|intros found].
  destruct (negb found); [confine|].
  apply confined_try; [|intros e; confine].
  apply confined_bind; [apply confined_read_file|intros text].
  apply confined_bind; [apply confined_log|intros _].
  destruct (String.eqb (Py.lower engine) "gtts"); [apply gtts_confined|].
  apply confined_bind; [apply confined_log|intros _].
  apply confined_bind; [apply confined_log|intros _].
  apply gtts_confined.
Qed.

Lemma clone_voice_fallback_confined text target out :
  confined (fun c => negb (is_xtts c))
    (voice_cloner_fallback.clone_voice_fallback cfg env text target out).
Proof. unfold voice_cloner_fallback.clone_voice_fallback. confine. Qed.

Lemma cloner_fallback_confined text spk target out :
  confined is_configured
    (voice_cloner_fallback.clone_voice_and_speak cfg env text spk target out).
Proof.
  unfold voice_cloner_fallback.clone_voice_and_speak, voice_cloner_fallback.try_xtts,
         voice_cloner_fallback.clone_voice_fallback.
  confine.
Qed.

Lemma merge_ffmpeg_confined video audio out :
  confined is_popen (video_merger.merge_video_audio_ffmpeg env video audio out).
Proof. unfold video_merger.merge_video_audio_ffmpeg. confine. Qed.

Lemma merge_moviepy_confined video audio out :
  confined is_moviepy (video_merger.merge_video_audio_moviepy env video audio out).
Proof. unfold video_merger.merge_video_audio_moviepy. confine. Qed.

Lemma merge_true_confined video audio out :
  confined is_popen (video_merger.merge_video_audio env video audio out true).
Proof.
  eapply confined_ext; [|apply merge_ffmpeg_confined].
  intros w. apply merge_video_audio_is_ffmpeg.
Qed.

Lemma popen_is_light c : is_popen c = true -> is_light c = true.
Proof. destruct c; simpl; congruence. Qed.

Lemma get_file_size_mb_confined P p : confined P (main.get_file_size_mb (X:=X) p).
Proof. unfold main.get_file_size_mb. confine. Qed.

(** What a step does around its adapter makes no call. *)
Lemma stage_then_confined {B} P (m : M X (option string)) (look : string -> M X B)
    msg (next : string -> main.state) :
  confined P m -> (forall p, confined P (look p)) ->
  confined P
    (r <- m;;
     if negb (Py.truthy r) then log "__main__" ERROR msg;; ret main.Failed
     else look (str_opt r);; ret (next (str_opt r))).
Proof.
  intros Hm Hl. apply confined_bind; [exact Hm|intros r].
  destruct (negb (Py.truthy r)); confine. apply Hl.
Qed.

Lemma step_confined a s :
  confined is_configured (main.step cfg env a s).
Proof.
  destruct s; cbn [main.step]; try apply confined_ret;
    apply stage_then_confined;
    try (intros p; first [apply get_file_size_mb_confined | apply confined_read_file]).
  - eapply confined_weaken; [apply light_is_configured | apply download_confined].
  - eapply confined_weaken; [|apply extract_confined].
    intros c Hc. apply light_is_configured, popen_is_light, Hc.
  - eapply confined_weaken; [apply light_is_configured | apply transcribe_confined].
  - eapply confined_weaken; [apply light_is_configured | apply translate_google_confined].
  - destruct (_ && _)%bool.
    + apply confined_bind; [apply confined_read_file|intros text].
      apply cloner_fallback_confined.
    + apply text_to_speech_confined.
  - eapply confined_weaken; [|apply merge_true_confined].
    intros c Hc. apply light_is_configured, popen_is_light, Hc.
Qed.

Lemma engine_is_not_voice_clone engine :
  loads_model engine = false -> String.eqb engine "voice_clone" = false.
Proof.
  unfold loads_model. intros H. apply orb_false_iff in H. destruct H as [_ H].
  destruct (String.eqb engine "voice_clone") eqn:E; [|reflexivity].
  apply String.eqb_eq in E. subst engine. discriminate.
Qed.

Lemma step_light a s :
  loads_model (main.tts_engine a) = false ->
  confined is_light (main.step cfg env a s).
Proof.
  intros Ha.
  destruct s; cbn [main.step]; try apply confined_ret;
    apply stage_then_confined;
    try (intros p; first [apply get_file_size_mb_confined | apply confined_read_file]).
  - apply download_confined.
  - eapply confined_weaken; [apply popen_is_light | apply extract_confined].
  - apply transcribe_confined.
  - apply translate_google_confined.
  - rewrite (engine_is_not_voice_clone _ Ha). cbn [andb].
    apply text_to_speech_light, Ha.
  - eapply confined_weaken; [apply popen_is_light | apply merge_true_confined].
Qed.

Lemma steps_confined P a n s :
  (forall s', confined P (main.step cfg env a s')) ->
  confined P (main.steps cfg env a n s).
Proof.
  intros Hstep. revert s. induction n as [|n IH]; intros s; cbn [main.steps].
  - apply confined_ret.
  - apply confined_bind; [apply Hstep | intros s'; apply IH].
Qed.

Lemma process_video_confined P a :
  (forall s, confined P (main.step cfg env a s)) ->
  confined P (main.process_video cfg env a).
Proof.
  intros Hstep. unfold main.process_video, main.banner.
  apply confined_try; [|intros e; confine].
  apply confined_bind; [confine|intros _].
  apply confined_bind; [apply steps_confined, Hstep|intros final].
  destruct final; confine.
Qed.

(** X3.  Whatever the arguments, and whatever happens on the way,
    [process_video] calls neither the OpenAI API nor moviepy: every call
    in the record it leaves was there before, or is to another engine. *)
Theorem pipeline_never_calls_openai_or_moviepy a (w : world X) c :
  In (Call c) (trace (snd (main.process_video cfg env a w))) ->
  In (Call c) (trace w) \/ (is_moviepy c = false /\ is_openai c = false).
Proof.
  intros H.
  destruct (process_video_confined is_configured a (step_confined a) w c H) as [H1|H1];
    [auto|right].
  unfold is_configured in H1. apply negb_true_iff, orb_false_iff in H1. exact H1.
Qed.

(** X4.  With an engine name other than bark, coqui and voice_clone, in any
    case of letters, the pipeline loads no speech model and imports
    neither Bark nor Coqui TTS: it calls pytube, child processes, Whisper,
    Google Translate and Google TTS only. *)
Theorem light_engine_loads_no_model a :
  loads_model (main.tts_engine a) = false ->
  confined is_light (main.process_video cfg env a).
Proof. intros Ha. apply process_video_confined. intros s. apply step_light, Ha. Qed.

(** X5.  The two mergers stay apart: with [use_ffmpeg=True] the only calls of
    [merge_video_audio] are child processes, in every environment, and
    with [use_ffmpeg=False] they are calls of moviepy. *)
Theorem merger_engines_apart video audio out :
  confined is_popen (video_merger.merge_video_audio env video audio out true)
  /\ confined is_moviepy (video_merger.merge_video_audio env video audio out false).
Proof.
  split; [apply merge_true_confined|].
  unfold video_merger.merge_video_audio. apply merge_moviepy_confined.
Qed.

End Calls.

Lemma pipeline_never_calls_openai_or_moviepy_witness :
  let c := CTranslatepy "hello" "en" "tr" in
  In (Call c) (trace (Scenario.disk []))
  \/ (is_moviepy c = false /\ is_openai c = false).
Proof.
  intros c.
  apply (pipeline_never_calls_openai_or_moviepy Scenario.cfg (Scenario.all_work "hello")
           Scenario.default_args (Scenario.disk []) c).
  vm_compute. repeat (first [left; reflexivity | right]).
Defined.

Lemma light_engine_loads_no_model_witness :
  confined is_light
    (main.process_video Scenario.cfg (Scenario.all_work "hello")
       (main.Args "https://youtu.be/x" "en" "tr" "Festival" None)).
Proof.
  apply (light_engine_loads_no_model Scenario.cfg (Scenario.all_work "hello")
           (main.Args "https://youtu.be/x" "en" "tr" "Festival" None)).
  reflexivity.
Defined.

(** ** Translation and transcription *)

Section Texts.

Context {X : Type} (cfg : Settings) (env : Env X).

Lemma lower_is (engine name other : string) :
  Py.lower engine = name -> String.eqb name other = false ->
  String.eqb (Py.lower engine) other = false.
Proof. intros ->. auto. Qed.

(** X6.  An engine name that, lower-cased, is neither ["google"] nor
    ["openai"]: [translate_file] returns [None], calls nothing and writes
    nothing, and says so in the log when the input is there. *)
Theorem unknown_translation_engine input out src tgt engine (w : world X) :
  String.eqb (Py.lower engine) "google" = false ->
  String.eqb (Py.lower engine) "openai" = false ->
  let run := translator.translate_file cfg env input out src tgt engine w in
  fails_without_engine (translator.translate_file cfg env input out src tgt engine) w
  /\ (file_exists (system w) input = true ->
      In ("Unknown translation engine: " +:+ engine)
         (messages_at ERROR (trace (snd run)))).
Proof.
  intros H1 H2. unfold fails_without_engine, translator.translate_file.
  rewrite H1, H2.
  unfold bind, try_except, log, emit, path_exists, read_file, ret. cbn.
  destruct (file_exists_cases (system w) input) as [(text & Hf & He)|[Hf He]];
    rewrite He; cbn; rewrite ?Hf; cbn.
  - rewrite !calls_log. split; [auto|intros _].
    rewrite !messages_at_app, !in_app_iff. right. cbn.
    rewrite bool_decide_eq_true_2 by reflexivity. left. reflexivity.
  - rewrite !calls_log. split; [auto|discriminate].
Qed.

(** X7.  Without an API key the OpenAI engine is never asked: the translation
    fails before any request is made. *)
Theorem openai_needs_key input out src tgt engine (w : world X) :
  Py.lower engine = "openai" ->
  OPENAI_API_KEY cfg = "" ->
  fails_without_engine (translator.translate_file cfg env input out src tgt engine) w.
Proof.
  intros He Hk. unfold fails_without_engine, translator.translate_file,
    translator.translate_text_openai.
  rewrite He, Hk. cbn [String.eqb Ascii.eqb Bool.eqb Py.nonempty negb].
  run_all.
  all: rewrite ?calls_log; auto.
Qed.

(** X8.  With the Google engine, the output file holds what the translator
    returned, whatever it is: an empty translation is written and its path
    returned like any other.  One request is made, for the whole text. *)
Theorem google_translation_round_trip input out src tgt engine text translated
    (w : world X) s1 :
  Py.lower engine = "google" ->
  files (system w) !! input = Some text ->
  env (CTranslatepy text src tgt) (system w) = (Val translated, s1) ->
  can_makedirs s1 (Py.dirname out) = true ->
  let run := translator.translate_file cfg env input out src tgt engine w in
  fst run = Val (Some out)
  /\ files (system (snd run)) = <[out := translated]> (files s1)
  /\ calls (trace (snd run))
     = (calls (trace w) ++ [Call (CTranslatepy text src tgt)])%list.
Proof.
  intros He Hf Hcall Hmk. unfold can_makedirs in Hmk.
  apply andb_true_iff in Hmk. destruct Hmk as [Hne Hno].
  apply negb_true_iff in Hno.
  unfold translator.translate_file, translator.translate_text_google.
  rewrite He. cbn [String.eqb Ascii.eqb Bool.eqb].
  unfold bind, try_except, makedirs, log, emit, invoke, extern, path_exists,
         read_file, write_file, ret. cbn.
  rewrite (file_exists_lookup _ _ _ Hf). cbn. rewrite Hf. cbn.
  rewrite Hcall. cbn. rewrite Hne, Hno. cbn.
  split; [reflexivity|]. split; [reflexivity|].
  rewrite !calls_log, calls_app, !calls_log. reflexivity.
Qed.

(** X9.  With the OpenAI engine and a key, the request carries the key and the
    whole text, and the output file holds the reply as [str.strip()]
    leaves it: without the white space around it, the separators 28 to 31
    and the spaces beyond ASCII included. *)
Theorem openai_translation_is_stripped input out src tgt engine text content
    (w : world X) s1 :
  Py.lower engine = "openai" ->
  Py.nonempty (OPENAI_API_KEY cfg) = true ->
  files (system w) !! input = Some text ->
  (forall system_message,
     env (COpenAIChat (OPENAI_API_KEY cfg) system_message text) (system w)
     = (Val (Some content), s1)) ->
  can_makedirs s1 (Py.dirname out) = true ->
  let run := translator.translate_file cfg env input out src tgt engine w in
  fst run = Val (Some out)
  /\ files (system (snd run)) = <[out := Py.strip content]> (files s1)
  /\ exists system_message,
       calls (trace (snd run))
       = (calls (trace w)
          ++ [Call (COpenAIChat (OPENAI_API_KEY cfg) system_message text)])%list.
Proof.
  intros He Hk Hf Hcall Hmk. unfold can_makedirs in Hmk.
  apply andb_true_iff in Hmk. destruct Hmk as [Hne Hno].
  apply negb_true_iff in Hno.
  unfold translator.translate_file, translator.translate_text_openai.
  rewrite He, Hk. cbn [String.eqb Ascii.eqb Bool.eqb negb].
  unfold bind, try_except, makedirs, log, emit, invoke, extern, path_exists,
         read_file, write_file, ret. cbn.
  rewrite (file_exists_lookup _ _ _ Hf). cbn. rewrite Hf. cbn.
  rewrite Hcall. cbn. rewrite Hne, Hno. cbn.
  split; [reflexivity|]. split; [reflexivity|].
  eexists. rewrite !calls_log, calls_app, !calls_log. reflexivity.
Qed.

(** X10.  The transcript file holds the text Whisper returned.  The model is
    loaded once and asked once; the language is passed as a hint unless it
    is the empty string. *)
Theorem transcript_round_trip audio out model lang heard (w : world X) s1 s2 :
  let hint := if Py.nonempty lang then Some lang else None in
  file_exists (system w) audio = true ->
  env (CWhisperLoadModel model) (system w) = (Val tt, s1) ->
  env (CWhisperTranscribe model audio hint) s1 = (Val heard, s2) ->
  can_makedirs s2 (Py.dirname out) = true ->
  let run := transcriber.transcribe_audio env audio out model lang w in
  fst run = Val (Some out)
  /\ files (system (snd run)) = <[out := heard]> (files s2)
  /\ calls (trace (snd run))
     = (calls (trace w)
        ++ [Call (CWhisperLoadModel model);
            Call (CWhisperTranscribe model audio hint)])%list.
Proof.
  intros hint Hf Hload Hcall Hmk. unfold can_makedirs in Hmk.
  apply andb_true_iff in Hmk. destruct Hmk as [Hne Hno].
  apply negb_true_iff in Hno.
  unfold transcriber.transcribe_audio.
  unfold bind, try_except, makedirs, log, emit, invoke, extern, path_exists,
         read_file, write_file, ret. cbn.
  rewrite Hf. cbn. rewrite Hload. cbn. fold hint. rewrite Hcall. cbn.
  rewrite Hne, Hno. cbn.
  split; [reflexivity|]. split; [reflexivity|].
  rewrite !calls_log, calls_app, !calls_log, calls_app, !calls_log, <- app_assoc.
  reflexivity.
Qed.

End Texts.

Lemma unknown_translation_engine_witness :
  fails_without_engine
    (translator.translate_file Scenario.cfg (Cases.translators "selam")
       "/app/outputs/transcript.txt" "/app/outputs/translated.txt" "en" "tr" "DeepL")
    (Scenario.disk [("/app/outputs/transcript.txt", "hello")]).
Proof.
  apply (unknown_translation_engine Scenario.cfg (Cases.translators "selam")
           "/app/outputs/transcript.txt" "/app/outputs/translated.txt" "en" "tr" "DeepL"
           (Scenario.disk [("/app/outputs/transcript.txt", "hello")]));
    reflexivity.
Defined.

Lemma openai_needs_key_witness :
  fails_without_engine
    (translator.translate_file Scenario.cfg (Cases.translators "selam")
       "/app/outputs/transcript.txt" "/app/outputs/translated.txt" "en" "tr" "OpenAI")
    (Scenario.disk [("/app/outputs/transcript.txt", "hello")]).
Proof.
  apply (openai_needs_key Scenario.cfg (Cases.translators "selam")
           "/app/outputs/transcript.txt" "/app/outputs/translated.txt" "en" "tr" "OpenAI"
           (Scenario.disk [("/app/outputs/transcript.txt", "hello")]));
    reflexivity.
Defined.

Lemma google_translation_round_trip_witness :
  let w := Scenario.disk [("/app/outputs/transcript.txt", "hello")] in
  let run := translator.translate_file Scenario.cfg (Cases.translators "selam")
               "/app/outputs/transcript.txt" "/app/outputs/translated.txt"
               "en" "tr" "Google" w in
  fst run = Val (Some "/app/outputs/translated.txt")
  /\ files (system (snd run))
     = <["/app/outputs/translated.txt" := ""]> (files (system w))
  /\ calls (trace (snd run)) = [Call (CTranslatepy "hello" "en" "tr")].
Proof.
  intros w.
  apply (google_translation_round_trip Scenario.cfg (Cases.translators "selam")
           "/app/outputs/transcript.txt" "/app/outputs/translated.txt"
           "en" "tr" "Google" "hello" "" w (system w));
    reflexivity.
Defined.

Lemma openai_translation_is_stripped_witness :
  let reply := String "031" (" selam" +:+ String "194" (String "160" " ")) in
  let w := Scenario.disk [("/app/outputs/transcript.txt", "hello")] in
  let run := translator.translate_file Cases.with_key (Cases.translators reply)
               "/app/outputs/transcript.txt" "/app/outputs/translated.txt"
               "en" "tr" "openai" w in
  fst run = Val (Some "/app/outputs/translated.txt")
  /\ files (system (snd run))
     = <["/app/outputs/translated.txt" := "selam"]> (files (system w)).
Proof.
  intros reply w.
  destruct (openai_translation_is_stripped Cases.with_key (Cases.translators reply)
              "/app/outputs/transcript.txt" "/app/outputs/translated.txt"
              "en" "tr" "openai" "hello" reply w (system w))
    as (H1 & H2 & _); try reflexivity.
  split; [exact H1 | exact H2].
Defined.

Lemma transcript_round_trip_witness :
  let w := Scenario.disk [("/app/outputs/temp_audio.wav", "audio")] in
  let run := transcriber.transcribe_audio (Scenario.all_work "hello")
               "/app/outputs/temp_audio.wav" "/app/outputs/transcript.txt"
               "base" "" w in
  fst run = Val (Some "/app/outputs/transcript.txt")
  /\ files (system (snd run))
     = <["/app/outputs/transcript.txt" := "hello"]> (files (system w))
  /\ calls (trace (snd run))
     = [Call (CWhisperLoadModel "base");
        Call (CWhisperTranscribe "base" "/app/outputs/temp_audio.wav" None)].
Proof.
  intros w.
  apply (transcript_round_trip (Scenario.all_work "hello")
           "/app/outputs/temp_audio.wav" "/app/outputs/transcript.txt"
           "base" "" "hello" w (system w) (system w));
    reflexivity.
Defined.

(** ** Speech synthesis without a voice sample *)

(** The last event of a record built by appending. *)
Ltac find_in :=
  match goal with
  | |- In ?x (?l ++ [?y]) =>
      apply in_or_app; first [right; left; reflexivity | left; find_in]
  end.

(** A call found in a record built by appending was there at the start,
    or is one of the calls appended. *)
Ltac in_trace :=
  cbn [trace system fst snd]; intros c;
  rewrite ?in_app_iff; cbn [In];
  intuition (try discriminate);
  match goal with
  | H : Call _ = Call _ |- _ => inversion H; subst; auto
  end.

Section Synthesis.

Context {X : Type} (cfg : Settings) (env : Env X).

(** X11.  The engine voice_clone without a reference recording that is there:
    [text_to_speech] says so in the log and is [generate_speech_gtts] from
    then on, on the text of the input file. *)
Theorem voice_clone_without_reference_uses_gtts
    input out language engine ref text (w : world X) :
  Py.lower engine = "voice_clone" ->
  files (system w) !! input = Some text ->
  Py.truthy ref = false \/ file_exists (system w) (str_opt ref) = false ->
  tts.text_to_speech env input out language engine ref w
  = tts.generate_speech_gtts env text out language
      (at_missing_reference input engine text w).
Proof.
  intros He Hf Href. unfold tts.text_to_speech.
  rewrite run_bind, run_log, run_bind. cbn [path_exists system].
  rewrite (file_exists_lookup _ _ _ Hf). cbn [negb].
  rewrite run_try, run_bind.
  unfold read_file at 1. cbn [system]. rewrite Hf.
  rewrite run_bind, run_log. rewrite He.
  cbn [String.eqb Ascii.eqb Bool.eqb].
  assert (Hend : forall w0,
    match tts.generate_speech_gtts env text out language w0 with
    | (Val a, w') => (Val a, w')
    | (Raise e, w') =>
        (log "utils.tts" ERROR ("Error during text-to-speech conversion: " +:+ exn_text e);;
         ret None) w'
    end = tts.generate_speech_gtts env text out language w0).
  { intros w0. destruct (gtts_returns env text out language w0) as (r & w' & ->).
    reflexivity. }
  unfold at_missing_reference, logged. cbn [system trace].
  destruct ref as [ref|].
  - rewrite run_bind.
    destruct (Py.nonempty ref) eqn:Hn.
    + destruct Href as [Href|Href]; [simpl in Href; congruence|].
      cbn [path_exists system str_opt] in *. rewrite Href.
      rewrite run_bind, run_log. apply Hend.
    + cbn [ret]. rewrite run_bind, run_log. apply Hend.
  - rewrite run_bind, run_log. apply Hend.
Qed.

Lemma try_xtts_without_sample text spk target out (w : world X) :
  leaves_files env CImportTTS ->
  leaves_files env CCudaIsAvailable ->
  Py.truthy spk = false \/ file_exists (system w) (str_opt spk) = false ->
  exists w1,
    voice_cloner_fallback.try_xtts env text spk target out w = (Val None, w1)
    /\ forall c, In (Call c) (trace w1) -> In (Call c) (trace w) \/ is_xtts c = false.
Proof.
  intros Hi Hc Hspk. unfold voice_cloner_fallback.try_xtts.
  rewrite run_try, run_bind. unfold invoke at 1, extern.
  specialize (Hi (system w)).
  destruct (env CImportTTS (system w)) as [[[]|e] s1]; cbn [snd] in Hi.
  2: { rewrite run_bind, run_log, run_bind, run_log.
       eexists. split; [reflexivity|]. in_trace. }
  rewrite run_bind, run_log, run_bind, run_log, run_bind.
  unfold invoke at 1, extern. cbn [system]. specialize (Hc s1).
  destruct (env CCudaIsAvailable s1) as [[cuda|e] s2]; cbn [snd] in Hc.
  2: { rewrite run_bind, run_log, run_bind, run_log.
       eexists. split; [reflexivity|]. in_trace. }
  assert (Hmissing : Py.truthy spk = false \/ file_exists s2 (str_opt spk) = false).
  { destruct Hspk as [H|H]; [auto|right].
    unfold file_exists in *. rewrite Hc, Hi. exact H. }
  destruct cuda; rewrite run_bind, run_log, run_bind.
  all: destruct spk as [p|]; [destruct (Py.nonempty p) eqn:Hn|];
    cbn [path_exists ret system str_opt] in *.
  all: try (destruct Hmissing as [H|H]; [simpl in H; congruence | rewrite H]).
  all: eexists; (split; [reflexivity|]); in_trace.
Qed.

(** X12.  Without a voice sample, or with one that is not on disk while
    importing the library does not touch the files,
    [voice_cloner_fallback.clone_voice_and_speak] never loads the XTTS
    model and never synthesizes with it. *)
Theorem cloning_without_sample_skips_xtts text spk target out (w : world X) c :
  leaves_files env CImportTTS ->
  leaves_files env CCudaIsAvailable ->
  Py.truthy spk = false \/ file_exists (system w) (str_opt spk) = false ->
  In (Call c)
     (trace (snd (voice_cloner_fallback.clone_voice_and_speak
                    cfg env text spk target out w))) ->
  In (Call c) (trace w) \/ is_xtts c = false.
Proof.
  intros Hi Hc Hspk. unfold voice_cloner_fallback.clone_voice_and_speak.
  rewrite run_bind, run_log, run_bind.
  match goal with |- context [voice_cloner_fallback.try_xtts _ _ _ _ _ ?w0] =>
    destruct (try_xtts_without_sample text spk target out w0 Hi Hc Hspk)
      as (w1 & -> & Hw1) end.
  intros H.
  destruct (clone_voice_fallback_confined cfg env text target out w1 c H) as [H1|H1].
  - destruct (Hw1 c H1) as [H2|H2]; [|auto].
    cbn [trace] in H2. apply in_app_iff in H2. destruct H2 as [H2|[H2|[]]]; [auto|discriminate].
  - right. apply negb_true_iff, H1.
Qed.

Lemma try_xtts_outcome text spk target out (w : world X) :
  let run := voice_cloner_fallback.try_xtts env text spk target out w in
  exists added,
    trace (snd run) = (trace w ++ added)%list
    /\ ((fst run = Val (Some out)
         /\ In (Call (CTTSToFile xtts_v2 text out spk (Some (xtts_lang target)))) added)
        \/ fst run = Val None).
Proof.
  unfold voice_cloner_fallback.try_xtts.
  generalize (xtts_lang target) as code. intros code.
  run_all.
  all: rewrite <- ?app_assoc; eexists; (split; [reflexivity|]); cbn [app].
  all: first [ right; reflexivity
             | left; split; [reflexivity | repeat (first [left; reflexivity | right])] ].
Qed.

Lemma clone_voice_fallback_outcome text target out (w : world X) :
  let run := voice_cloner_fallback.clone_voice_fallback cfg env text target out w in
  let gtts_lang := dict_get voice_cloner_fallback.gtts_lang_mapping
                     (Py.lower target) "en" in
  exists added,
    trace (snd run) = (trace w ++ added)%list
    /\ In (Log "utils.voice_cloner_fallback" INFO
             ("Starting fallback TTS for language: " +:+ target)) added
    /\ (In (Call (CgTTS text gtts_lang)) added \/ exists e, fst run = Raise e).
Proof.
  unfold voice_cloner_fallback.clone_voice_fallback.
  generalize (dict_get voice_cloner_fallback.gtts_lang_mapping (Py.lower target) "en")
    as gcode.
  intros gcode.
  run_all.
  all: rewrite <- ?app_assoc; eexists; (split; [reflexivity|]); cbn [app].
  all: split; [left; reflexivity|].
  all: first [ right; eexists; reflexivity
             | left; repeat (first [left; reflexivity | right]) ].
Qed.

Lemma try_xtts_no_sample text spk target out (w : world X) :
  Py.truthy spk = false ->
  let run := voice_cloner_fallback.try_xtts env text spk target out w in
  exists added,
    trace (snd run) = (trace w ++ added)%list
    /\ fst run = Val None
    /\ forall t l, ~ In (Call (CgTTS t l)) added.
Proof.
  intros Hspk. unfold voice_cloner_fallback.try_xtts.
  destruct spk as [p|]; cbn [Py.truthy] in Hspk; [rewrite Hspk|].
  all: run_all.
  all: rewrite <- ?app_assoc; eexists; (split; [reflexivity|]); cbn [app].
  all: split; [reflexivity|].
  all: intros t l Hin; cbn [In] in Hin; intuition discriminate.
Qed.

Lemma clone_voice_fallback_bare_output text target out (w : world X) :
  Py.truthy out = true ->
  Py.dirname (str_opt out) = "" ->
  let run := voice_cloner_fallback.clone_voice_fallback cfg env text target out w in
  exists added,
    trace (snd run) = (trace w ++ added)%list
    /\ (exists e, fst run = Raise e /\ exn_kind e = FileNotFoundError)
    /\ forall t l, ~ In (Call (CgTTS t l)) added.
Proof.
  intros Hout Hdir. unfold voice_cloner_fallback.clone_voice_fallback.
  rewrite Hout.
  unfold bind, makedirs, log, emit, ret. cbn -[Py.dirname].
  rewrite Hdir. cbn.
  rewrite <- ?app_assoc; eexists; (split; [reflexivity|]); cbn [app].
  split; [eexists; split; reflexivity|].
  intros t l Hin; cbn [In] in Hin; intuition discriminate.
Qed.

(** X13.  How a run of [voice_cloner_fallback.clone_voice_and_speak] can end.
    Either the XTTS model has synthesized, with the caller's text, output
    path and sample and the code of the table, and the result is the
    caller's output path; or the gTTS fallback was started, and then
    Google TTS was asked for the text, or the function raised: the
    fallback makes its directories before its [try].  So it is without a
    voice sample and with a bare file name for the output, whose
    directory is the empty string: the function raises, and Google TTS
    has not been asked. *)
Theorem cloning_xtts_gtts_or_raise text spk target out (w : world X) :
  let run := voice_cloner_fallback.clone_voice_and_speak cfg env text spk target out w in
  let gtts_lang := dict_get voice_cloner_fallback.gtts_lang_mapping
                     (Py.lower target) "en" in
  let started := Log "utils.voice_cloner_fallback" INFO
                   ("Starting fallback TTS for language: " +:+ target) in
  exists added,
    trace (snd run) = (trace w ++ added)%list
    /\ ((fst run = Val out
         /\ In (Call (CTTSToFile xtts_v2 text out spk (Some (xtts_lang target)))) added)
        \/ (In started added /\ In (Call (CgTTS text gtts_lang)) added)
        \/ (In started added /\ exists e, fst run = Raise e))
    /\ (Py.truthy spk = false ->
        Py.truthy out = true ->
        Py.dirname (str_opt out) = "" ->
        (exists e, fst run = Raise e /\ exn_kind e = FileNotFoundError)
        /\ forall t l, ~ In (Call (CgTTS t l)) added).
Proof.
  unfold voice_cloner_fallback.clone_voice_and_speak.
  cbv zeta. rewrite run_bind, run_log, run_bind.
  match goal with |- context [voice_cloner_fallback.try_xtts _ _ _ _ _ ?w0] =>
    pose proof (try_xtts_no_sample text spk target out w0) as Hnone;
    destruct (try_xtts_outcome text spk target out w0) as (l1 & Ht1 & Hr);
    destruct (voice_cloner_fallback.try_xtts env text spk target out w0) as [r w1]
  end; cbn [fst snd system trace] in *.
  destruct Hr as [[-> Hin]| ->].
  - unfold ret. cbn [fst snd]. eexists. rewrite Ht1, <- app_assoc.
    split; [reflexivity|]. split.
    + left. split; [reflexivity|]. apply in_or_app. right. exact Hin.
    + intros Hspk _ _. destruct (Hnone Hspk) as (l & _ & H & _). discriminate H.
  - pose proof (clone_voice_fallback_bare_output text target out w1) as Hbare.
    destruct (clone_voice_fallback_outcome text target out w1) as (l2 & Ht2 & Hs & Hg).
    cbv zeta in Ht2, Hg, Hbare. rewrite Ht2, Ht1, <- !app_assoc.
    eexists. split; [reflexivity|].
    assert (Hs' : forall e l, In e l2 -> In e (l ++ l1 ++ l2))
      by (intros e l H; rewrite !in_app_iff; auto).
    split; [destruct Hg as [Hg|He]; [right; left | right; right]; auto|].
    intros Hspk Hout Hdir.
    destruct (Hnone Hspk) as (l1' & Ht1' & _ & Hno1).
    destruct (Hbare Hout Hdir) as (l2' & Ht2' & Hraise & Hno2).
    rewrite Ht1 in Ht1'. apply app_inv_head in Ht1'. subst l1'.
    rewrite Ht2 in Ht2'. apply app_inv_head in Ht2'. subst l2'.
    split; [exact Hraise|].
    intros t l. rewrite !in_app_iff. cbn [In].
    intros [[H|[]]|[H|H]]; [discriminate H | exact (Hno1 t l H) | exact (Hno2 t l H)].
Qed.

(** X14.  The XTTS cloner of [utils/voice_cloner.py] returns a path only after
    it has measured the file at that path, so the file is there; and the
    path is the one it was given, when it was given one. *)
Theorem xtts_cloner_result text speaker_wav target out (w : world X) p w' :
  voice_cloner.clone_voice_and_speak cfg env text speaker_wav target out w
  = (Val (Some p), w') ->
  file_exists (system w') p = true
  /\ (Py.truthy out = true -> out = Some p).
Proof.
  unfold voice_cloner.clone_voice_and_speak.
  generalize (xtts_lang target) as code. intros code.
  destruct out as [q|]; cbn [Py.truthy];
    [destruct (Py.nonempty q) eqn:Hq|]; cbn [str_opt];
    run_all; intros H; inversion H; subst; clear H;
    (split; [eapply file_exists_lookup; eassumption
            | first [reflexivity | discriminate | intros _; reflexivity]]).
Qed.

End Synthesis.

Lemma voice_clone_without_reference_uses_gtts_witness :
  let w := Scenario.disk [("/app/outputs/translated.txt", "merhaba")] in
  tts.text_to_speech (Scenario.all_work "hello")
    "/app/outputs/translated.txt" "/app/outputs/dubbed_audio.wav" "tr"
    "Voice_Clone" (Some "/app/ref.wav") w
  = tts.generate_speech_gtts (Scenario.all_work "hello")
      "merhaba" "/app/outputs/dubbed_audio.wav" "tr"
      (at_missing_reference "/app/outputs/translated.txt" "Voice_Clone" "merhaba" w).
Proof.
  intros w.
  apply (voice_clone_without_reference_uses_gtts (Scenario.all_work "hello")
           "/app/outputs/translated.txt" "/app/outputs/dubbed_audio.wav" "tr"
           "Voice_Clone" (Some "/app/ref.wav") "merhaba" w).
  - reflexivity.
  - reflexivity.
  - right. vm_compute. reflexivity.
Defined.

Lemma cloning_without_sample_skips_xtts_witness :
  In (Call (CgTTS "merhaba" "tr")) (trace (Scenario.disk []))
  \/ is_xtts (CgTTS "merhaba" "tr") = false.
Proof.
  apply (cloning_without_sample_skips_xtts Scenario.cfg Cases.no_xtts
           "merhaba" (Some "/app/ref.wav") "tr" (Some "/app/outputs/dubbed_audio.wav")
           (Scenario.disk []) (CgTTS "merhaba" "tr")).
  - intros s. reflexivity.
  - intros s. reflexivity.
  - right. vm_compute. reflexivity.
  - vm_compute. repeat (first [left; reflexivity | right]).
Defined.

Lemma xtts_cloner_result_witness :
  let w := Scenario.disk [("/app/ref.wav", "voice")] in
  let out := "/app/outputs/dubbed_audio.wav" in
  let run := voice_cloner.clone_voice_and_speak Scenario.cfg Scenario.xtts_works
               "merhaba" "/app/ref.wav" "tr" (Some out) w in
  file_exists (system (snd run)) out = true
  /\ (Py.truthy (Some out) = true -> Some out = Some out).
Proof.
  intros w out run.
  apply (xtts_cloner_result Scenario.cfg Scenario.xtts_works
           "merhaba" "/app/ref.wav" "tr" (Some out) w out (snd run)).
  vm_compute. reflexivity.
Defined.

Lemma cloning_xtts_gtts_or_raise_witness :
  let run := voice_cloner_fallback.clone_voice_and_speak Scenario.cfg Cases.no_xtts
               "merhaba" None "tr" (Some "out.mp3") (Scenario.disk []) in
  (exists e, fst run = Raise e /\ exn_kind e = FileNotFoundError)
  /\ calls (trace (snd run)) = [Call CImportTTS; Call CCudaIsAvailable].
Proof.
  intros run.
  destruct (cloning_xtts_gtts_or_raise Scenario.cfg Cases.no_xtts
              "merhaba" None "tr" (Some "out.mp3") (Scenario.disk []))
    as (added & _ & _ & H).
  split; [apply H; reflexivity | vm_compute; reflexivity].
Defined.

(** ** moviepy and pytube *)

Lemma logged_in_messages name l msg (tr : list event) :
  In (Log name l msg) tr -> In msg (messages_at l tr).
Proof.
  induction tr as [|[name' l' m|c] tr IH]; simpl; [auto| |].
  - intros [H|H].
    + inversion H; subst. rewrite bool_decide_eq_true_2 by reflexivity. left. reflexivity.
    + case_bool_decide; [right|]; auto.
  - intros [H|H]; [discriminate|auto].
Qed.

Section Engines.

Context {X : Type} (env : Env X).

(** X15.  The moviepy merger opens the video, then the sound track, and writes
    once.  The sound track is cut to the length of the video exactly when
    it is the longer of the two. *)
Theorem moviepy_trims_longer_audio video audio out (w : world X)
    video_duration audio_duration s1 s2 :
  file_exists (system w) video = true ->
  file_exists (system w) audio = true ->
  can_makedirs (system w) (Py.dirname out) = true ->
  env (CVideoFileClip video) (system w) = (Val video_duration, s1) ->
  env (CAudioFileClip audio) s1 = (Val audio_duration, s2) ->
  calls (trace (snd (video_merger.merge_video_audio_moviepy env video audio out w)))
  = (calls (trace w)
     ++ [Call (CVideoFileClip video); Call (CAudioFileClip audio);
         Call (CWriteVideofile out video audio
                 (if audio_duration >? video_duration
                  then Some video_duration else None))])%list.
Proof.
  intros Hv Ha Hmk Hvc Hac. unfold can_makedirs in Hmk.
  apply andb_true_iff in Hmk. destruct Hmk as [Hne Hno].
  apply negb_true_iff in Hno.
  unfold video_merger.merge_video_audio_moviepy.
  unfold bind, try_except, makedirs, log, emit, invoke, extern, path_exists,
         getsize, ret. cbn.
  rewrite Hv. cbn. rewrite Ha. cbn. rewrite Hne, Hno. cbn.
  rewrite Hvc. cbn. rewrite Hac. cbn.
  destruct (audio_duration >? video_duration); cbn.
  all: match goal with |- context [env ?c ?s] => destruct (env c s) as [[[]|e] s3] end; cbn.
  all: try (match goal with |- context [files ?s !! ?p] => destruct (files s !! p) end; cbn).
  all: rewrite ?calls_log, ?calls_app, ?calls_log; cbn; rewrite <- ?app_assoc; reflexivity.
Qed.

Lemma pytube_returns_path url out res (w : world X) r w1 :
  downloader.download_with_pytube env url out res w = (Val r, w1) -> r = Some out.
Proof.
  unfold downloader.download_with_pytube. run_all.
  all: intros H; inversion H; reflexivity.
Qed.

(** X16.  When the pytube attempt goes through, the stage is over: the file is
    at the requested path and no child process is started, so yt-dlp is
    not run. *)
Theorem pytube_success_skips_yt_dlp url out res (w : world X) r w1 :
  downloader.download_with_pytube env url out res
    (logged "utils.downloader" INFO ("Downloading YouTube video: " +:+ url) w)
    = (Val r, w1) ->
  downloader.download_youtube_video env url out res w = (Val (Some out), w1)
  /\ file_exists (system w1) out = true
  /\ forall c, In (Call c) (trace w1) -> In (Call c) (trace w) \/ is_popen c = false.
Proof.
  intros H. pose proof (pytube_returns_path _ _ _ _ _ _ H) as ->.
  split; [apply download_pytube_ok, H|].
  split; [apply (pytube_produces env _ _ _ _ _ _ H)|].
  intros c Hc.
  pose proof (pytube_confined env url out res
                (logged "utils.downloader" INFO ("Downloading YouTube video: " +:+ url) w) c)
    as Hp.
  rewrite H in Hp. destruct (Hp Hc) as [H1|H1].
  - cbn [logged trace] in H1. apply in_app_iff in H1.
    destruct H1 as [H1|[H1|[]]]; [auto|discriminate].
  - right. apply negb_true_iff, H1.
Qed.

(** X17.  A video for which pytube finds no stream, neither at the resolution
    asked for nor at any other: the stream is asked for twice, the
    missing stream surfaces as an [AttributeError] that is logged as an
    unexpected error, and yt-dlp is run with the height taken from the
    resolution. *)
Theorem no_stream_goes_to_yt_dlp url out res (w : world X) title s1 s2 s3 :
  env (CYouTube url) (system w) = (Val title, s1) ->
  env (CStreamsFirst url (Some res)) s1 = (Val None, s2) ->
  env (CStreamsFirst url None) s2 = (Val None, s3) ->
  can_makedirs s3 (Py.dirname out) = true ->
  let run := downloader.download_youtube_video env url out res w in
  calls (trace (snd run))
  = (calls (trace w)
     ++ [Call (CYouTube url); Call (CStreamsFirst url (Some res));
         Call (CStreamsFirst url None);
         Call (CPopen (downloader.yt_dlp_cmd url out (Py.remove_char "p" res)))])%list
  /\ In "Unexpected error during download: 'NoneType' object has no attribute 'download'"
        (messages_at ERROR (trace (snd run))).
Proof.
  intros Hy Hf1 Hf2 Hmk. unfold can_makedirs in Hmk.
  apply andb_true_iff in Hmk. destruct Hmk as [Hne Hno].
  apply negb_true_iff in Hno.
  unfold downloader.download_youtube_video, downloader.download_with_pytube,
         downloader.download_video_with_yt_dlp.
  unfold bind, try_except, makedirs, log, emit, invoke, extern, path_exists,
         getsize, raise, ret. cbn.
  rewrite Hy. cbn. rewrite Hf1. cbn. rewrite Hf2. cbn. rewrite Hne, Hno. cbn.
  change (isinstance (Exc AttributeError "'NoneType' object has no attribute 'download'")
            PytubeError) with false.
  cbn. rewrite Hno. cbn.
  match goal with |- context [env ?c ?s] => destruct (env c s) as [[p|e] s4] end; cbn.
  1: destruct (negb (returncode p =? 0)); cbn.
  2: match goal with |- context [files ?s !! ?q] => destruct (files s !! q) end; cbn.
  all: rewrite ?isinstance_same; cbn.
  all: try (match goal with |- context [isinstance ?e0 ?k] =>
              destruct (isinstance e0 k) end; cbn).
  all: split;
    [ rewrite ?calls_log, ?calls_app, ?calls_log; cbn;
      rewrite ?calls_app, ?calls_log; cbn; rewrite <- ?app_assoc; reflexivity
    | apply (logged_in_messages "utils.downloader"); cbn; find_in ].
Qed.

End Engines.

Lemma moviepy_trims_longer_audio_witness :
  let video := "/app/outputs/temp_video.mp4" in
  let audio := "/app/outputs/dubbed_audio.wav" in
  let out := "/app/outputs/dubbed_video.mp4" in
  calls (trace (snd (video_merger.merge_video_audio_moviepy (Cases.moviepy_clips 30 45)
                       video audio out
                       (Scenario.disk [(video, "video"); (audio, "speech")]))))
  = [Call (CVideoFileClip video); Call (CAudioFileClip audio);
     Call (CWriteVideofile out video audio (Some 30))].
Proof.
  intros video audio out.
  apply (moviepy_trims_longer_audio (Cases.moviepy_clips 30 45) video audio out
           (Scenario.disk [(video, "video"); (audio, "speech")]) 30 45
           (system (Scenario.disk [(video, "video"); (audio, "speech")]))
           (system (Scenario.disk [(video, "video"); (audio, "speech")])));
    vm_compute; reflexivity.
Defined.

Lemma pytube_success_skips_yt_dlp_witness :
  fst (downloader.download_youtube_video Scenario.only_pytube_works
         "https://youtu.be/x" "/app/outputs/temp_video.mp4" "720p" (Scenario.disk []))
  = Val (Some "/app/outputs/temp_video.mp4").
Proof.
  rewrite (proj1 (pytube_success_skips_yt_dlp Scenario.only_pytube_works
                    "https://youtu.be/x" "/app/outputs/temp_video.mp4" "720p"
                    (Scenario.disk []) (Some "/app/outputs/temp_video.mp4")
                    (snd (downloader.download_with_pytube Scenario.only_pytube_works
                            "https://youtu.be/x" "/app/outputs/temp_video.mp4" "720p"
                            (logged "utils.downloader" INFO
                               "Downloading YouTube video: https://youtu.be/x"
                               (Scenario.disk []))))
                    ltac:(vm_compute; reflexivity))).
  reflexivity.
Defined.

Lemma no_stream_goes_to_yt_dlp_witness :
  let url := "https://youtu.be/x" in
  let out := "/app/outputs/temp_video.mp4" in
  let w := Scenario.disk [] in
  calls (trace (snd (downloader.download_youtube_video Cases.no_stream url out "720p" w)))
  = (calls (trace w)
     ++ [Call (CYouTube url); Call (CStreamsFirst url (Some "720p"));
         Call (CStreamsFirst url None);
         Call (CPopen (downloader.yt_dlp_cmd url out "720"))])%list.
Proof.
  intros url out w.
  refine (proj1 (no_stream_goes_to_yt_dlp Cases.no_stream url out "720p" w
                   "title" (system w) (system w) (system w) _ _ _ _));
    vm_compute; reflexivity.
Defined.

(** ** What a successful run has produced *)

Section Result.

Context {X : Type} (cfg : Settings) (env : Env X) (a : main.args).

Lemma step_final_ok s (w : world X) s' w' :
  main.step cfg env a s w = (Val s', w') -> final_ok cfg s w -> final_ok cfg s' w'.
Proof.
  intros H Hs.
  destruct s; cbn [main.step] in H;
    try (inversion H; subst; exact Hs);
    (eapply after_stage in H;
       [|first [apply get_file_size_mb_looks | apply read_file_looks]]);
    (destruct H as [->|(p & -> & Hp & Hrun)]; [exact I|]); try exact I.
  apply (merge_produces env _ _ _ _ _ _ _ Hrun).
Qed.

Lemma steps_final_ok n s (w : world X) s' w' :
  main.steps cfg env a n s w = (Val s', w') -> final_ok cfg s w -> final_ok cfg s' w'.
Proof.
  revert s w. induction n as [|n IH]; intros s w H Hs.
  - inversion H; subst. exact Hs.
  - cbn [main.steps] in H. rewrite run_bind in H.
    destruct (main.step cfg env a s w) as [[s1|e] w1] eqn:E; [|discriminate].
    eapply IH; [exact H|]. eapply step_final_ok; eauto.
Qed.

(** X18.  A path returned by [process_video] is the configured output path,
    and the dubbed video is there when the function returns. *)
Theorem pipeline_result_is_output (w : world X) p w' :
  main.process_video cfg env a w = (Val (Some p), w') ->
  p = OUTPUT_VIDEO_PATH cfg /\ file_exists (system w') p = true.
Proof.
  unfold main.process_video. rewrite run_try, run_bind.
  destruct (banner_run a w) as (wb & Hb & _ & _). rewrite Hb.
  rewrite run_bind.
  destruct (main.steps cfg env a 6 main.Acquiring wb) as [[final|e] w1] eqn:E.
  2: { rewrite run_bind, run_log. discriminate. }
  pose proof (steps_final_ok _ _ _ _ _ E I) as Hfinal.
  destruct final; try discriminate.
  rewrite !run_bind, !run_log. cbn. intros H. inversion H; subst. exact Hfinal.
Qed.

End Result.

Lemma pipeline_result_is_output_witness :
  "/app/outputs/dubbed_video.mp4" = OUTPUT_VIDEO_PATH Scenario.cfg
  /\ file_exists
       (system (snd (main.process_video Scenario.cfg (Scenario.all_work "hello")
                       Scenario.default_args (Scenario.disk []))))
       "/app/outputs/dubbed_video.mp4" = true.
Proof.
  apply (pipeline_result_is_output Scenario.cfg (Scenario.all_work "hello")
           Scenario.default_args (Scenario.disk [])).
  vm_compute. reflexivity.
Defined.

(** ** The test sample and the direct cloning of the test scripts *)

Lemma append_cancel (d a b : string) : d +:+ a = d +:+ b -> a = b.
Proof.
  induction d as [|c d IH]; simpl; [auto|]. intros H. inversion H. auto.
Qed.

Section Samples.

Context {X : Type} (cfg : Settings) (env : Env X).

Lemma sample_paths_differ :
  create_test_audio.temp_mp3_path cfg <> create_test_audio.test_audio_path cfg.
Proof.
  unfold create_test_audio.temp_mp3_path, create_test_audio.test_audio_path, Py.join.
  cbn [Py.startswith String.prefix Ascii.eqb Bool.eqb].
  destruct (_ || _)%bool; intros H; apply append_cancel in H; discriminate.
Qed.

(** X19.  [create_test_audio] returns one of two paths.  It returns the WAV
    path only when the converter was run and the MP3 it was made from has
    been removed; in every other case that does not raise, it returns the
    MP3 path. *)
Theorem create_test_audio_result (w : world X) p w' :
  create_test_audio.create_test_audio cfg env w = (Val p, w') ->
  (p = create_test_audio.test_audio_path cfg
   /\ files (system w') !! create_test_audio.temp_mp3_path cfg = None
   /\ In (Call (CPopen (create_test_audio.convert_cmd cfg))) (trace w'))
  \/ (p = create_test_audio.temp_mp3_path cfg
      /\ p <> create_test_audio.test_audio_path cfg).
Proof.
  unfold create_test_audio.create_test_audio, create_test_audio.run_checked, remove_file.
  generalize sample_paths_differ.
  generalize (create_test_audio.convert_cmd cfg) as cmd.
  generalize (create_test_audio.temp_mp3_path cfg) as mp3.
  generalize (create_test_audio.test_audio_path cfg) as wav.
  generalize (create_test_audio.samples_dir cfg) as dir.
  intros dir wav mp3 cmd Hdiff.
  run_all.
  all: intros H; inversion H; subst; clear H.
  all: first [ right; split; [reflexivity | exact Hdiff]
             | left; split; [reflexivity|]; split;
               [cbn; apply lookup_delete_eq | cbn; find_in] ].
Qed.

(** X20.  [clone_voice_directly] returns a path only after it has seen the file
    at that path, and turns every failure of the model into [None]; but
    the two imports are outside its [try], so it raises exactly when they
    do. *)
Theorem direct_cloning_checks_file text speaker_wav target_lang out (w : world X) :
  let run := test_voice_cloner_with_env.clone_voice_directly env
               text speaker_wav target_lang out w in
  (forall p, fst run = Val (Some p) ->
             p = out /\ file_exists (system (snd run)) out = true)
  /\ ((exists e, fst run = Raise e)
      <-> exists e, fst (env CImportTTS (system w)) = Raise e).
Proof.
  unfold test_voice_cloner_with_env.clone_voice_directly.
  generalize (xtts_lang target_lang) as code. intros code.
  unfold bind, try_except, invoke, extern, path_exists, ret. cbn.
  destruct (env CImportTTS (system w)) as [[[]|e0] s1]; cbn.
  2: { split; [intros p H; discriminate | split; eauto]. }
  assert (Hno : forall A (a : A) (s : sys X), (exists e, Val a = Raise e) <->
                                         exists e, @Val unit tt = Raise e).
  { intros A a s. split; intros [e H]; discriminate. }
  destruct (env CCudaIsAvailable s1) as [[gpu|e1] s2]; cbn.
  2: { split; [intros p H; discriminate | apply Hno; exact s1]. }
  destruct (env (CTTSLoad xtts_v2 gpu) s2) as [[[]|e2] s3]; cbn.
  2: { split; [intros p H; discriminate | apply Hno; exact s1]. }
  destruct (env (CTTSToFile xtts_v2 text (Some out) (Some speaker_wav) (Some code)) s3)
    as [[[]|e3] s4]; cbn.
  2: { split; [intros p H; discriminate | apply Hno; exact s1]. }
  destruct (file_exists s4 out) eqn:Hf; cbn.
  - split; [intros p H; inversion H; subst; split; [reflexivity | exact Hf]
           | apply Hno; exact s1].
  - split; [intros p H; discriminate | apply Hno; exact s1].
Qed.

End Samples.

Lemma create_test_audio_result_witness :
  let run := create_test_audio.create_test_audio Scenario.cfg (Cases.sample_maker 0)
               (Scenario.disk []) in
  let p := "/app/outputs/samples/test_reference_audio.wav" in
  (p = create_test_audio.test_audio_path Scenario.cfg
   /\ files (system (snd run)) !! create_test_audio.temp_mp3_path Scenario.cfg = None
   /\ In (Call (CPopen (create_test_audio.convert_cmd Scenario.cfg))) (trace (snd run)))
  \/ (p = create_test_audio.temp_mp3_path Scenario.cfg
      /\ p <> create_test_audio.test_audio_path Scenario.cfg).
Proof.
  intros run p.
  apply (create_test_audio_result Scenario.cfg (Cases.sample_maker 0) (Scenario.disk [])).
  vm_compute. reflexivity.
Defined.

Lemma direct_cloning_checks_file_witness :
  let w := Scenario.disk [("/app/ref.wav", "voice")] in
  let run := test_voice_cloner_with_env.clone_voice_directly Scenario.xtts_works
               "hello" "/app/ref.wav" "en" "/app/outputs/cloned_en_env.wav" w in
  "/app/outputs/cloned_en_env.wav" = "/app/outputs/cloned_en_env.wav"
  /\ file_exists (system (snd run)) "/app/outputs/cloned_en_env.wav" = true.
Proof.
  intros w run.
  apply (proj1 (direct_cloning_checks_file Scenario.xtts_works
                  "hello" "/app/ref.wav" "en" "/app/outputs/cloned_en_env.wav" w)).
  vm_compute. reflexivity.
Defined.

(** ** Counting events: the loops of the test scripts *)

Section Counting.

Context {X : Type} (f : event -> bool).

Lemma occurrences_app (t u : list event) :
  occurrences f (t ++ u) = (occurrences f t + occurrences f u)%nat.
Proof. unfold occurrences. rewrite List.filter_app, length_app. reflexivity. Qed.

Lemma adds_ret {A} (a : A) : adds f 0 (ret (X:=X) a).
Proof. intros w. simpl. lia. Qed.

Lemma adds_raise {A} e : adds f 0 (raise (X:=X) (A:=A) e).
Proof. intros w. simpl. lia. Qed.

Lemma adds_emit ev : adds f (if f ev then 1 else 0) (emit (X:=X) ev).
Proof.
  intros w. unfold emit. cbn [snd trace]. rewrite occurrences_app.
  unfold occurrences. simpl. destruct (f ev); reflexivity.
Qed.

Lemma adds_log name lvl msg :
  f (Log name lvl msg) = false -> adds f 0 (log (X:=X) name lvl msg).
Proof. intros H. pose proof (adds_emit (Log name lvl msg)) as Ha. rewrite H in Ha. exact Ha. Qed.

Lemma adds_invoke (env : Env X) c :
  f (Call c) = false -> adds f 0 (invoke env c).
Proof.
  intros H w. unfold invoke, extern. destruct (env c (system w)) as [r s].
  cbn [snd trace]. rewrite occurrences_app. unfold occurrences. simpl.
  rewrite H. reflexivity.
Qed.

Lemma adds_path_exists p : adds f 0 (path_exists (X:=X) p).
Proof. intros w. simpl. lia. Qed.

Lemma adds_getsize p : adds f 0 (getsize (X:=X) p).
Proof. intros w. unfold getsize. destruct (files _ !! p); simpl; lia. Qed.

Lemma adds_makedirs d : adds f 0 (makedirs (X:=X) d).
Proof.
  intros w. unfold makedirs.
  destruct (negb (Py.nonempty d)); [simpl; lia|].
  destruct (file_exists _ d); simpl; lia.
Qed.

Lemma adds_read_file p : adds f 0 (read_file (X:=X) p).
Proof. intros w. unfold read_file. destruct (files _ !! p); simpl; lia. Qed.

Lemma adds_write_file p s : adds f 0 (write_file (X:=X) p s).
Proof. intros w. simpl. lia. Qed.

Lemma adds_remove_file p : adds f 0 (remove_file (X:=X) p).
Proof. intros w. unfold remove_file. destruct (files _ !! p); simpl; lia. Qed.

(** Nothing is added after [m], so it does not matter whether [m]
    returns. *)
Lemma adds_bind {A B} n (m : M X A) (k : A -> M X B) :
  adds f n m -> (forall a, adds f 0 (k a)) -> adds f n (bind m k).
Proof.
  intros Hm Hk w. rewrite run_bind. specialize (Hm w).
  destruct (m w) as [[a|e] w']; cbn [snd] in *; [|exact Hm].
  rewrite (Hk a w'), Hm. lia.
Qed.

Lemma adds_try {A} n (m : M X A) (h : exn -> M X A) :
  adds f n m -> (forall e, adds f 0 (h e)) -> adds f n (try_except m h).
Proof.
  intros Hm Hh w. rewrite run_try. specialize (Hm w).
  destruct (m w) as [[a|e] w']; cbn [snd] in *; [exact Hm|].
  rewrite (Hh e w'), Hm. lia.
Qed.

(** After a computation that returns. *)
Lemma adds_seq {A B} n j (m : M X A) (k : A -> M X B) :
  returns_normally m -> adds f n m -> (forall a, adds f j (k a)) ->
  adds f (n + j) (bind m k).
Proof.
  intros Hn Hm Hk w. rewrite run_bind. specialize (Hm w).
  destruct (Hn w) as (a & w' & E). rewrite E in *. cbn [snd] in Hm.
  rewrite (Hk a w'), Hm. lia.
Qed.

Lemma adds_for_each {A} (l : list A) (body : A -> M X unit) :
  (forall x, returns_normally (body x)) -> (forall x, adds f 1 (body x)) ->
  adds f (length l) (for_each l body) /\ returns_normally (for_each l body).
Proof.
  intros Hn Hb. induction l as [|x l [IH1 IH2]]; cbn [for_each length].
  - split; [apply adds_ret | apply normal_ret].
  - split.
    + change (S (length l)) with (1 + length l)%nat.
      apply adds_seq; [apply Hn | apply Hb | intros _; exact IH1].
    + apply normal_bind; [apply Hn | intros _; exact IH2].
Qed.

End Counting.

Ltac keeps :=
  repeat first
    [ apply adds_ret
    | apply adds_raise
    | apply adds_path_exists
    | apply adds_getsize
    | apply adds_makedirs
    | apply adds_read_file
    | apply adds_write_file
    | apply adds_remove_file
    | apply adds_log; reflexivity
    | apply adds_invoke; reflexivity
    | apply adds_bind; [|intros ?]
    | apply adds_try; [|intros ?]
    | progress cbv beta iota zeta
    | match goal with
      | |- adds _ _ (if ?b then _ else _) => destruct b
      | |- adds _ _ (match ?x with _ => _ end) => destruct x
      end ].

Section Scripts.

Context {X : Type} (cfg : Settings) (env : Env X).

#[local] Abbreviation attempting :=
  (is_line "Attempting to generate speech using fallback method...").

Lemma create_test_audio_adds f :
  (forall c, c <> CImportTTS -> f (Call c) = false) ->
  adds f 0 (create_test_audio.create_test_audio cfg env).
Proof.
  intros Hc. unfold create_test_audio.create_test_audio, create_test_audio.run_checked.
  repeat first
    [ apply adds_ret | apply adds_raise | apply adds_makedirs | apply adds_remove_file
    | apply adds_invoke; apply Hc; discriminate
    | apply adds_bind; [|intros ?]
    | apply adds_try; [|intros ?]
    | match goal with |- adds _ _ (if ?b then _ else _) => destruct b end ].
Qed.

Lemma cloner_fallback_attempts text spk target out :
  adds attempting 1
    (voice_cloner_fallback.clone_voice_and_speak cfg env text spk target out).
Proof.
  unfold voice_cloner_fallback.clone_voice_and_speak.
  change 1%nat with (1 + 0)%nat.
  apply adds_seq; [apply normal_log | apply (adds_emit attempting) | intros _].
  unfold voice_cloner_fallback.try_xtts, voice_cloner_fallback.clone_voice_fallback.
  keeps.
Qed.

Lemma direct_cloning_imports text spk target out :
  adds is_import_tts 1
    (test_voice_cloner_with_env.clone_voice_directly env text spk target out).
Proof.
  unfold test_voice_cloner_with_env.clone_voice_directly.
  intros w. rewrite run_bind. unfold invoke at 1, extern.
  destruct (env CImportTTS (system w)) as [[[]|e] s1];
    cbn [snd trace]; [|rewrite occurrences_app; reflexivity].
  match goal with |- context [try_except ?m ?h ?w0] =>
    assert (Hrest : adds is_import_tts 0 (try_except m h)) by keeps;
    rewrite (Hrest w0) end.
  cbn [trace]. rewrite occurrences_app. cbn. lia.
Qed.

(** X21.  The loops of the two test scripts attempt every case, whatever
    happens to the cases before it: a run of [main] that does not fail
    while making the voice sample has started the synthesis three times
    (twice for the script with the environment variable), and returns.
    A run that fails there has attempted none. *)
Theorem test_scripts_attempt_every_case (w : world X) :
  let run := test_voice_cloner.main cfg env w in
  let run' := test_voice_cloner_with_env.main cfg env w in
  ((fst run = Val tt
    /\ occurrences attempting (trace (snd run))
       = (occurrences attempting (trace w) + 3)%nat)
   \/ ((exists e, fst run = Raise e)
       /\ occurrences attempting (trace (snd run)) = occurrences attempting (trace w)))
  /\ ((fst run' = Val tt
       /\ occurrences is_import_tts (trace (snd run'))
          = (occurrences is_import_tts (trace w) + 2)%nat)
      \/ ((exists e, fst run' = Raise e)
          /\ occurrences is_import_tts (trace (snd run'))
             = occurrences is_import_tts (trace w))).
Proof.
  assert (Hprefix : forall (f : event -> bool) n (loop : string -> M X unit),
    (forall c, c <> CImportTTS -> f (Call c) = false) ->
    (forall p, adds f n (loop p) /\ returns_normally (loop p)) ->
    let run :=
      (makedirs (Py.join (OUTPUTS_DIR cfg) "samples");;
       found <- path_exists (Py.join (Py.join (OUTPUTS_DIR cfg) "samples")
                               "test_reference_audio.wav");;
       sample_path <-
         (if negb found then create_test_audio.create_test_audio cfg env
          else ret (Py.join (Py.join (OUTPUTS_DIR cfg) "samples")
                      "test_reference_audio.wav"));;
       loop sample_path) w in
    (fst run = Val tt
     /\ occurrences f (trace (snd run)) = (occurrences f (trace w) + n)%nat)
    \/ ((exists e, fst run = Raise e)
        /\ occurrences f (trace (snd run)) = occurrences f (trace w))).
  { intros f n loop Hc Hloop. cbv zeta.
    rewrite run_bind.
    pose proof (adds_makedirs (X:=X) f (Py.join (OUTPUTS_DIR cfg) "samples") w) as Hm.
    destruct (makedirs _ w) as [[[]|e] w1]; cbn [snd] in Hm.
    2: { right. cbn [fst snd]. split; [eauto | lia]. }
    rewrite run_bind. cbn [path_exists]. rewrite run_bind.
    assert (Hs : forall m : M X string, adds f 0 m ->
              let run := (sample_path <- m;; loop sample_path) w1 in
              (fst run = Val tt
               /\ occurrences f (trace (snd run)) = (occurrences f (trace w) + n)%nat)
              \/ ((exists e, fst run = Raise e)
                  /\ occurrences f (trace (snd run)) = occurrences f (trace w))).
    { intros m Hadd. cbv zeta. rewrite run_bind. specialize (Hadd w1).
      destruct (m w1) as [[p|e] w2]; cbn [snd] in Hadd.
      - destruct (Hloop p) as [Ha Hn]. specialize (Ha w2).
        destruct (Hn w2) as ([] & w3 & E). rewrite E in *. cbn [fst snd] in *.
        left. split; [reflexivity | lia].
      - right. cbn [fst snd]. split; [eauto | lia]. }
    destruct (negb _); apply Hs; [apply create_test_audio_adds; assumption | apply adds_ret]. }
  split.
  - apply (Hprefix attempting 3%nat
             (fun sample_path =>
                for_each test_voice_cloner.test_cases
                  (fun case =>
                     try_except
                       (voice_cloner_fallback.clone_voice_and_speak cfg env
                          (snd case) (Some sample_path) (fst case)
                          (Some (Py.join (OUTPUTS_DIR cfg)
                                   ("cloned_" +:+ fst case +:+ "_fallback.mp3")));;
                        ret tt)
                       (fun e => ret tt)))).
    + intros c Hc. reflexivity.
    + intros p. apply (adds_for_each attempting test_voice_cloner.test_cases).
      * intros x. apply normal_try. intros e. apply normal_ret.
      * intros x. apply adds_try; [|intros e; apply adds_ret].
        apply adds_bind; [apply cloner_fallback_attempts | intros r; apply adds_ret].
  - apply (Hprefix is_import_tts 2%nat
             (fun sample_path =>
                for_each test_voice_cloner_with_env.test_cases
                  (fun case =>
                     try_except
                       (test_voice_cloner_with_env.clone_voice_directly env
                          (snd case) sample_path (fst case)
                          (Py.join (OUTPUTS_DIR cfg)
                             ("cloned_" +:+ fst case +:+ "_env.wav"));;
                        ret tt)
                       (fun e => ret tt)))).
    + intros c Hc. destruct c; try reflexivity. congruence.
    + intros p. apply (adds_for_each is_import_tts test_voice_cloner_with_env.test_cases).
      * intros x. apply normal_try. intros e. apply normal_ret.
      * intros x. apply adds_try; [|intros e; apply adds_ret].
        apply adds_bind; [apply direct_cloning_imports | intros r; apply adds_ret].
Qed.

End Scripts.

(** ** The logger *)

Lemma replace_first_eq s old new :
  replace_first s old new
  = if String.prefix old s then
      new +:+ String.substring (String.length old) (String.length s - String.length old) s
    else
      match s with
      | EmptyString => EmptyString
      | String c r => String c (replace_first r old new)
      end.
Proof. destruct s; reflexivity. Qed.

Lemma prefix_append (a b : string) : String.prefix a (a +:+ b) = true.
Proof.
  induction a as [|c a IH].
  - change ("" +:+ b) with b. destruct b; reflexivity.
  - change (String c a +:+ b) with (String c (a +:+ b)). simpl.
    destruct (ascii_dec c c); [exact IH | congruence].
Qed.

Lemma length_append (a b : string) :
  String.length (a +:+ b) = (String.length a + String.length b)%nat.
Proof.
  induction a as [|c a IH]; [reflexivity|].
  change (String c a +:+ b) with (String c (a +:+ b)). simpl. rewrite IH. reflexivity.
Qed.

Lemma substring_all (b : string) : String.substring 0 (String.length b) b = b.
Proof. induction b as [|c b IH]; simpl; [reflexivity | rewrite IH; reflexivity]. Qed.

Lemma substring_append (a b : string) :
  String.substring (String.length a) (String.length b) (a +:+ b) = b.
Proof.
  induction a as [|c a IH].
  - change ("" +:+ b) with b. apply substring_all.
  - change (String c a +:+ b) with (String c (a +:+ b)). simpl. exact IH.
Qed.

(** The first occurrence of a string in a line that starts with it is
    that start. *)
Lemma replace_first_prefix (old rest new : string) :
  replace_first (old +:+ rest) old new = new +:+ rest.
Proof.
  rewrite replace_first_eq, prefix_append, length_append.
  replace (String.length old + String.length rest - String.length old)%nat
    with (String.length rest) by lia.
  rewrite substring_append. reflexivity.
Qed.

(** X22.  On the console, the colour goes to the level name that starts the
    line and to nothing else: the message is shown as it is, also when it
    contains the name of the level.  A level that has no colour is shown
    plain. *)
Theorem console_line_keeps_message levelname message :
  logger.console_line levelname message
  = (if dict_has logger.COLORS levelname
     then dict_get logger.COLORS levelname "" +:+ levelname +:+ logger.Colors.RESET
     else levelname)
    +:+ ": " +:+ message.
Proof.
  unfold logger.console_line, logger.format, logger.console_format.
  destruct (dict_has logger.COLORS levelname); [|reflexivity].
  cbv zeta. apply replace_first_prefix.
Qed.

Section Loggers.

Context (cfg : Settings).

Lemma lookup_logger_insert name l (loggers : logger.registry) disk tr :
  logger.lookup_logger name
    {| system := {| outside := <[name := l]> loggers; files := disk |};
       trace := tr |} = l.
Proof.
  unfold logger.lookup_logger. cbn [system outside].
  rewrite lookup_insert_eq. reflexivity.
Qed.

(** X23.  What [setup_logger] does to a logger that has no handler yet.  When
    the log directory can be made, the logger gets the level [INFO] and
    two handlers, console first, and the log file is there.  When it
    cannot, the function raises after the console handler was added: the
    logger is left with that one handler. *)
Theorem setup_logger_fresh name (w : world logger.registry) :
  logger.handlers (logger.lookup_logger name w) = [] ->
  let run := logger.setup_logger cfg name w in
  let after := logger.lookup_logger name (snd run) in
  logger.level after = 20
  /\ if can_makedirs (system w) (logger.LOGS_DIR cfg) then
       fst run = Val name
       /\ logger.handlers after = [console_handler; file_handler cfg]
       /\ file_exists (system (snd run)) (logger.LOG_FILE cfg) = true
     else
       (exists e, fst run = Raise e)
       /\ logger.handlers after = [console_handler]
       /\ files (system (snd run)) = files (system w).
Proof.
  intros Hh. unfold logger.setup_logger, can_makedirs.
  rewrite run_bind. cbn [logger.getLogger]. rewrite Hh.
  change (logger.logging_level logger.LOG_LEVEL) with (Some 20).
  unfold logger.setLevel, logger.addHandler, logger.update_logger, logger.open_append,
         makedirs, bind, ret, file_exists.
  cbn [system files outside trace].
  rewrite !lookup_logger_insert. cbn [logger.level logger.handlers]. rewrite Hh.
  destruct (Py.nonempty (logger.LOGS_DIR cfg)); cbn [negb andb].
  2: { cbn [fst snd]. rewrite lookup_logger_insert. cbn [logger.level logger.handlers app].
       eauto. }
  destruct (bool_decide (is_Some (files (system w) !! logger.LOGS_DIR cfg)));
    cbn [negb].
  { cbn [fst snd]. rewrite lookup_logger_insert. cbn [logger.level logger.handlers app].
    eauto. }
  match goal with |- context [match ?x with Some _ => _ | None => _ end] =>
    destruct x as [c|] eqn:Hf end;
    cbn [system files] in Hf;
    cbn [fst snd system files outside trace];
    rewrite !lookup_logger_insert; cbn [logger.level logger.handlers app];
    (split; [reflexivity|]); (split; [reflexivity|]); (split; [reflexivity|]);
    apply bool_decide_eq_true_2.
  - rewrite Hf. eauto.
  - rewrite lookup_insert_eq. eauto.
Qed.

Lemma setup_logger_has_handlers name (w : world logger.registry) :
  logger.handlers (logger.lookup_logger name (snd (logger.setup_logger cfg name w))) <> [].
Proof.
  destruct (logger.handlers (logger.lookup_logger name w)) as [|h hs] eqn:Hh.
  - destruct (setup_logger_fresh name w Hh) as [_ H].
    destruct (can_makedirs _ _); destruct H as (_ & -> & _); discriminate.
  - unfold logger.setup_logger. rewrite run_bind. cbn [logger.getLogger].
    rewrite Hh. cbn. rewrite Hh. discriminate.
Qed.

(** X24.  Handlers are never added twice.  Once [setup_logger] has been called
    for a name, whether it returned or raised, calling it again returns
    the logger and changes nothing; so a logger whose set-up failed stays
    as the failure left it.  Loggers of other names are not touched. *)
Theorem setup_logger_again name (w : world logger.registry) :
  let w1 := snd (logger.setup_logger cfg name w) in
  logger.setup_logger cfg name w1 = (Val name, w1)
  /\ forall other, other <> name ->
       logger.lookup_logger other w1 = logger.lookup_logger other w.
Proof.
  intros w1. split.
  - pose proof (setup_logger_has_handlers name w) as Hh. fold w1 in Hh.
    unfold logger.setup_logger at 1. rewrite run_bind. cbn [logger.getLogger].
    destruct (logger.handlers (logger.lookup_logger name w1)); [congruence|reflexivity].
  - intros other Hother. subst w1.
    unfold logger.setup_logger. rewrite run_bind. cbn [logger.getLogger].
    destruct (logger.handlers (logger.lookup_logger name w)); [|reflexivity].
    change (logger.logging_level logger.LOG_LEVEL) with (Some 20).
    unfold logger.setLevel, logger.addHandler, logger.update_logger, logger.open_append,
           makedirs, bind, ret.
    cbn [system files outside trace].
    destruct (negb _); [|destruct (file_exists _ _); [|destruct (files _ !! _)]];
      unfold logger.lookup_logger; cbn;
      rewrite ?lookup_insert_ne by congruence; reflexivity.
Qed.

End Loggers.

Lemma setup_logger_fresh_witness :
  let run := logger.setup_logger Scenario.cfg "utils.tts"
               (Cases.fresh [("/app/logs", "not a directory")]) in
  let after := logger.lookup_logger "utils.tts" (snd run) in
  logger.level after = 20
  /\ (exists e, fst run = Raise e)
  /\ logger.handlers after = [console_handler]
  /\ files (system (snd run))
     = files (system (Cases.fresh [("/app/logs", "not a directory")])).
Proof.
  exact (setup_logger_fresh Scenario.cfg "utils.tts"
           (Cases.fresh [("/app/logs", "not a directory")]) eq_refl).
Defined.

Lemma setup_logger_again_witness :
  logger.lookup_logger "utils.tts"
    (snd (logger.setup_logger Scenario.cfg "__main__" (Cases.fresh [])))
  = logger.lookup_logger "utils.tts" (Cases.fresh []).
Proof.
  apply (proj2 (setup_logger_again Scenario.cfg "__main__" (Cases.fresh []))).
  discriminate.
Defined.

(** ** The recorder *)

Section Recorder.

Context {X : Type} (cfg : Settings) (env : Env X) (mic : Mic X).

Lemma raises_bind_l {A B} (m : M X A) (k : A -> M X B) :
  always_raises m -> always_raises (bind m k).
Proof. intros Hm w. rewrite run_bind. destruct (Hm w) as (e & w' & ->). eauto. Qed.

Lemma raises_bind_r {A B} (m : M X A) (k : A -> M X B) :
  (forall a, always_raises (k a)) -> always_raises (bind m k).
Proof.
  intros Hk w. rewrite run_bind. destruct (m w) as [[a|e] w']; [apply Hk | eauto].
Qed.

Lemma read_frames_needs_rate n i frames :
  always_raises (audio_recorder.read_frames mic (S n) i 0 frames).
Proof.
  cbn [audio_recorder.read_frames]. apply raises_bind_r. intros data.
  apply raises_bind_l. intros w. unfold py_mod. cbn. unfold raise. eauto.
Qed.

(** X25.  A sample rate of absolute value below the chunk size of 1024, with a
    duration long enough for one chunk: the loop divides by zero at its
    first turn, so [record_audio] returns [None] whatever the microphone
    does. *)
Theorem low_sample_rate_never_records output_path sample_rate channels duration
    (w : world X) :
  -1024 < sample_rate < 1024 ->
  1024 <= sample_rate * duration ->
  fst (audio_recorder.record_audio cfg env mic
         output_path sample_rate channels duration w) = Val None.
Proof.
  intros Hrate Hlong. unfold audio_recorder.record_audio. rewrite run_try.
  assert (Hq : Z.quot sample_rate audio_recorder.chunk = 0).
  { apply Z.quot_small_iff; [discriminate|]. unfold audio_recorder.chunk.
    destruct (Z.abs_spec sample_rate) as [[_ ->]|[_ ->]]; lia. }
  assert (Hn : exists n, Z.to_nat (Z.quot (sample_rate * duration) audio_recorder.chunk)
                         = S n).
  { assert (1 <= Z.quot (sample_rate * duration) audio_recorder.chunk).
    { unfold audio_recorder.chunk. rewrite Z.quot_div_nonneg by lia.
      apply Z.div_le_lower_bound; lia. }
    exists (Z.to_nat (Z.quot (sample_rate * duration) audio_recorder.chunk) - 1)%nat. lia. }
  destruct Hn as [n Hn]. rewrite Hq, Hn.
  match goal with |- context [match ?m w with _ => _ end] =>
    assert (Hr : always_raises m) end.
  { apply raises_bind_r. intros p.
    apply raises_bind_r. intros _. apply raises_bind_r. intros _.
    apply raises_bind_r. intros _. apply raises_bind_r. intros _.
    apply raises_bind_l. apply read_frames_needs_rate. }
  destruct (Hr w) as (e & w' & ->). reflexivity.
Qed.

(** X26.  [record_audio] never raises, and a path it returns is a file that is
    there: the path it was given when it was given one. *)
Theorem record_audio_result output_path sample_rate channels duration :
  returns_normally (audio_recorder.record_audio cfg env mic
                      output_path sample_rate channels duration)
  /\ forall (w : world X) p w',
       audio_recorder.record_audio cfg env mic
         output_path sample_rate channels duration w = (Val (Some p), w') ->
       file_exists (system w') p = true
       /\ (Py.truthy output_path = true -> output_path = Some p).
Proof.
  split.
  - unfold audio_recorder.record_audio. normal.
  - intros w p w'. unfold audio_recorder.record_audio.
    rewrite run_try, run_bind.
    match goal with |- context [match ?m w with _ => _ end] =>
      assert (Hpath : forall q w1, m w = (Val q, w1) ->
                Py.truthy output_path = true -> output_path = Some q);
      [|destruct (m w) as [[q|e] w1]] end.
    { destruct output_path as [q0|]; cbn [Py.truthy negb].
      - destruct (Py.nonempty q0); cbn [negb str_opt ret].
        + intros q w1 H _. inversion H; subst. reflexivity.
        + intros q w1 _ H. discriminate.
      - intros q w1 _ H. discriminate. }
    2: { rewrite run_bind, run_log. discriminate. }
    specialize (Hpath q w1 eq_refl).
    do 15 (rewrite run_bind;
           match goal with |- context [match ?m ?w0 with _ => _ end] =>
             destruct (m w0) as [[?|?] ?] end;
           [|rewrite run_bind, run_log; discriminate]).
    rewrite run_bind.
    match goal with |- context [getsize q ?w0] =>
      unfold getsize at 1; destruct (files (system w0) !! q) as [c|] eqn:Hf end.
    2: { rewrite run_bind, run_log. discriminate. }
    rewrite run_bind, run_log. cbn [ret]. intros H. inversion H; subst.
    split; [|exact Hpath]. cbn [system]. eapply file_exists_lookup. exact Hf.
Qed.

Lemma has_input_table n a count channels (w : world X) :
  device_table mic count channels ->
  audio_recorder.has_input mic n (Z.of_nat a) w
  = (Val (existsb (fun k => channels (Z.of_nat k) >? 0) (List.seq a n)), w).
Proof.
  intros Ht. revert a. induction n as [|n IH]; intros a; [reflexivity|].
  cbn [audio_recorder.has_input]. rewrite run_bind. unfold listen.
  destruct (Ht (system w)) as (_ & _ & Hinfo & _). rewrite Hinfo.
  destruct w as [s tr]. cbn [system trace].
  cbn [List.seq existsb].
  destruct (channels (Z.of_nat a) >? 0); [reflexivity|].
  replace (Z.of_nat a + 1) with (Z.of_nat (S a)) by lia.
  rewrite IH. reflexivity.
Qed.

(** X27.  [test_audio_device] never raises.  On a sound set-up that does not
    change while it is looked at, it says whether one of the devices has
    an input channel, and leaves the world as it was. *)
Theorem test_audio_device_finds_input count channels (w : world X) :
  returns_normally (audio_recorder.test_audio_device mic)
  /\ (device_table mic count channels ->
      audio_recorder.test_audio_device mic w
      = (Val (existsb (fun k => channels (Z.of_nat k) >? 0)
                (List.seq 0 (Z.to_nat count))), w)).
Proof.
  split.
  - unfold audio_recorder.test_audio_device. normal.
  - intros Ht. unfold audio_recorder.test_audio_device.
    destruct (Ht (system w)) as (Hinit & Hcount & _ & Hterm).
    destruct w as [s tr]. cbn [system] in *.
    rewrite run_try, run_bind. unfold listen at 1. cbn [system trace]. rewrite Hinit.
    rewrite run_bind. unfold listen at 1. cbn [system trace]. rewrite Hcount.
    change 0 with (Z.of_nat 0).
    rewrite run_bind, (has_input_table _ _ count channels _ Ht).
    rewrite run_bind. unfold listen at 1. cbn [system trace]. rewrite Hterm.
    cbn [ret]. reflexivity.
Qed.

End Recorder.

Lemma low_sample_rate_never_records_witness :
  fst (audio_recorder.record_audio Scenario.cfg Scenario.nothing_works
         (Cases.microphone "x") (Some "/app/outputs/samples/ref.wav") 512 1 10
         (Scenario.disk [])) = Val None.
Proof.
  apply (low_sample_rate_never_records Scenario.cfg Scenario.nothing_works
           (Cases.microphone "x") (Some "/app/outputs/samples/ref.wav") 512 1 10
           (Scenario.disk [])); lia.
Defined.

Lemma record_audio_result_witness :
  let run := audio_recorder.record_audio Scenario.cfg Scenario.nothing_works
               (Cases.microphone "x") (Some "/app/outputs/samples/ref.wav") 2048 1 3
               (Scenario.disk []) in
  file_exists (system (snd run)) "/app/outputs/samples/ref.wav" = true
  /\ (Py.truthy (Some "/app/outputs/samples/ref.wav") = true ->
      Some "/app/outputs/samples/ref.wav" = Some "/app/outputs/samples/ref.wav").
Proof.
  intros run.
  apply (proj2 (record_audio_result Scenario.cfg Scenario.nothing_works
                  (Cases.microphone "x") (Some "/app/outputs/samples/ref.wav") 2048 1 3)
           (Scenario.disk [])).
  vm_compute. reflexivity.
Defined.

Lemma test_audio_device_finds_input_witness :
  audio_recorder.test_audio_device (Cases.microphone "x") (Scenario.disk [])
  = (Val true, Scenario.disk []).
Proof.
  apply (proj2 (test_audio_device_finds_input (Cases.microphone "x") 2
                  (fun i => if i =? 1 then 1 else 0) (Scenario.disk []))).
  intros s. repeat split.
Defined.

(** ** The command line *)

Lemma ask_until_ok ok x lines y rest :
  ask_until ok x lines = (Val y, rest) -> ok y = true.
Proof.
  revert x. induction lines as [|line lines IH]; intros x; cbn [ask_until];
    destruct (ok x) eqn:Hx.
  - intros H. inversion H; subst. exact Hx.
  - discriminate.
  - intros H. inversion H; subst. exact Hx.
  - apply IH.
Qed.

Lemma nonempty_join a b : Py.nonempty b = true -> Py.nonempty (Py.join a b) = true.
Proof.
  intros Hb. unfold Py.join. destruct (Py.startswith b "/"); [exact Hb|].
  destruct b as [|c b]; [discriminate|].
  destruct (_ || _)%bool; destruct a; reflexivity.
Qed.

Section CommandLine.

Context {X : Type} (cfg : Settings) (env : Env (console X)) (mic : Mic (console X)).
Context (HAS_AUDIO_RECORDER : bool).

#[local] Abbreviation cli_prepare := (main_cli.prepare cfg env mic HAS_AUDIO_RECORDER).
#[local] Abbreviation cli_main := (main_cli.main cfg env mic HAS_AUDIO_RECORDER).

Lemma input_until_ok ok x (w : world (console X)) y w' :
  input_until ok x w = (Val y, w') ->
  ok y (system w) = true /\ files (system w') = files (system w).
Proof.
  unfold input_until.
  destruct (ask_until _ x _) as [r rest] eqn:E.
  intros H. inversion H; subst. split; [|reflexivity].
  apply (ask_until_ok _ _ _ _ _ E).
Qed.

Lemma input_files (w : world (console X)) y w' :
  input w = (Val y, w') -> files (system w') = files (system w).
Proof.
  unfold input. destruct (stdin _); [discriminate|].
  intros H. inversion H; subst. reflexivity.
Qed.

(** X28.  The exit status is that of the pipeline: once [main] has called
    [process_video], it returns 0 exactly when the pipeline returned a
    path, and 1 otherwise.  Its own look at the file never turns a path
    the pipeline returned into a failure. *)
Theorem exit_status_follows_pipeline args (w : world (console X)) a w1 :
  cli_prepare args w = (Val (inr a), w1) ->
  cli_main args w
  = (Val (status_of (fst (main.process_video cfg env a w1))),
     snd (main.process_video cfg env a w1)).
Proof.
  intros Hp. unfold main_cli.main. rewrite run_bind, Hp.
  unfold main_cli.conclude. rewrite run_bind.
  destruct (process_video_normal cfg env a w1) as (out & w2 & E). rewrite E.
  cbn [fst snd status_of]. destruct out as [p|]; cbn [Py.truthy]; [|reflexivity].
  destruct (pipeline_result_is_output cfg env a w1 p w2 E) as [-> Hf].
  unfold OUTPUT_VIDEO_PATH. rewrite nonempty_join by reflexivity.
  rewrite run_bind. cbn [path_exists str_opt].
  unfold OUTPUT_VIDEO_PATH in Hf. rewrite Hf. reflexivity.
Qed.

(** X29.  What was typed in answer to a question is what the question allows:
    a target language that [main] asked for is not blank, an engine it
    asked for is one of the four, and a reference recording it asked for
    is a file that is there. *)
Theorem prompted_answers_are_valid args (w : world (console X)) a w' :
  cli_prepare args w = (Val (inr a), w') ->
  (asks_language args = true -> Py.nonempty (Py.strip (main.target_lang a)) = true)
  /\ (asks_engine args = true ->
      In (main.tts_engine a) ["gtts"; "voice_clone"; "bark"; "coqui"])
  /\ (String.eqb (Py.lower (main.tts_engine a)) "voice_clone" = true ->
      main_cli.record args = false ->
      Py.truthy (main_cli.reference_audio args) = false ->
      exists path, main.reference_audio a = Some path
                   /\ Py.nonempty (Py.strip path) = true
                   /\ file_exists (system w') path = true).
Proof.
  unfold main_cli.prepare, asks_language, asks_engine.
  rewrite run_bind.
  match goal with |- context [match ?m w with _ => _ end] =>
    destruct (m w) as [[url|e] w1] end; [|discriminate].
  rewrite run_bind.
  match goal with |- context [match ?m w1 with _ => _ end] =>
    assert (Hlang : forall t w2, m w1 = (Val t, w2) ->
              (negb (Py.nonempty (main_cli.target_lang args))
               || String.eqb (Py.lower (main_cli.target_lang args)) "ask")%bool = true ->
              Py.nonempty (Py.strip t) = true);
    [|destruct (m w1) as [[lang|e] w2]; [specialize (Hlang lang w2 eq_refl)|discriminate]] end.
  { intros t w2. destruct (_ || _)%bool; [|intros _ H; discriminate H].
    rewrite run_bind. destruct (input w1) as [[answer|e] w1']; [|discriminate].
    intros H _. apply input_until_ok in H. apply H. }
  rewrite run_bind.
  match goal with |- context [match ?m w2 with _ => _ end] =>
    assert (Hengine : forall t w3, m w2 = (Val t, w3) ->
              String.eqb (Py.lower (main_cli.tts_engine args)) "ask" = true ->
              In t ["gtts"; "voice_clone"; "bark"; "coqui"]);
    [|destruct (m w2) as [[engine|e] w3]; [specialize (Hengine engine w3 eq_refl)|discriminate]] end.
  { intros t w3.
    destruct (String.eqb (Py.lower (main_cli.tts_engine args)) "ask");
      [|intros _ H; discriminate H].
    rewrite run_bind. destruct (input w2) as [[answer|e] w2']; [|discriminate].
    rewrite run_bind.
    destruct (input_until _ answer w2') as [[choice|e] w2''] eqn:E; [|discriminate].
    apply input_until_ok in E. destruct E as [E _].
    intros H _. inversion H; subst. clear H.
    apply negb_true_iff, orb_false_iff in E. destruct E as [_ E].
    apply negb_false_iff in E. unfold main_cli.is_choice in E.
    repeat (apply orb_true_iff in E; destruct E as [E|E]);
      apply String.eqb_eq in E; subst choice; vm_compute; auto. }
  destruct (String.eqb (Py.lower engine) "voice_clone") eqn:Hvc.
  2: { intros H. inversion H; subst. cbn [main.target_lang main.tts_engine].
       split; [exact Hlang|]. split; [exact Hengine|].
       rewrite Hvc. discriminate. }
  destruct (main_cli.record args) eqn:Hrec.
  { destruct (negb HAS_AUDIO_RECORDER); [discriminate|].
    rewrite run_bind.
    destruct (audio_recorder.test_audio_device mic w3) as [[available|e] w4]; [|discriminate].
    destruct (negb available); [discriminate|].
    rewrite run_bind.
    destruct (audio_recorder.record_audio _ _ _ _ _ _ _ w4) as [[recorded|e] w5];
      [|discriminate].
    destruct (negb (Py.truthy recorded)); [discriminate|].
    intros H. inversion H; subst. cbn [main.target_lang main.tts_engine].
    split; [exact Hlang|]. split; [exact Hengine|]. intros _ H'. discriminate. }
  destruct (negb (Py.truthy (main_cli.reference_audio args))) eqn:Href.
  2: { intros H. inversion H; subst. cbn [main.target_lang main.tts_engine].
       split; [exact Hlang|]. split; [exact Hengine|].
       intros _ _ H'. rewrite H' in Href. discriminate. }
  rewrite run_bind. destruct (input w3) as [[answer|e] w4]; [|discriminate].
  rewrite run_bind.
  destruct (input_until _ answer w4) as [[path|e] w5] eqn:E; [|discriminate].
  apply input_until_ok in E. destruct E as [E Hfiles].
  intros H. inversion H; subst. cbn [main.target_lang main.tts_engine main.reference_audio].
  split; [exact Hlang|]. split; [exact Hengine|]. intros _ _ _.
  apply negb_true_iff, orb_false_iff in E. destruct E as [E1 E2].
  apply negb_false_iff in E1, E2.
  exists path. split; [reflexivity|]. split; [exact E1|].
  unfold file_exists in *. rewrite Hfiles. exact E2.
Qed.

End CommandLine.

Lemma exit_status_follows_pipeline_witness :
  let args := main_cli.Namespace (Some "https://youtu.be/x") "en" "tr" "gtts" None false 10 in
  let a := main.Args "https://youtu.be/x" "en" "tr" "gtts" None in
  let w := Cases.terminal [] [] in
  main_cli.main Scenario.cfg Cases.offline Cases.no_microphone false args w
  = (Val (status_of (fst (main.process_video Scenario.cfg Cases.offline a w))),
     snd (main.process_video Scenario.cfg Cases.offline a w)).
Proof.
  intros args a w.
  apply (exit_status_follows_pipeline Scenario.cfg Cases.offline Cases.no_microphone
           false args w a w).
  vm_compute. reflexivity.
Defined.

Lemma prompted_answers_are_valid_witness :
  let w := Cases.terminal [""; "tr"; "9"; "2"; ""; "/app/ref.wav"]
             [("/app/ref.wav", "voice")] in
  let run := main_cli.prepare Scenario.cfg Cases.offline Cases.no_microphone false
               Cases.asking w in
  Py.nonempty (Py.strip "tr") = true
  /\ In "voice_clone" ["gtts"; "voice_clone"; "bark"; "coqui"]
  /\ exists path, Some "/app/ref.wav" = Some path
                  /\ Py.nonempty (Py.strip path) = true
                  /\ file_exists (system (snd run)) path = true.
Proof.
  intros w run.
  destruct (prompted_answers_are_valid Scenario.cfg Cases.offline Cases.no_microphone
              false Cases.asking w
              (main.Args "https://youtu.be/x" "en" "tr" "voice_clone" (Some "/app/ref.wav"))
              (snd run))
    as (H1 & H2 & H3).
  - vm_compute. reflexivity.
  - split; [apply H1; reflexivity|]. split; [apply H2; reflexivity|].
    apply H3; reflexivity.
Defined.

(** ** Durations *)

Lemma append_inj_length (a1 b1 a2 b2 : string) :
  a1 +:+ b1 = a2 +:+ b2 -> String.length a1 = String.length a2 ->
  a1 = a2 /\ b1 = b2.
Proof.
  revert a2. induction a1 as [|c a1 IH]; intros [|c2 a2]; simpl; try discriminate.
  - auto.
  - change (String c a1 +:+ b1) with (String c (a1 +:+ b1)).
    change (String c2 a2 +:+ b2) with (String c2 (a2 +:+ b2)).
    intros H Hl. inversion H; subst. inversion Hl as [Hl'].
    destruct (IH _ H2 Hl') as [-> ->]. auto.
Qed.

Lemma below_sixty (P : Z -> bool) :
  forallb P (List.map Z.of_nat (List.seq 0 60)) = true ->
  forall n, 0 <= n < 60 -> P n = true.
Proof.
  intros H n Hn. rewrite forallb_forall in H. apply H.
  apply in_map_iff. exists (Z.to_nat n). split; [lia|]. apply in_seq. lia.
Qed.

Lemma two_digits_length n :
  0 <= n < 60 -> String.length (main_cli.two_digits n) = 2%nat.
Proof.
  intros Hn.
  apply Nat.eqb_eq.
  apply (below_sixty (fun n => Nat.eqb (String.length (main_cli.two_digits n)) 2));
    [vm_compute; reflexivity | exact Hn].
Qed.

Lemma two_digits_inj n m :
  0 <= n < 60 -> 0 <= m < 60 -> main_cli.two_digits n = main_cli.two_digits m -> n = m.
Proof.
  intros Hn Hm H.
  assert (Hall : forall a, 0 <= a < 60 -> forall b, 0 <= b < 60 ->
            implb (String.eqb (main_cli.two_digits a) (main_cli.two_digits b)) (a =? b)
            = true).
  { intros a Ha.
    apply (below_sixty (fun b => implb (String.eqb (main_cli.two_digits a)
                                          (main_cli.two_digits b)) (a =? b))).
    revert a Ha.
    apply (below_sixty (fun a => forallb (fun b => implb (String.eqb (main_cli.two_digits a)
                                          (main_cli.two_digits b)) (a =? b))
                                   (List.map Z.of_nat (List.seq 0 60)))).
    vm_compute. reflexivity. }
  specialize (Hall n Hn m Hm). rewrite H, String.eqb_refl in Hall.
  apply Z.eqb_eq. exact Hall.
Qed.

(** X30.  Two durations of less than a day are shown differently: the text
    that [format_time] makes of a number of seconds tells the number. *)
Theorem format_time_tells_seconds a b :
  0 <= a < 86400 -> 0 <= b < 86400 ->
  main_cli.format_time a = main_cli.format_time b -> a = b.
Proof.
  intros Ha Hb. unfold main_cli.format_time.
  rewrite (Z.div_small a 86400), (Z.mod_small a 86400),
    (Z.div_small b 86400), (Z.mod_small b 86400) by lia.
  cbn [Z.abs Z.gtb Z.compare Z.eqb].
  intros H. inversion H as [Hs]. clear H.
  assert (Hm : forall x, 0 <= x < 86400 -> 0 <= x / 60 mod 60 < 60)
    by (intros x Hx; apply Z.mod_pos_bound; lia).
  assert (Hc : forall x, 0 <= x < 86400 -> 0 <= x mod 60 < 60)
    by (intros x Hx; apply Z.mod_pos_bound; lia).
  assert (Hlen : String.length (Py.str (a / 3600)) = String.length (Py.str (b / 3600))).
  { apply (f_equal String.length) in Hs. rewrite !length_append in Hs.
    rewrite !two_digits_length in Hs by auto. lia. }
  destruct (append_inj_length _ _ _ _ Hs Hlen) as [Hh Hrest].
  apply (inj pretty) in Hh.
  change (":" +:+ ?x) with (String ":" x) in Hrest.
  inversion Hrest as [Hrest']. clear Hrest.
  destruct (append_inj_length _ _ _ _ Hrest') as [Hmin Hsec].
  { rewrite !two_digits_length by auto. reflexivity. }
  inversion Hsec as [Hsec']. clear Hsec.
  apply two_digits_inj in Hmin; [|auto|auto].
  apply two_digits_inj in Hsec'; [|auto|auto].
  pose proof (Z.div_mod a 60 ltac:(lia)) as Da.
  pose proof (Z.div_mod b 60 ltac:(lia)) as Db.
  pose proof (Z.div_mod (a / 60) 60 ltac:(lia)) as Ea.
  pose proof (Z.div_mod (b / 60) 60 ltac:(lia)) as Eb.
  rewrite Z.div_div in Ea, Eb by lia.
  change (60 * 60) with 3600 in Ea, Eb.
  lia.
Qed.

Lemma format_time_tells_seconds_witness :
  main_cli.format_time 3725 = Val "1:02:05" /\ 3725 = 3725.
Proof.
  split; [reflexivity|].
  apply (format_time_tells_seconds 3725 3725); [lia | lia | reflexivity].
Defined.
